(** * Homely Helper: the room layout model of [src/main.py]

    A shallow embedding of the layout core of the planner: unit conversion,
    the furniture and opening records, the graphics items that carry the
    display geometry, the boundary clamp in [FurnitureItem.itemChange], name
    allocation for doors and windows, and the save/load/cache paths of
    [RoomPlanner].

    Modelling conventions.
    - Python floats and ints that measure lengths, pixels and degrees are
      exact rationals ([Q]) in the model of the window; comparisons are
      those of [Q] and equalities of numbers are stated with [==].  A
      statement over [Q] gives the formula the code evaluates; what the
      rounding of binary floating point makes of a formula is stated
      separately, on the functions of [Binary64], which run the same
      arithmetic on IEEE 754 binary64 numbers.  Counters and the canvas
      scale are Python ints ([Z]).
    - A [QColor] is represented by its [#rrggbb] name, the form in which the
      source reads and writes it ([colour.name()], [QColor(name)]).
    - Exceptions are explicit: a computation returns the state it reached
      together with either a value or the exception raised.
    - Qt is modelled only where the source hands it a callback that touches
      the layout: [QGraphicsItem.setPos] on an item that has the flag
      [ItemSendsGeometryChanges] calls [itemChange] with
      [ItemPositionChange] and then [ItemPositionHasChanged], and does
      nothing when the position does not change.  Form widgets (line edits,
      spin boxes, combo boxes, check boxes) are plain fields; a spin box
      rounds a value to its two decimals and keeps it inside the range given
      to [setRange].  Signals emitted by programmatic updates of form
      widgets are not followed: those of the name field and of the floor
      combo box run slots that assign what the caller has just assigned;
      the one of the border check box runs [toggle_room_border], which
      calls [setChecked] again with the negated flag, and so on until the
      process ends.  That happens when [setChecked] is called with a value
      other than the one the box shows; statements about a load, the cache
      or the stored settings therefore assume that the border flag they
      carry is the one the box shows.  The slots are run where the user
      changes a widget.
    - Documents are JSON objects whose values have the types that
      [save_layout] writes; a JSON text that is not an object is a case of
      its own ([NotAnObject]). *)

From Stdlib Require Import QArith ZArith Qround Qabs Bool Lia Lqa.
From Stdlib Require Import String List Permutation DecimalString DecimalZ.
From Stdlib Require Floats.
Import ListNotations.

Set Warnings "-inexact-float".

Open Scope Q_scope.

(* ------------------------------------------------------------------ *)
(** ** Python arithmetic *)

Inductive exn : Type :=
  | KeyError (key : string)
  | ZeroDivisionError
  | OSError
  | JSONDecodeError
  | AttributeError
  | LoopFuelExhausted.

Inductive outcome (A : Type) : Type :=
  | Ret (a : A)
  | Raise (e : exn).

Arguments Ret {A} a.
Arguments Raise {A} e.

Definition Qlt_bool (x y : Q) : bool := negb (Qle_bool y x).

(** [min(a, b)]: the first argument unless the second is smaller. *)
Definition py_min (a b : Q) : Q := if Qlt_bool b a then b else a.

(** [max(a, b)]: the first argument unless the second is larger. *)
Definition py_max (a b : Q) : Q := if Qlt_bool a b then b else a.

(** [a % n] for a positive modulus: the remainder has the sign of [n]. *)
Definition py_mod (a n : Q) : Q := a - n * inject_Z (Qfloor (a / n)).

(** [a / b]. *)
Definition py_truediv (a b : Q) : outcome Q :=
  if Qeq_bool b 0 then Raise ZeroDivisionError else Ret (a / b).

(** [str(n)] of an int, as used by f-strings. *)
Definition py_str (n : Z) : string := NilZero.string_of_int (Z.to_int n).

(* ------------------------------------------------------------------ *)
(** ** Utility: unit conversion *)

(** The keys of [_UNIT_FACTORS]: ["m"], ["ft"], ["in"].  Every call site
    passes the current text of a combo box filled with exactly these. *)
Inductive length_unit : Type := U_m | U_ft | U_in.

Definition unit_eqb (a b : length_unit) : bool :=
  match a, b with
  | U_m, U_m | U_ft, U_ft | U_in, U_in => true
  | _, _ => false
  end.

Definition unit_label (u : length_unit) : string :=
  match u with U_m => "m" | U_ft => "ft" | U_in => "in" end.

Definition _UNIT_FACTORS (u : length_unit) : Q :=
  match u with U_m => 1.0 | U_ft => 0.3048 | U_in => 0.0254 end.

Definition to_m (value : Q) (u : length_unit) : Q := value * _UNIT_FACTORS u.

Definition from_m (value_m : Q) (u : length_unit) : Q := value_m / _UNIT_FACTORS u.

(* ------------------------------------------------------------------ *)
(** ** Floor textures *)

Module FloorTexture.

(** The keys of [FloorTexture.TEXTURES], in order. *)
Definition TEXTURES : list string :=
  ["None"; "Hardwood"; "Carpet"; "Tile"; "Concrete"]%string.

(** [texture_name in FloorTexture.TEXTURES]. *)
Definition mem (texture_name : string) : bool :=
  existsb (String.eqb texture_name) TEXTURES.

End FloorTexture.

(* ------------------------------------------------------------------ *)
(** ** Data-model classes *)

Definition QColor : Type := string.

Record Furniture : Type := mkFurniture {
  name : string;
  width_m : Q;
  depth_m : Q;
  colour : QColor;
  x_m : Q;
  y_m : Q;
  rotation : Q
}.

Record DoorWindow : Type := mkDoorWindow {
  dw_name : string;
  dw_width_m : Q;
  thickness_m : Q;
  dw_x_m : Q;
  dw_y_m : Q;
  is_door : bool
}.

Record QPointF : Type := mkQPointF { px : Q; py : Q }.

(** A rectangle anchored at the origin, as every [setRect(0, 0, w, h)]. *)
Record QRectF : Type := mkQRectF { width : Q; height : Q }.

Definition QPointF_eqb (p q : QPointF) : bool :=
  Qeq_bool (px p) (px q) && Qeq_bool (py p) (py q).

(** [DoorItem]: the display state of a door or window. *)
Record DoorItem : Type := mkDoorItem {
  door_window : DoorWindow;
  door_scale : Z;
  door_rect : QRectF;
  door_pos : QPointF;
  door_rotation : Q;
  is_open : bool
}.

(** [FurnitureItem]: a furniture record with its display state. *)
Record FurnitureItem : Type := mkFurnitureItem {
  furn : Furniture;
  scale : Z;
  rect : QRectF;
  pos : QPointF;
  item_rotation : Q
}.

(** The entries of the list widget carry the [Furniture] or [DoorWindow]
    object as user data; the code modelled here reads only the number of
    entries, the class of the data and its [name], which is never
    reassigned. *)
Inductive ListEntry : Type :=
  | FurnitureEntry (entry_name : string)
  | DoorWindowEntry (entry_name : string) (entry_is_door : bool).

Definition entry_data_name (e : ListEntry) : string :=
  match e with
  | FurnitureEntry n => n
  | DoorWindowEntry n _ => n
  end.

(** The dictionary kept by [copy_furniture]. *)
Record Clipboard : Type := mkClipboard {
  clip_name : string;
  clip_width_m : Q;
  clip_depth_m : Q;
  clip_colour : string;
  clip_rotation : Q
}.

(* ------------------------------------------------------------------ *)
(** ** Persisted documents *)

(** Documents are taken well typed: a key that is present holds a value of
    the type [save_layout] writes for it (a string, a number, a boolean, an
    object, an array of objects).  What varies is which keys are present.
    A document in which a present key holds a value of another type (a
    width that is [null] or a string, say) is outside the model. *)

(** The [room] object of a layout document; [None] is an absent key. *)
Record room_data : Type := mkRoomData {
  rd_name : option string;
  rd_width_m : option Q;
  rd_depth_m : option Q;
  rd_floor_texture : option string;
  rd_show_border : option bool
}.

(** One element of the [furniture] array; [None] is an absent key. *)
Record furn_data : Type := mkFurnData {
  fd_name : option string;
  fd_width_m : option Q;
  fd_depth_m : option Q;
  fd_colour : option string;
  fd_x_m : option Q;
  fd_y_m : option Q;
  fd_rotation : option Q
}.

Record layout_data : Type := mkLayoutData {
  ld_room : option room_data;
  ld_furniture : option (list furn_data)
}.

(** What [json.load] makes of a text: an error, a value that is not an
    object (an array, a string, a number, [true], [false], [null]), or an
    object. *)
Inductive json_text : Type :=
  | Malformed
  | NotAnObject
  | Document (d : layout_data).

(** The value [json.load] returns: a [dict], or a value without [get]. *)
Inductive json_value : Type :=
  | JDict (d : layout_data)
  | JOther.

(** What [open] makes of a file name. *)
Inductive file : Type :=
  | Unreadable
  | Readable (text : json_text).


(** The values read from and written to [QSettings]. *)
Record QSettings : Type := mkQSettings {
  s_canvas_scale : option Z;
  s_show_border : option bool;
  s_floor_texture : option string;
  s_cached_room : option json_text
}.

(** The message boxes a command can end with. *)
Inductive message : Type :=
  | NoMessage
  | Information
  | Warning
  | Critical (e : exn).

(* ------------------------------------------------------------------ *)
(** ** Field assignments *)

Definition set_position_m (x y : Q) (f : Furniture) : Furniture :=
  {| name := name f; width_m := width_m f; depth_m := depth_m f; colour := colour f;
     x_m := x; y_m := y; rotation := rotation f |}.

Definition set_rotation (r : Q) (f : Furniture) : Furniture :=
  {| name := name f; width_m := width_m f; depth_m := depth_m f; colour := colour f;
     x_m := x_m f; y_m := y_m f; rotation := r |}.

Definition item_set_furn (f : Furniture) (self : FurnitureItem) : FurnitureItem :=
  {| furn := f; scale := scale self; rect := rect self; pos := pos self;
     item_rotation := item_rotation self |}.

Definition item_set_scale (s : Z) (self : FurnitureItem) : FurnitureItem :=
  {| furn := furn self; scale := s; rect := rect self; pos := pos self;
     item_rotation := item_rotation self |}.

Definition setRect (w h : Q) (self : FurnitureItem) : FurnitureItem :=
  {| furn := furn self; scale := scale self; rect := {| width := w; height := h |};
     pos := pos self; item_rotation := item_rotation self |}.

Definition setPosHelper (p : QPointF) (self : FurnitureItem) : FurnitureItem :=
  {| furn := furn self; scale := scale self; rect := rect self; pos := p;
     item_rotation := item_rotation self |}.

Definition setRotation (r : Q) (self : FurnitureItem) : FurnitureItem :=
  {| furn := furn self; scale := scale self; rect := rect self; pos := pos self;
     item_rotation := r |}.

Definition door_setPos (p : QPointF) (self : DoorItem) : DoorItem :=
  {| door_window := door_window self; door_scale := door_scale self;
     door_rect := door_rect self; door_pos := p;
     door_rotation := door_rotation self; is_open := is_open self |}.

Definition door_setRotation (r : Q) (self : DoorItem) : DoorItem :=
  {| door_window := door_window self; door_scale := door_scale self;
     door_rect := door_rect self; door_pos := door_pos self;
     door_rotation := r; is_open := is_open self |}.

(* ------------------------------------------------------------------ *)
(** ** The main window: state *)

Record ControlPanel : Type := mkControlPanel {
  room_name_input : string;
  room_w_spin : Q;
  room_w_unit : length_unit;
  room_d_spin : Q;
  room_d_unit : length_unit;
  border_checkbox : bool;
  snap_checkbox : bool;
  floor_combo : string;
  f_name : string;
  f_w_spin : Q;
  f_w_unit : length_unit;
  f_d_spin : Q;
  f_d_unit : length_unit;
  f_colour : QColor
}.

Definition panel_set_room_name_input (v : string) (p : ControlPanel) : ControlPanel :=
  {| room_name_input := v; room_w_spin := room_w_spin p; room_w_unit := room_w_unit p;
     room_d_spin := room_d_spin p; room_d_unit := room_d_unit p;
     border_checkbox := border_checkbox p; snap_checkbox := snap_checkbox p;
     floor_combo := floor_combo p; f_name := f_name p; f_w_spin := f_w_spin p;
     f_w_unit := f_w_unit p; f_d_spin := f_d_spin p; f_d_unit := f_d_unit p;
     f_colour := f_colour p |}.

Definition panel_set_room_w_spin (v : Q) (p : ControlPanel) : ControlPanel :=
  {| room_name_input := room_name_input p; room_w_spin := v; room_w_unit := room_w_unit p;
     room_d_spin := room_d_spin p; room_d_unit := room_d_unit p;
     border_checkbox := border_checkbox p; snap_checkbox := snap_checkbox p;
     floor_combo := floor_combo p; f_name := f_name p; f_w_spin := f_w_spin p;
     f_w_unit := f_w_unit p; f_d_spin := f_d_spin p; f_d_unit := f_d_unit p;
     f_colour := f_colour p |}.

Definition panel_set_room_w_unit (v : length_unit) (p : ControlPanel) : ControlPanel :=
  {| room_name_input := room_name_input p; room_w_spin := room_w_spin p; room_w_unit := v;
     room_d_spin := room_d_spin p; room_d_unit := room_d_unit p;
     border_checkbox := border_checkbox p; snap_checkbox := snap_checkbox p;
     floor_combo := floor_combo p; f_name := f_name p; f_w_spin := f_w_spin p;
     f_w_unit := f_w_unit p; f_d_spin := f_d_spin p; f_d_unit := f_d_unit p;
     f_colour := f_colour p |}.

Definition panel_set_room_d_spin (v : Q) (p : ControlPanel) : ControlPanel :=
  {| room_name_input := room_name_input p; room_w_spin := room_w_spin p;
     room_w_unit := room_w_unit p; room_d_spin := v; room_d_unit := room_d_unit p;
     border_checkbox := border_checkbox p; snap_checkbox := snap_checkbox p;
     floor_combo := floor_combo p; f_name := f_name p; f_w_spin := f_w_spin p;
     f_w_unit := f_w_unit p; f_d_spin := f_d_spin p; f_d_unit := f_d_unit p;
     f_colour := f_colour p |}.

Definition panel_set_room_d_unit (v : length_unit) (p : ControlPanel) : ControlPanel :=
  {| room_name_input := room_name_input p; room_w_spin := room_w_spin p;
     room_w_unit := room_w_unit p; room_d_spin := room_d_spin p; room_d_unit := v;
     border_checkbox := border_checkbox p; snap_checkbox := snap_checkbox p;
     floor_combo := floor_combo p; f_name := f_name p; f_w_spin := f_w_spin p;
     f_w_unit := f_w_unit p; f_d_spin := f_d_spin p; f_d_unit := f_d_unit p;
     f_colour := f_colour p |}.

Definition panel_set_border_checkbox (v : bool) (p : ControlPanel) : ControlPanel :=
  {| room_name_input := room_name_input p; room_w_spin := room_w_spin p;
     room_w_unit := room_w_unit p; room_d_spin := room_d_spin p; room_d_unit := room_d_unit p;
     border_checkbox := v; snap_checkbox := snap_checkbox p; floor_combo := floor_combo p;
     f_name := f_name p; f_w_spin := f_w_spin p; f_w_unit := f_w_unit p; f_d_spin := f_d_spin p;
     f_d_unit := f_d_unit p; f_colour := f_colour p |}.

Definition panel_set_snap_checkbox (v : bool) (p : ControlPanel) : ControlPanel :=
  {| room_name_input := room_name_input p; room_w_spin := room_w_spin p;
     room_w_unit := room_w_unit p; room_d_spin := room_d_spin p; room_d_unit := room_d_unit p;
     border_checkbox := border_checkbox p; snap_checkbox := v; floor_combo := floor_combo p;
     f_name := f_name p; f_w_spin := f_w_spin p; f_w_unit := f_w_unit p; f_d_spin := f_d_spin p;
     f_d_unit := f_d_unit p; f_colour := f_colour p |}.

Definition panel_set_floor_combo (v : string) (p : ControlPanel) : ControlPanel :=
  {| room_name_input := room_name_input p; room_w_spin := room_w_spin p;
     room_w_unit := room_w_unit p; room_d_spin := room_d_spin p; room_d_unit := room_d_unit p;
     border_checkbox := border_checkbox p; snap_checkbox := snap_checkbox p; floor_combo := v;
     f_name := f_name p; f_w_spin := f_w_spin p; f_w_unit := f_w_unit p; f_d_spin := f_d_spin p;
     f_d_unit := f_d_unit p; f_colour := f_colour p |}.

Definition panel_set_f_name (v : string) (p : ControlPanel) : ControlPanel :=
  {| room_name_input := room_name_input p; room_w_spin := room_w_spin p;
     room_w_unit := room_w_unit p; room_d_spin := room_d_spin p; room_d_unit := room_d_unit p;
     border_checkbox := border_checkbox p; snap_checkbox := snap_checkbox p;
     floor_combo := floor_combo p; f_name := v; f_w_spin := f_w_spin p; f_w_unit := f_w_unit p;
     f_d_spin := f_d_spin p; f_d_unit := f_d_unit p; f_colour := f_colour p |}.

Definition panel_set_f_w_spin (v : Q) (p : ControlPanel) : ControlPanel :=
  {| room_name_input := room_name_input p; room_w_spin := room_w_spin p;
     room_w_unit := room_w_unit p; room_d_spin := room_d_spin p; room_d_unit := room_d_unit p;
     border_checkbox := border_checkbox p; snap_checkbox := snap_checkbox p;
     floor_combo := floor_combo p; f_name := f_name p; f_w_spin := v; f_w_unit := f_w_unit p;
     f_d_spin := f_d_spin p; f_d_unit := f_d_unit p; f_colour := f_colour p |}.

Definition panel_set_f_w_unit (v : length_unit) (p : ControlPanel) : ControlPanel :=
  {| room_name_input := room_name_input p; room_w_spin := room_w_spin p;
     room_w_unit := room_w_unit p; room_d_spin := room_d_spin p; room_d_unit := room_d_unit p;
     border_checkbox := border_checkbox p; snap_checkbox := snap_checkbox p;
     floor_combo := floor_combo p; f_name := f_name p; f_w_spin := f_w_spin p; f_w_unit := v;
     f_d_spin := f_d_spin p; f_d_unit := f_d_unit p; f_colour := f_colour p |}.

Definition panel_set_f_d_spin (v : Q) (p : ControlPanel) : ControlPanel :=
  {| room_name_input := room_name_input p; room_w_spin := room_w_spin p;
     room_w_unit := room_w_unit p; room_d_spin := room_d_spin p; room_d_unit := room_d_unit p;
     border_checkbox := border_checkbox p; snap_checkbox := snap_checkbox p;
     floor_combo := floor_combo p; f_name := f_name p; f_w_spin := f_w_spin p;
     f_w_unit := f_w_unit p; f_d_spin := v; f_d_unit := f_d_unit p; f_colour := f_colour p |}.

Definition panel_set_f_d_unit (v : length_unit) (p : ControlPanel) : ControlPanel :=
  {| room_name_input := room_name_input p; room_w_spin := room_w_spin p;
     room_w_unit := room_w_unit p; room_d_spin := room_d_spin p; room_d_unit := room_d_unit p;
     border_checkbox := border_checkbox p; snap_checkbox := snap_checkbox p;
     floor_combo := floor_combo p; f_name := f_name p; f_w_spin := f_w_spin p;
     f_w_unit := f_w_unit p; f_d_spin := f_d_spin p; f_d_unit := v; f_colour := f_colour p |}.

Definition panel_set_f_colour (v : QColor) (p : ControlPanel) : ControlPanel :=
  {| room_name_input := room_name_input p; room_w_spin := room_w_spin p;
     room_w_unit := room_w_unit p; room_d_spin := room_d_spin p; room_d_unit := room_d_unit p;
     border_checkbox := border_checkbox p; snap_checkbox := snap_checkbox p;
     floor_combo := floor_combo p; f_name := f_name p; f_w_spin := f_w_spin p;
     f_w_unit := f_w_unit p; f_d_spin := f_d_spin p; f_d_unit := f_d_unit p; f_colour := v |}.

Record RoomPlanner : Type := mkRoomPlanner {
  settings : QSettings;
  pixels_per_m : Z;
  show_room_border : bool;
  current_floor_texture : string;
  current_room_unit : length_unit;
  current_furniture_unit : length_unit;
  clipboard_furniture : option Clipboard;
  room_width_m : Q;
  room_depth_m : Q;
  room_name : string;
  _room_rect_item : option QRectF;
  furniture_items : list FurnitureItem;
  door_items : list DoorItem;
  snap_to_borders : bool;
  door_counter : Z;
  window_counter : Z;
  list_widget : list ListEntry;
  control_panel : ControlPanel
}.

Definition set_settings (v : QSettings) (self : RoomPlanner) : RoomPlanner :=
  {| settings := v; pixels_per_m := pixels_per_m self; show_room_border := show_room_border self;
     current_floor_texture := current_floor_texture self;
     current_room_unit := current_room_unit self;
     current_furniture_unit := current_furniture_unit self;
     clipboard_furniture := clipboard_furniture self; room_width_m := room_width_m self;
     room_depth_m := room_depth_m self; room_name := room_name self;
     _room_rect_item := _room_rect_item self; furniture_items := furniture_items self;
     door_items := door_items self; snap_to_borders := snap_to_borders self;
     door_counter := door_counter self; window_counter := window_counter self;
     list_widget := list_widget self; control_panel := control_panel self |}.

Definition set_pixels_per_m (v : Z) (self : RoomPlanner) : RoomPlanner :=
  {| settings := settings self; pixels_per_m := v; show_room_border := show_room_border self;
     current_floor_texture := current_floor_texture self;
     current_room_unit := current_room_unit self;
     current_furniture_unit := current_furniture_unit self;
     clipboard_furniture := clipboard_furniture self; room_width_m := room_width_m self;
     room_depth_m := room_depth_m self; room_name := room_name self;
     _room_rect_item := _room_rect_item self; furniture_items := furniture_items self;
     door_items := door_items self; snap_to_borders := snap_to_borders self;
     door_counter := door_counter self; window_counter := window_counter self;
     list_widget := list_widget self; control_panel := control_panel self |}.

Definition set_show_room_border (v : bool) (self : RoomPlanner) : RoomPlanner :=
  {| settings := settings self; pixels_per_m := pixels_per_m self; show_room_border := v;
     current_floor_texture := current_floor_texture self;
     current_room_unit := current_room_unit self;
     current_furniture_unit := current_furniture_unit self;
     clipboard_furniture := clipboard_furniture self; room_width_m := room_width_m self;
     room_depth_m := room_depth_m self; room_name := room_name self;
     _room_rect_item := _room_rect_item self; furniture_items := furniture_items self;
     door_items := door_items self; snap_to_borders := snap_to_borders self;
     door_counter := door_counter self; window_counter := window_counter self;
     list_widget := list_widget self; control_panel := control_panel self |}.

Definition set_current_floor_texture (v : string) (self : RoomPlanner) : RoomPlanner :=
  {| settings := settings self; pixels_per_m := pixels_per_m self;
     show_room_border := show_room_border self; current_floor_texture := v;
     current_room_unit := current_room_unit self;
     current_furniture_unit := current_furniture_unit self;
     clipboard_furniture := clipboard_furniture self; room_width_m := room_width_m self;
     room_depth_m := room_depth_m self; room_name := room_name self;
     _room_rect_item := _room_rect_item self; furniture_items := furniture_items self;
     door_items := door_items self; snap_to_borders := snap_to_borders self;
     door_counter := door_counter self; window_counter := window_counter self;
     list_widget := list_widget self; control_panel := control_panel self |}.

Definition set_current_room_unit (v : length_unit) (self : RoomPlanner) : RoomPlanner :=
  {| settings := settings self; pixels_per_m := pixels_per_m self;
     show_room_border := show_room_border self;
     current_floor_texture := current_floor_texture self; current_room_unit := v;
     current_furniture_unit := current_furniture_unit self;
     clipboard_furniture := clipboard_furniture self; room_width_m := room_width_m self;
     room_depth_m := room_depth_m self; room_name := room_name self;
     _room_rect_item := _room_rect_item self; furniture_items := furniture_items self;
     door_items := door_items self; snap_to_borders := snap_to_borders self;
     door_counter := door_counter self; window_counter := window_counter self;
     list_widget := list_widget self; control_panel := control_panel self |}.

Definition set_current_furniture_unit (v : length_unit) (self : RoomPlanner) : RoomPlanner :=
  {| settings := settings self; pixels_per_m := pixels_per_m self;
     show_room_border := show_room_border self;
     current_floor_texture := current_floor_texture self;
     current_room_unit := current_room_unit self; current_furniture_unit := v;
     clipboard_furniture := clipboard_furniture self; room_width_m := room_width_m self;
     room_depth_m := room_depth_m self; room_name := room_name self;
     _room_rect_item := _room_rect_item self; furniture_items := furniture_items self;
     door_items := door_items self; snap_to_borders := snap_to_borders self;
     door_counter := door_counter self; window_counter := window_counter self;
     list_widget := list_widget self; control_panel := control_panel self |}.

Definition set_clipboard_furniture (v : option Clipboard) (self : RoomPlanner) : RoomPlanner :=
  {| settings := settings self; pixels_per_m := pixels_per_m self;
     show_room_border := show_room_border self;
     current_floor_texture := current_floor_texture self;
     current_room_unit := current_room_unit self;
     current_furniture_unit := current_furniture_unit self; clipboard_furniture := v;
     room_width_m := room_width_m self; room_depth_m := room_depth_m self;
     room_name := room_name self; _room_rect_item := _room_rect_item self;
     furniture_items := furniture_items self; door_items := door_items self;
     snap_to_borders := snap_to_borders self; door_counter := door_counter self;
     window_counter := window_counter self; list_widget := list_widget self;
     control_panel := control_panel self |}.

Definition set_room_width_m (v : Q) (self : RoomPlanner) : RoomPlanner :=
  {| settings := settings self; pixels_per_m := pixels_per_m self;
     show_room_border := show_room_border self;
     current_floor_texture := current_floor_texture self;
     current_room_unit := current_room_unit self;
     current_furniture_unit := current_furniture_unit self;
     clipboard_furniture := clipboard_furniture self; room_width_m := v;
     room_depth_m := room_depth_m self; room_name := room_name self;
     _room_rect_item := _room_rect_item self; furniture_items := furniture_items self;
     door_items := door_items self; snap_to_borders := snap_to_borders self;
     door_counter := door_counter self; window_counter := window_counter self;
     list_widget := list_widget self; control_panel := control_panel self |}.

Definition set_room_depth_m (v : Q) (self : RoomPlanner) : RoomPlanner :=
  {| settings := settings self; pixels_per_m := pixels_per_m self;
     show_room_border := show_room_border self;
     current_floor_texture := current_floor_texture self;
     current_room_unit := current_room_unit self;
     current_furniture_unit := current_furniture_unit self;
     clipboard_furniture := clipboard_furniture self; room_width_m := room_width_m self;
     room_depth_m := v; room_name := room_name self; _room_rect_item := _room_rect_item self;
     furniture_items := furniture_items self; door_items := door_items self;
     snap_to_borders := snap_to_borders self; door_counter := door_counter self;
     window_counter := window_counter self; list_widget := list_widget self;
     control_panel := control_panel self |}.

Definition set_room_name (v : string) (self : RoomPlanner) : RoomPlanner :=
  {| settings := settings self; pixels_per_m := pixels_per_m self;
     show_room_border := show_room_border self;
     current_floor_texture := current_floor_texture self;
     current_room_unit := current_room_unit self;
     current_furniture_unit := current_furniture_unit self;
     clipboard_furniture := clipboard_furniture self; room_width_m := room_width_m self;
     room_depth_m := room_depth_m self; room_name := v; _room_rect_item := _room_rect_item self;
     furniture_items := furniture_items self; door_items := door_items self;
     snap_to_borders := snap_to_borders self; door_counter := door_counter self;
     window_counter := window_counter self; list_widget := list_widget self;
     control_panel := control_panel self |}.

Definition set_room_rect_item (v : option QRectF) (self : RoomPlanner) : RoomPlanner :=
  {| settings := settings self; pixels_per_m := pixels_per_m self;
     show_room_border := show_room_border self;
     current_floor_texture := current_floor_texture self;
     current_room_unit := current_room_unit self;
     current_furniture_unit := current_furniture_unit self;
     clipboard_furniture := clipboard_furniture self; room_width_m := room_width_m self;
     room_depth_m := room_depth_m self; room_name := room_name self; _room_rect_item := v;
     furniture_items := furniture_items self; door_items := door_items self;
     snap_to_borders := snap_to_borders self; door_counter := door_counter self;
     window_counter := window_counter self; list_widget := list_widget self;
     control_panel := control_panel self |}.

Definition set_furniture_items (v : list FurnitureItem) (self : RoomPlanner) : RoomPlanner :=
  {| settings := settings self; pixels_per_m := pixels_per_m self;
     show_room_border := show_room_border self;
     current_floor_texture := current_floor_texture self;
     current_room_unit := current_room_unit self;
     current_furniture_unit := current_furniture_unit self;
     clipboard_furniture := clipboard_furniture self; room_width_m := room_width_m self;
     room_depth_m := room_depth_m self; room_name := room_name self;
     _room_rect_item := _room_rect_item self; furniture_items := v;
     door_items := door_items self; snap_to_borders := snap_to_borders self;
     door_counter := door_counter self; window_counter := window_counter self;
     list_widget := list_widget self; control_panel := control_panel self |}.

Definition set_door_items (v : list DoorItem) (self : RoomPlanner) : RoomPlanner :=
  {| settings := settings self; pixels_per_m := pixels_per_m self;
     show_room_border := show_room_border self;
     current_floor_texture := current_floor_texture self;
     current_room_unit := current_room_unit self;
     current_furniture_unit := current_furniture_unit self;
     clipboard_furniture := clipboard_furniture self; room_width_m := room_width_m self;
     room_depth_m := room_depth_m self; room_name := room_name self;
     _room_rect_item := _room_rect_item self; furniture_items := furniture_items self;
     door_items := v; snap_to_borders := snap_to_borders self; door_counter := door_counter self;
     window_counter := window_counter self; list_widget := list_widget self;
     control_panel := control_panel self |}.

Definition set_snap_to_borders (v : bool) (self : RoomPlanner) : RoomPlanner :=
  {| settings := settings self; pixels_per_m := pixels_per_m self;
     show_room_border := show_room_border self;
     current_floor_texture := current_floor_texture self;
     current_room_unit := current_room_unit self;
     current_furniture_unit := current_furniture_unit self;
     clipboard_furniture := clipboard_furniture self; room_width_m := room_width_m self;
     room_depth_m := room_depth_m self; room_name := room_name self;
     _room_rect_item := _room_rect_item self; furniture_items := furniture_items self;
     door_items := door_items self; snap_to_borders := v; door_counter := door_counter self;
     window_counter := window_counter self; list_widget := list_widget self;
     control_panel := control_panel self |}.

Definition set_door_counter (v : Z) (self : RoomPlanner) : RoomPlanner :=
  {| settings := settings self; pixels_per_m := pixels_per_m self;
     show_room_border := show_room_border self;
     current_floor_texture := current_floor_texture self;
     current_room_unit := current_room_unit self;
     current_furniture_unit := current_furniture_unit self;
     clipboard_furniture := clipboard_furniture self; room_width_m := room_width_m self;
     room_depth_m := room_depth_m self; room_name := room_name self;
     _room_rect_item := _room_rect_item self; furniture_items := furniture_items self;
     door_items := door_items self; snap_to_borders := snap_to_borders self; door_counter := v;
     window_counter := window_counter self; list_widget := list_widget self;
     control_panel := control_panel self |}.

Definition set_window_counter (v : Z) (self : RoomPlanner) : RoomPlanner :=
  {| settings := settings self; pixels_per_m := pixels_per_m self;
     show_room_border := show_room_border self;
     current_floor_texture := current_floor_texture self;
     current_room_unit := current_room_unit self;
     current_furniture_unit := current_furniture_unit self;
     clipboard_furniture := clipboard_furniture self; room_width_m := room_width_m self;
     room_depth_m := room_depth_m self; room_name := room_name self;
     _room_rect_item := _room_rect_item self; furniture_items := furniture_items self;
     door_items := door_items self; snap_to_borders := snap_to_borders self;
     door_counter := door_counter self; window_counter := v; list_widget := list_widget self;
     control_panel := control_panel self |}.

Definition set_list_widget (v : list ListEntry) (self : RoomPlanner) : RoomPlanner :=
  {| settings := settings self; pixels_per_m := pixels_per_m self;
     show_room_border := show_room_border self;
     current_floor_texture := current_floor_texture self;
     current_room_unit := current_room_unit self;
     current_furniture_unit := current_furniture_unit self;
     clipboard_furniture := clipboard_furniture self; room_width_m := room_width_m self;
     room_depth_m := room_depth_m self; room_name := room_name self;
     _room_rect_item := _room_rect_item self; furniture_items := furniture_items self;
     door_items := door_items self; snap_to_borders := snap_to_borders self;
     door_counter := door_counter self; window_counter := window_counter self; list_widget := v;
     control_panel := control_panel self |}.

Definition set_control_panel (v : ControlPanel) (self : RoomPlanner) : RoomPlanner :=
  {| settings := settings self; pixels_per_m := pixels_per_m self;
     show_room_border := show_room_border self;
     current_floor_texture := current_floor_texture self;
     current_room_unit := current_room_unit self;
     current_furniture_unit := current_furniture_unit self;
     clipboard_furniture := clipboard_furniture self; room_width_m := room_width_m self;
     room_depth_m := room_depth_m self; room_name := room_name self;
     _room_rect_item := _room_rect_item self; furniture_items := furniture_items self;
     door_items := door_items self; snap_to_borders := snap_to_borders self;
     door_counter := door_counter self; window_counter := window_counter self;
     list_widget := list_widget self; control_panel := v |}.

Definition set_room_name_input (v : string) (self : RoomPlanner) : RoomPlanner :=
  set_control_panel (panel_set_room_name_input v (control_panel self)) self.

Definition set_room_w_spin (v : Q) (self : RoomPlanner) : RoomPlanner :=
  set_control_panel (panel_set_room_w_spin v (control_panel self)) self.

Definition set_room_w_unit (v : length_unit) (self : RoomPlanner) : RoomPlanner :=
  set_control_panel (panel_set_room_w_unit v (control_panel self)) self.

Definition set_room_d_spin (v : Q) (self : RoomPlanner) : RoomPlanner :=
  set_control_panel (panel_set_room_d_spin v (control_panel self)) self.

Definition set_room_d_unit (v : length_unit) (self : RoomPlanner) : RoomPlanner :=
  set_control_panel (panel_set_room_d_unit v (control_panel self)) self.

Definition set_border_checkbox (v : bool) (self : RoomPlanner) : RoomPlanner :=
  set_control_panel (panel_set_border_checkbox v (control_panel self)) self.

Definition set_snap_checkbox (v : bool) (self : RoomPlanner) : RoomPlanner :=
  set_control_panel (panel_set_snap_checkbox v (control_panel self)) self.

Definition set_floor_combo (v : string) (self : RoomPlanner) : RoomPlanner :=
  set_control_panel (panel_set_floor_combo v (control_panel self)) self.

Definition set_f_name (v : string) (self : RoomPlanner) : RoomPlanner :=
  set_control_panel (panel_set_f_name v (control_panel self)) self.

Definition set_f_w_spin (v : Q) (self : RoomPlanner) : RoomPlanner :=
  set_control_panel (panel_set_f_w_spin v (control_panel self)) self.

Definition set_f_w_unit (v : length_unit) (self : RoomPlanner) : RoomPlanner :=
  set_control_panel (panel_set_f_w_unit v (control_panel self)) self.

Definition set_f_d_spin (v : Q) (self : RoomPlanner) : RoomPlanner :=
  set_control_panel (panel_set_f_d_spin v (control_panel self)) self.

Definition set_f_d_unit (v : length_unit) (self : RoomPlanner) : RoomPlanner :=
  set_control_panel (panel_set_f_d_unit v (control_panel self)) self.

Definition set_f_colour (v : QColor) (self : RoomPlanner) : RoomPlanner :=
  set_control_panel (panel_set_f_colour v (control_panel self)) self.

(* ------------------------------------------------------------------ *)
(** ** Commands: state passing with exceptions *)

Definition SE (S A : Type) : Type := S -> S * outcome A.

Definition ret {S A : Type} (a : A) : SE S A := fun s => (s, Ret a).

Definition raise {S A : Type} (e : exn) : SE S A := fun s => (s, Raise e).

Definition bind {S A B : Type} (c : SE S A) (k : A -> SE S B) : SE S B :=
  fun s =>
    match c s with
    | (s', Ret a) => k a s'
    | (s', Raise e) => (s', Raise e)
    end.

Definition get {S : Type} : SE S S := fun s => (s, Ret s).

Definition modify {S : Type} (f : S -> S) : SE S unit := fun s => (f s, Ret tt).

Definition lift {S A : Type} (o : outcome A) : SE S A := fun s => (s, o).

(** [try: body except Exception as e: handler(e)]. *)
Definition try_except {S A : Type} (body : SE S A) (handler : exn -> SE S A) : SE S A :=
  fun s =>
    match body s with
    | (s', Raise e) => handler e s'
    | r => r
    end.

Declare Scope se_scope.
Delimit Scope se_scope with se.
Notation "x <- c1 ;; c2" := (bind c1 (fun x => c2))
  (at level 61, c1 at next level, right associativity) : se_scope.
Notation "c1 ;; c2" := (bind c1 (fun _ => c2))
  (at level 61, right associativity) : se_scope.
Open Scope se_scope.

(** [for x in l: body(x)]. *)
Fixpoint for_each {S A : Type} (l : list A) (body : A -> SE S unit) : SE S unit :=
  match l with
  | [] => ret tt
  | x :: rest => body x ;; for_each rest body
  end.

(** A method call on an object that is local to the caller: an exception
    leaves the caller's state as it is and the object is dropped. *)
Definition on_local {S L : Type} (obj : L) (c : SE L unit) : SE S L :=
  fun s =>
    match c obj with
    | (obj', Ret _) => (s, Ret obj')
    | (_, Raise e) => (s, Raise e)
    end.

(** [d.get(key, default)] and [d[key]]. *)
Definition dict_get {A : Type} (entry : option A) (default : A) : A :=
  match entry with Some v => v | None => default end.

Definition dict_item {S A : Type} (key : string) (entry : option A) : SE S A :=
  match entry with Some v => ret v | None => raise (KeyError key) end.

(** The bounding of a value to the range given to [setRange(lo, hi)]. *)
Definition qBound (lo v hi : Q) : Q :=
  if Qlt_bool v lo then lo else if Qlt_bool hi v then hi else v.

(** [QDoubleSpinBoxPrivate::round] for the default of two decimals: the
    nearest multiple of 0.01, a tie away from zero.  The program rounds the
    double it has computed, so that where the exact value is a tie (5.715)
    it takes the neighbour on the side of the rounding error of that
    double; the two differ by 0.01 there, and nowhere else. *)
Definition round_decimals (v : Q) : Q :=
  if Qlt_bool v 0 then - (inject_Z (Qfloor (- v * 100 + (1 # 2))) / 100)
  else inject_Z (Qfloor (v * 100 + (1 # 2))) / 100.

(** [QDoubleSpinBox.setValue] on one of the four spin boxes of the control
    panel, which have two decimals and [setRange(1, 1000)]: the value is
    rounded, then bounded. *)
Definition spin_setValue (v : Q) : Q := qBound 1 (round_decimals v) 1000.

(* ------------------------------------------------------------------ *)
(** ** FurnitureItem and DoorItem *)

Definition origin : QPointF := {| px := 0; py := 0 |}.

(** [FurnitureItem.__init__]. *)
Definition FurnitureItem_init (furn : Furniture) (scale : Z) : FurnitureItem :=
  {| furn := furn;
     scale := scale;
     rect := {| width := width_m furn * inject_Z scale;
                height := depth_m furn * inject_Z scale |};
     pos := origin;
     item_rotation := rotation furn |}.

(** [DoorItem.__init__]. *)
Definition DoorItem_init (door_window : DoorWindow) (scale : Z) : DoorItem :=
  {| door_window := door_window;
     door_scale := scale;
     door_rect := {| width := dw_width_m door_window * inject_Z scale;
                     height := thickness_m door_window * inject_Z scale |};
     door_pos := origin;
     door_rotation := 0;
     is_open := false |}.

(** [FurnitureItem.rotate_90]. *)
Definition rotate_90 (self : FurnitureItem) : FurnitureItem :=
  let self := item_set_furn (set_rotation (py_mod (rotation (furn self) + 90) 360) (furn self)) self in
  setRotation (rotation (furn self)) self.

(** [DoorItem.rotate_90]. *)
Definition door_rotate_90 (self : DoorItem) : DoorItem :=
  let current_rotation := door_rotation self in
  door_setRotation (current_rotation + 90) self.

(** [FurnitureItem.itemChange] on [ItemPositionChange]: the position the
    item is about to take. *)
Definition itemChange_ItemPositionChange
    (parent_planner : RoomPlanner) (self : FurnitureItem) (value : QPointF) : QPointF :=
  if snap_to_borders parent_planner then
    let new_pos := value in
    let room_width_px := room_width_m parent_planner * inject_Z (scale self) in
    let room_height_px := room_depth_m parent_planner * inject_Z (scale self) in
    let furniture_width := width (rect self) in
    let furniture_height := height (rect self) in
    let x := py_max 0 (py_min (px new_pos) (room_width_px - furniture_width)) in
    let y := py_max 0 (py_min (py new_pos) (room_height_px - furniture_height)) in
    {| px := x; py := y |}
  else value.

(** [FurnitureItem.itemChange] on [ItemPositionHasChanged]. *)
Definition itemChange_ItemPositionHasChanged : SE FurnitureItem unit :=
  self <- get ;;
  let pos_px := pos self in
  x <- lift (py_truediv (px pos_px) (inject_Z (scale self))) ;;
  modify (fun self => item_set_furn (set_position_m x (y_m (furn self)) (furn self)) self) ;;
  y <- lift (py_truediv (py pos_px) (inject_Z (scale self))) ;;
  modify (fun self => item_set_furn (set_position_m (x_m (furn self)) y (furn self)) self).

(** [QGraphicsItem.setPos] on a [FurnitureItem], which has the flag
    [ItemSendsGeometryChanges]: nothing happens when the item is already at
    [p]; otherwise [itemChange] is asked with [ItemPositionChange], and
    unless it answers with the current position the item is moved to the
    answer and [itemChange] is told [ItemPositionHasChanged].  Points are
    compared exactly.  An exception raised in [itemChange] ends the call. *)
Definition setPos (parent_planner : RoomPlanner) (p : QPointF) : SE FurnitureItem unit :=
  self <- get ;;
  if QPointF_eqb (pos self) p then ret tt
  else
    let newPos := itemChange_ItemPositionChange parent_planner self p in
    if QPointF_eqb newPos (pos self) then ret tt
    else
      modify (setPosHelper newPos) ;;
      itemChange_ItemPositionHasChanged.

(** The in-place loop [for item in self.furniture_items: body(item)]. *)
Fixpoint for_each_item (body : SE FurnitureItem unit) (items : list FurnitureItem)
  : list FurnitureItem * outcome unit :=
  match items with
  | [] => ([], Ret tt)
  | item :: rest =>
    match body item with
    | (item', Ret _) =>
      let (rest', o) := for_each_item body rest in (item' :: rest', o)
    | (item', Raise e) => (item' :: rest, Raise e)
    end
  end.

(** The [i]-th element of a list replaced by its image. *)
Fixpoint update_nth {A : Type} (i : nat) (f : A -> A) (l : list A) : list A :=
  match l, i with
  | [], _ => []
  | x :: rest, O => f x :: rest
  | x :: rest, S i' => x :: update_nth i' f rest
  end.

(* ------------------------------------------------------------------ *)
(** ** The main window: commands *)

(** [RoomPlanner.draw_room_border]: the room rectangle in pixels (the scene
    rectangle is set to the same values). *)
Definition draw_room_border : SE RoomPlanner unit :=
  modify (fun self =>
    let px_w := room_width_m self * inject_Z (pixels_per_m self) in
    let px_d := room_depth_m self * inject_Z (pixels_per_m self) in
    set_room_rect_item (Some {| width := px_w; height := px_d |}) self).

(** [RoomPlanner.new_room]. *)
Definition new_room : SE RoomPlanner unit :=
  modify (set_list_widget []) ;;
  modify (set_furniture_items []) ;;
  modify (set_door_items []) ;;
  modify (set_room_rect_item None) ;;
  modify (set_door_counter 1%Z) ;;
  modify (set_window_counter 1%Z) ;;
  draw_room_border.

(** [RoomPlanner.on_room_apply]. *)
Definition on_room_apply : SE RoomPlanner unit :=
  modify (fun self =>
    set_room_width_m (to_m (room_w_spin (control_panel self))
                           (room_w_unit (control_panel self))) self) ;;
  modify (fun self =>
    set_room_depth_m (to_m (room_d_spin (control_panel self))
                           (room_d_unit (control_panel self))) self) ;;
  draw_room_border.

(** [RoomPlanner.on_room_name_changed], the slot of the name line edit. *)
Definition on_room_name_changed (text : string) : SE RoomPlanner unit :=
  modify (set_room_name text).

(** The user types [text] into the room name line edit. *)
Definition edit_room_name_input (text : string) : SE RoomPlanner unit :=
  modify (set_room_name_input text) ;;
  on_room_name_changed text.

(** [RoomPlanner.toggle_snap_to_borders], the slot of the snap check box. *)
Definition toggle_snap_to_borders : SE RoomPlanner unit :=
  modify (fun self => set_snap_to_borders (snap_checkbox (control_panel self)) self).

(** The user clicks the snap check box. *)
Definition click_snap_checkbox : SE RoomPlanner unit :=
  modify (fun self => set_snap_checkbox (negb (snap_checkbox (control_panel self))) self) ;;
  toggle_snap_to_borders.

(** [RoomPlanner.on_floor_changed]. *)
Definition on_floor_changed (texture_name : string) : SE RoomPlanner unit :=
  modify (set_current_floor_texture texture_name) ;;
  if FloorTexture.mem texture_name then ret tt
  else raise (KeyError texture_name).

(** [RoomPlanner._apply_theme], as far as the layout is concerned: the
    lookup [FloorTexture.TEXTURES[self.current_floor_texture]]. *)
Definition _apply_theme : SE RoomPlanner unit :=
  self <- get ;;
  if FloorTexture.mem (current_floor_texture self) then ret tt
  else raise (KeyError (current_floor_texture self)).

(** [QComboBox.setCurrentText] on the floor combo, which is not editable:
    a text that is not an item leaves the selection alone. *)
Definition floor_combo_setCurrentText (text : string) : SE RoomPlanner unit :=
  if FloorTexture.mem text then modify (set_floor_combo text) else ret tt.

(** [RoomPlanner._update_room_unit_display]. *)
Definition _update_room_unit_display : SE RoomPlanner unit :=
  self <- get ;;
  let w_unit := room_w_unit (control_panel self) in
  let d_unit := room_d_unit (control_panel self) in
  (let old_unit := current_room_unit self in
   if negb (unit_eqb old_unit w_unit) then
     let current_val := room_w_spin (control_panel self) in
     let val_m := to_m current_val old_unit in
     let new_val := from_m val_m w_unit in
     modify (set_room_w_spin (spin_setValue new_val))
   else ret tt) ;;
  modify (set_current_room_unit w_unit).

(** [RoomPlanner._update_furniture_unit_display]. *)
Definition _update_furniture_unit_display : SE RoomPlanner unit :=
  self <- get ;;
  let w_unit := f_w_unit (control_panel self) in
  let d_unit := f_d_unit (control_panel self) in
  (let old_unit := current_furniture_unit self in
   if negb (unit_eqb old_unit w_unit) then
     let current_val := f_w_spin (control_panel self) in
     let val_m := to_m current_val old_unit in
     let new_val := from_m val_m w_unit in
     modify (set_f_w_spin (spin_setValue new_val))
   else ret tt) ;;
  modify (set_current_furniture_unit w_unit).

(** The user picks [u] in a unit combo box: the box takes the text and, when
    the text changed, [currentTextChanged] runs the connected slot. *)
Definition select_room_w_unit (u : length_unit) : SE RoomPlanner unit :=
  self <- get ;;
  if unit_eqb (room_w_unit (control_panel self)) u then ret tt
  else modify (set_room_w_unit u) ;; _update_room_unit_display.

Definition select_room_d_unit (u : length_unit) : SE RoomPlanner unit :=
  self <- get ;;
  if unit_eqb (room_d_unit (control_panel self)) u then ret tt
  else modify (set_room_d_unit u) ;; _update_room_unit_display.

Definition select_f_w_unit (u : length_unit) : SE RoomPlanner unit :=
  self <- get ;;
  if unit_eqb (f_w_unit (control_panel self)) u then ret tt
  else modify (set_f_w_unit u) ;; _update_furniture_unit_display.

Definition select_f_d_unit (u : length_unit) : SE RoomPlanner unit :=
  self <- get ;;
  if unit_eqb (f_d_unit (control_panel self)) u then ret tt
  else modify (set_f_d_unit u) ;; _update_furniture_unit_display.

(** The user types a value into a spin box. *)
Definition edit_room_w_spin (v : Q) : SE RoomPlanner unit :=
  modify (set_room_w_spin (spin_setValue v)).

Definition edit_room_d_spin (v : Q) : SE RoomPlanner unit :=
  modify (set_room_d_spin (spin_setValue v)).

Definition edit_f_w_spin (v : Q) : SE RoomPlanner unit :=
  modify (set_f_w_spin (spin_setValue v)).

Definition edit_f_d_spin (v : Q) : SE RoomPlanner unit :=
  modify (set_f_d_spin (spin_setValue v)).

(** [RoomPlanner.on_add_furniture]. *)
Definition on_add_furniture : SE RoomPlanner unit :=
  self <- get ;;
  let panel := control_panel self in
  let name :=
    if String.eqb (f_name panel) "" then
      ("Item " ++ py_str (Z.of_nat (length (list_widget self)) + 1))%string
    else f_name panel in
  let width_m := to_m (f_w_spin panel) (f_w_unit panel) in
  let depth_m := to_m (f_d_spin panel) (f_d_unit panel) in
  let furn := {| name := name; width_m := width_m; depth_m := depth_m;
                 colour := f_colour panel; x_m := 0.0; y_m := 0.0; rotation := 0.0 |} in
  let item_rect := FurnitureItem_init furn (pixels_per_m self) in
  modify (fun self => set_furniture_items (furniture_items self ++ [item_rect]) self) ;;
  modify (fun self => set_list_widget (list_widget self ++ [FurnitureEntry name]) self) ;;
  modify (set_f_name "").

(** [RoomPlanner.copy_furniture]. *)
Definition copy_furniture (furniture : Furniture) : SE RoomPlanner unit :=
  modify (set_clipboard_furniture
    (Some {| clip_name := name furniture;
             clip_width_m := width_m furniture;
             clip_depth_m := depth_m furniture;
             clip_colour := colour furniture;
             clip_rotation := rotation furniture |})).

(** [RoomPlanner.paste_furniture]; [pos] is the scene position of the view
    position passed by the caller, [None] when no position is passed. *)
Definition paste_furniture (pos : option QPointF) : SE RoomPlanner unit :=
  self <- get ;;
  match clipboard_furniture self with
  | None => ret tt
  | Some clipboard =>
    let new_furn := {| name := (clip_name clipboard ++ " (Copy)")%string;
                   width_m := clip_width_m clipboard;
                   depth_m := clip_depth_m clipboard;
                   colour := clip_colour clipboard;
                   x_m := 0.0; y_m := 0.0;
                   rotation := clip_rotation clipboard |} in
    let item_rect := FurnitureItem_init new_furn (pixels_per_m self) in
    let ppm := inject_Z (pixels_per_m self) in
    item_rect <-
      match pos with
      | Some scene_pos =>
        item_rect <- on_local item_rect (setPos self scene_pos) ;;
        x <- lift (py_truediv (px scene_pos) ppm) ;;
        y <- lift (py_truediv (py scene_pos) ppm) ;;
        ret (item_set_furn (set_position_m x y (furn item_rect)) item_rect)
      | None =>
        let center_x := room_width_m self * ppm / 2 in
        let center_y := room_depth_m self * ppm / 2 in
        item_rect <- on_local item_rect (setPos self {| px := center_x; py := center_y |}) ;;
        x <- lift (py_truediv center_x ppm) ;;
        y <- lift (py_truediv center_y ppm) ;;
        ret (item_set_furn (set_position_m x y (furn item_rect)) item_rect)
      end ;;
    modify (fun self => set_furniture_items (furniture_items self ++ [item_rect]) self) ;;
    modify (fun self =>
      set_list_widget (list_widget self ++ [FurnitureEntry (name (furn item_rect))]) self)
  end.

(** [RoomPlanner.paste_furniture_center]. *)
Definition paste_furniture_center : SE RoomPlanner unit := paste_furniture None.

(** [RoomPlanner.duplicate_selected_furniture]; [selected] is the index in
    [furniture_items] of the first selected furniture item, if any. *)
Definition duplicate_selected_furniture (selected : option nat) : SE RoomPlanner unit :=
  self <- get ;;
  match selected with
  | None => ret tt
  | Some i =>
    match nth_error (furniture_items self) i with
    | None => ret tt
    | Some item => copy_furniture (furn item) ;; paste_furniture None
    end
  end.

(** [RoomPlanner.copy_selected_furniture]. *)
Definition copy_selected_furniture (selected : option nat) : SE RoomPlanner unit :=
  self <- get ;;
  match selected with
  | None => ret tt
  | Some i =>
    match nth_error (furniture_items self) i with
    | None => ret tt
    | Some item => copy_furniture (furn item)
    end
  end.

(** [RoomPlanner.rotate_selected_furniture] for the selected furniture items
    given by their indices. *)
Definition rotate_selected_furniture (selected : list nat) : SE RoomPlanner unit :=
  for_each selected (fun i =>
    modify (fun self => set_furniture_items (update_nth i rotate_90 (furniture_items self)) self)).

(** The user drags the [i]-th furniture item to [p]: Qt moves it with
    [setPos]. *)
Definition drag_furniture_item (i : nat) (p : QPointF) : SE RoomPlanner unit :=
  self <- get ;;
  match nth_error (furniture_items self) i with
  | None => ret tt
  | Some item =>
    let (item', o) := setPos self p item in
    modify (fun self => set_furniture_items (update_nth i (fun _ => item') (furniture_items self)) self) ;;
    lift o
  end.

(* ------------------------------------------------------------------ *)
(** ** Names of doors and windows *)

(** [RoomPlanner._name_exists]. *)
Definition _name_exists (self : RoomPlanner) (name : string) : bool :=
  existsb (fun item => String.eqb (entry_data_name item) name) (list_widget self).

(** The loop [while self._name_exists(f"{prefix}{counter}"): counter += 1]
    of [add_door] and [add_window]; the result is the counter on exit, or
    [None] when [fuel] iterations did not reach the exit. *)
Fixpoint next_available (fuel : nat) (self : RoomPlanner) (prefix : string) (counter : Z)
  : option Z :=
  match fuel with
  | O => None
  | S fuel' =>
    if _name_exists self (prefix ++ py_str counter)%string
    then next_available fuel' self prefix (counter + 1)%Z
    else Some counter
  end.

(** One more iteration than the list has entries is always enough
    (see [next_available_total]). *)
Definition enough_fuel (self : RoomPlanner) : nat := S (length (list_widget self)).

(** What the user does with [DoorWindowDialog]: the name left in the name
    field ([None] keeps the proposed one) and the two spin box values. *)
Record DialogInput : Type := mkDialogInput {
  dlg_name : option string;
  dlg_width : Q;
  dlg_thickness : Q
}.

(** [DoorWindowDialog.get_door_window_data]; the width spin box has
    [setRange(0.1, 10.0)], the thickness spin box [setRange(0.05, 1.0)]. *)
Definition get_door_window_data (is_door : bool) (proposed : string) (input : DialogInput)
  : DoorWindow :=
  {| dw_name := dict_get (dlg_name input) proposed;
     dw_width_m := qBound 0.1 (dlg_width input) 10.0;
     thickness_m := qBound 0.05 (dlg_thickness input) 1.0;
     dw_x_m := 0.0;
     dw_y_m := 0.0;
     is_door := is_door |}.

(** [RoomPlanner._add_door_to_list]. *)
Definition _add_door_to_list (door_window : DoorWindow) : SE RoomPlanner unit :=
  modify (fun self =>
    set_list_widget
      (list_widget self ++ [DoorWindowEntry (dw_name door_window) (is_door door_window)]) self).

(** [RoomPlanner.add_door]; [dialog] is [None] when the dialog is rejected. *)
Definition add_door (dialog : option DialogInput) : SE RoomPlanner message :=
  self <- get ;;
  match _room_rect_item self with
  | None => ret Warning
  | Some _ =>
    match next_available (enough_fuel self) self "Door " (door_counter self) with
    | None => raise LoopFuelExhausted
    | Some counter =>
      modify (set_door_counter counter) ;;
      let proposed := ("Door " ++ py_str counter)%string in
      match dialog with
      | None => ret NoMessage
      | Some input =>
        let door_data := get_door_window_data true proposed input in
        let door_item := DoorItem_init door_data (pixels_per_m self) in
        let door_x := (room_width_m self - dw_width_m door_data) / 2 in
        let door_y := room_depth_m self - thickness_m door_data in
        let door_item :=
          door_setPos {| px := door_x * inject_Z (pixels_per_m self);
                         py := door_y * inject_Z (pixels_per_m self) |} door_item in
        modify (fun self => set_door_items (door_items self ++ [door_item]) self) ;;
        _add_door_to_list door_data ;;
        modify (fun self => set_door_counter (door_counter self + 1)%Z self) ;;
        ret NoMessage
      end
    end
  end.

(** [RoomPlanner.add_window]. *)
Definition add_window (dialog : option DialogInput) : SE RoomPlanner message :=
  self <- get ;;
  match _room_rect_item self with
  | None => ret Warning
  | Some _ =>
    match next_available (enough_fuel self) self "Window " (window_counter self) with
    | None => raise LoopFuelExhausted
    | Some counter =>
      modify (set_window_counter counter) ;;
      let proposed := ("Window " ++ py_str counter)%string in
      match dialog with
      | None => ret NoMessage
      | Some input =>
        let window_data := get_door_window_data false proposed input in
        let window_item := DoorItem_init window_data (pixels_per_m self) in
        let window_x := (room_width_m self - dw_width_m window_data) / 2 in
        let window_y := 0 in
        let window_item :=
          door_setPos {| px := window_x * inject_Z (pixels_per_m self);
                         py := window_y * inject_Z (pixels_per_m self) |} window_item in
        modify (fun self => set_door_items (door_items self ++ [window_item]) self) ;;
        _add_door_to_list window_data ;;
        modify (fun self => set_window_counter (window_counter self + 1)%Z self) ;;
        ret NoMessage
      end
    end
  end.

(* ------------------------------------------------------------------ *)
(** ** Canvas scale *)

(** The body of the loop of [_set_canvas_scale] for one item. *)
Definition rescale_item (parent_planner : RoomPlanner) (scale : Z) : SE FurnitureItem unit :=
  item <- get ;;
  let new_width := width_m (furn item) * inject_Z scale in
  let new_height := depth_m (furn item) * inject_Z scale in
  modify (setRect new_width new_height) ;;
  setPos parent_planner {| px := x_m (furn item) * inject_Z scale;
                           py := y_m (furn item) * inject_Z scale |} ;;
  modify (item_set_scale scale) ;;
  modify (fun item => setRotation (rotation (furn item)) item).

(** [RoomPlanner._set_canvas_scale]. *)
Definition _set_canvas_scale (scale : Z) : SE RoomPlanner unit :=
  modify (set_pixels_per_m scale) ;;
  draw_room_border ;;
  self <- get ;;
  let (items, o) := for_each_item (rescale_item self scale) (furniture_items self) in
  modify (set_furniture_items items) ;;
  lift o.

(* ------------------------------------------------------------------ *)
(** ** Saving, loading and the cache *)

(** The dictionary built under [# Prepare data] in [save_layout] and in
    [_cache_current_room]. *)
Definition furniture_record (furn : Furniture) : furn_data :=
  {| fd_name := Some (name furn);
     fd_width_m := Some (width_m furn);
     fd_depth_m := Some (depth_m furn);
     fd_colour := Some (colour furn);
     fd_x_m := Some (x_m furn);
     fd_y_m := Some (y_m furn);
     fd_rotation := Some (rotation furn) |}.

Definition prepare_layout_data (self : RoomPlanner) : layout_data :=
  {| ld_room := Some {| rd_name := Some (room_name self);
                        rd_width_m := Some (room_width_m self);
                        rd_depth_m := Some (room_depth_m self);
                        rd_floor_texture := Some (current_floor_texture self);
                        rd_show_border := Some (show_room_border self) |};
     ld_furniture := Some (map (fun item => furniture_record (furn item))
                               (furniture_items self)) |}.


(** [json.loads(text)]. *)
Definition json_loads (text : json_text) : SE RoomPlanner json_value :=
  match text with
  | Malformed => raise JSONDecodeError
  | NotAnObject => ret JOther
  | Document d => ret (JDict d)
  end.

(** [with open(filename, 'r') as f: layout_data = json.load(f)]. *)
Definition open_and_json_load (f : file) : SE RoomPlanner json_value :=
  match f with
  | Unreadable => raise OSError
  | Readable text => json_loads text
  end.

(** The first [layout_data.get(...)]: only a [dict] has the method. *)
Definition as_dict (v : json_value) : SE RoomPlanner layout_data :=
  match v with
  | JDict d => ret d
  | JOther => raise AttributeError
  end.

Definition empty_room_data : room_data :=
  {| rd_name := None; rd_width_m := None; rd_depth_m := None;
     rd_floor_texture := None; rd_show_border := None |}.

(** The call [Furniture(name=furn_data['name'], ...)]. *)
Definition Furniture_of_data (furn_data : furn_data) : SE RoomPlanner Furniture :=
  name <- dict_item "name" (fd_name furn_data) ;;
  width_m <- dict_item "width_m" (fd_width_m furn_data) ;;
  depth_m <- dict_item "depth_m" (fd_depth_m furn_data) ;;
  colour <- dict_item "colour" (fd_colour furn_data) ;;
  x_m <- dict_item "x_m" (fd_x_m furn_data) ;;
  y_m <- dict_item "y_m" (fd_y_m furn_data) ;;
  let rotation := dict_get (fd_rotation furn_data) 0.0 in
  ret {| name := name; width_m := width_m; depth_m := depth_m; colour := colour;
         x_m := x_m; y_m := y_m; rotation := rotation |}.

(** The body of the loop under [# Load furniture], the same text in
    [load_layout] and in [_load_cached_room]. *)
Definition load_furniture (furn_data : furn_data) : SE RoomPlanner unit :=
  new_furn <- Furniture_of_data furn_data ;;
  self <- get ;;
  let item_rect := FurnitureItem_init new_furn (pixels_per_m self) in
  item_rect <- on_local item_rect
    (setPos self {| px := x_m new_furn * inject_Z (pixels_per_m self);
                    py := y_m new_furn * inject_Z (pixels_per_m self) |}) ;;
  modify (fun self => set_furniture_items (furniture_items self ++ [item_rect]) self) ;;
  modify (fun self =>
    set_list_widget (list_widget self ++ [FurnitureEntry (name (furn item_rect))]) self).

(** The lines under [# Update UI] of [load_layout] and [_load_cached_room].
    The last one is [border_checkbox.setChecked(self.show_room_border)]: it
    is the assignment below when the box shows that flag already, and no
    signal is emitted; when the box shows the other value the [toggled]
    signal starts the recursion of [toggle_room_border] described above,
    which is outside the model. *)
Definition update_ui_from_room : SE RoomPlanner unit :=
  modify (fun self => set_room_name_input (room_name self) self) ;;
  modify (fun self =>
    set_room_w_spin
      (spin_setValue (from_m (room_width_m self) (room_w_unit (control_panel self)))) self) ;;
  modify (fun self =>
    set_room_d_spin
      (spin_setValue (from_m (room_depth_m self) (room_d_unit (control_panel self)))) self) ;;
  self <- get ;;
  floor_combo_setCurrentText (current_floor_texture self) ;;
  modify (fun self => set_border_checkbox (show_room_border self) self).

(** [RoomPlanner.load_layout]; [filename] is [None] when the file dialog is
    cancelled. *)
Definition load_layout (filename : option file) : SE RoomPlanner message :=
  match filename with
  | None => ret NoMessage
  | Some f =>
    try_except
      (layout_data <- open_and_json_load f ;;
       new_room ;;
       layout_data <- as_dict layout_data ;;
       let room_data := dict_get (ld_room layout_data) empty_room_data in
       modify (set_room_name (dict_get (rd_name room_data) "My Room"%string)) ;;
       modify (set_room_width_m (dict_get (rd_width_m room_data) 5.0)) ;;
       modify (set_room_depth_m (dict_get (rd_depth_m room_data) 4.0)) ;;
       modify (set_current_floor_texture
                 (dict_get (rd_floor_texture room_data) "None"%string)) ;;
       modify (set_show_room_border (dict_get (rd_show_border room_data) true)) ;;
       update_ui_from_room ;;
       draw_room_border ;;
       _apply_theme ;;
       for_each (dict_get (ld_furniture layout_data) []) load_furniture ;;
       ret Information)
      (fun e => ret (Critical e))
  end.

(** [RoomPlanner._cache_current_room]. *)
Definition _cache_current_room : SE RoomPlanner unit :=
  modify (fun self =>
    let layout_data := prepare_layout_data self in
    set_settings {| s_canvas_scale := s_canvas_scale (settings self);
                    s_show_border := s_show_border (settings self);
                    s_floor_texture := s_floor_texture (settings self);
                    s_cached_room := Some (Document layout_data) |} self).

(** [RoomPlanner._load_cached_room]. *)
Definition _load_cached_room : SE RoomPlanner unit :=
  try_except
    (self <- get ;;
     match s_cached_room (settings self) with
     | None => ret tt
     | Some cached_data =>
       layout_data <- json_loads cached_data ;;
       layout_data <- as_dict layout_data ;;
       let room_data := dict_get (ld_room layout_data) empty_room_data in
       modify (fun self => set_room_name (dict_get (rd_name room_data) (room_name self)) self) ;;
       modify (fun self =>
         set_room_width_m (dict_get (rd_width_m room_data) (room_width_m self)) self) ;;
       modify (fun self =>
         set_room_depth_m (dict_get (rd_depth_m room_data) (room_depth_m self)) self) ;;
       modify (set_current_floor_texture
                 (dict_get (rd_floor_texture room_data) "None"%string)) ;;
       modify (set_show_room_border (dict_get (rd_show_border room_data) true)) ;;
       update_ui_from_room ;;
       draw_room_border ;;
       for_each (dict_get (ld_furniture layout_data) []) load_furniture
     end)
    (fun _ => ret tt).

(** [RoomPlanner._save_settings]. *)
Definition _save_settings : SE RoomPlanner unit :=
  modify (fun self =>
    set_settings {| s_canvas_scale := Some (pixels_per_m self);
                    s_show_border := Some (show_room_border self);
                    s_floor_texture := Some (current_floor_texture self);
                    s_cached_room := s_cached_room (settings self) |} self) ;;
  _cache_current_room.

(** [RoomPlanner._load_settings] (theme and font size are not part of the
    layout).  [border_checkbox.setChecked(border)] is the assignment below
    when the box shows [border] already, as it does at start for a stored
    flag that is true or absent; for a stored flag that is false the
    [toggled] signal starts the recursion of [toggle_room_border], which is
    outside the model. *)
Definition _load_settings : SE RoomPlanner unit :=
  self <- get ;;
  let scale := dict_get (s_canvas_scale (settings self)) 60%Z in
  _set_canvas_scale scale ;;
  let border := dict_get (s_show_border (settings self)) true in
  modify (set_show_room_border border) ;;
  modify (set_border_checkbox border) ;;
  let floor_texture := dict_get (s_floor_texture (settings self)) "None"%string in
  (if FloorTexture.mem floor_texture then
     modify (set_current_floor_texture floor_texture) ;;
     floor_combo_setCurrentText floor_texture
   else ret tt) ;;
  _load_cached_room.

(** The attributes assigned by [RoomPlanner.__init__] and the widgets built
    by [_build_control_panel], before the room border is drawn. *)
Definition initial_attributes (stored : QSettings) : RoomPlanner :=
  {| settings := stored;
     pixels_per_m := 60;
     show_room_border := true;
     current_floor_texture := "None";
     current_room_unit := U_ft;
     current_furniture_unit := U_in;
     clipboard_furniture := None;
     room_width_m := to_m 16.0 U_ft;
     room_depth_m := to_m 12.0 U_ft;
     room_name := "My Room";
     _room_rect_item := None;
     furniture_items := [];
     door_items := [];
     snap_to_borders := false;
     door_counter := 1;
     window_counter := 1;
     list_widget := [];
     control_panel :=
       {| room_name_input := "My Room";
          room_w_spin := 16.0;
          room_w_unit := U_ft;
          room_d_spin := 12.0;
          room_d_unit := U_ft;
          border_checkbox := true;
          snap_checkbox := false;
          floor_combo := "None";
          f_name := "";
          f_w_spin := 72;
          f_w_unit := U_in;
          f_d_spin := 36;
          f_d_unit := U_in;
          f_colour := "#4a90e2"%string |} |}.

(** [RoomPlanner.__init__]. *)
Definition RoomPlanner_init (stored : QSettings) : RoomPlanner * outcome unit :=
  (draw_room_border ;; _load_settings) (initial_attributes stored).

Definition no_settings : QSettings :=
  {| s_canvas_scale := None; s_show_border := None;
     s_floor_texture := None; s_cached_room := None |}.

(** The window of a first start: nothing stored yet. *)
Definition first_start : RoomPlanner := fst (RoomPlanner_init no_settings).

(* ------------------------------------------------------------------ *)
(** ** Views used in the statements *)

(** Final state and result of a command. *)
Definition state_after {A : Type} (c : SE RoomPlanner A) (self : RoomPlanner) : RoomPlanner :=
  fst (c self).

Definition result_of {A : Type} (c : SE RoomPlanner A) (self : RoomPlanner) : outcome A :=
  snd (c self).

(** Tolerance of the numeric comparisons. *)
Definition tolerance : Q := 0.000000001.

Definition close (a b : Q) : Prop := Qabs (a - b) <= tolerance.

(** Sample windows used to exercise the statements. *)

(** One default piece dragged to (60, 30) px and a door with the proposed
    name. *)
Definition sample_with_door : RoomPlanner :=
  state_after
    (on_add_furniture ;;
     drag_furniture_item 0 {| px := 60; py := 30 |} ;;
     add_door (Some {| dlg_name := None; dlg_width := 1; dlg_thickness := 0.1 |}))
    first_start.

(** The names held by the list widget, in order. *)
Definition names (self : RoomPlanner) : list string :=
  map entry_data_name (list_widget self).

(** The window with [items] appended to the tracked furniture and to the
    list widget. *)
Definition add_items (items : list FurnitureItem) (self : RoomPlanner) : RoomPlanner :=
  set_list_widget
    (list_widget self ++ map (fun item => FurnitureEntry (name (furn item))) items)
    (set_furniture_items (furniture_items self ++ items) self).

(** The item [load_furniture] builds for a furniture record. *)
Definition loaded_item (self : RoomPlanner) (f : Furniture) : FurnitureItem :=
  fst (setPos self {| px := x_m f * inject_Z (pixels_per_m self);
                      py := y_m f * inject_Z (pixels_per_m self) |}
         (FurnitureItem_init f (pixels_per_m self))).

(** A furniture record that has all its required keys. *)
Definition furniture_of_record (d : furn_data) : option Furniture :=
  match fd_name d, fd_width_m d, fd_depth_m d, fd_colour d, fd_x_m d, fd_y_m d with
  | Some name, Some width_m, Some depth_m, Some colour, Some x_m, Some y_m =>
    Some {| name := name; width_m := width_m; depth_m := depth_m; colour := colour;
            x_m := x_m; y_m := y_m; rotation := dict_get (fd_rotation d) 0.0 |}
  | _, _, _, _, _, _ => None
  end.

(** The longest prefix of furniture records that have all required keys. *)
Fixpoint complete_prefix (l : list furn_data) : list Furniture :=
  match l with
  | [] => []
  | d :: rest =>
    match furniture_of_record d with
    | Some f => f :: complete_prefix rest
    | None => []
    end
  end.

(** The window after the first half of [load_layout]: layout cleared, room
    fields taken from the document, form and room rectangle updated. *)
Definition room_loaded (d : layout_data) (self : RoomPlanner) : RoomPlanner :=
  state_after
    (new_room ;;
     let room_data := dict_get (ld_room d) empty_room_data in
     modify (set_room_name (dict_get (rd_name room_data) "My Room"%string)) ;;
     modify (set_room_width_m (dict_get (rd_width_m room_data) 5.0)) ;;
     modify (set_room_depth_m (dict_get (rd_depth_m room_data) 4.0)) ;;
     modify (set_current_floor_texture
               (dict_get (rd_floor_texture room_data) "None"%string)) ;;
     modify (set_show_room_border (dict_get (rd_show_border room_data) true)) ;;
     update_ui_from_room ;;
     draw_room_border)
    self.

(** The window after the first half of [_load_cached_room]. *)
Definition room_restored (d : layout_data) (self : RoomPlanner) : RoomPlanner :=
  state_after
    (let room_data := dict_get (ld_room d) empty_room_data in
     modify (fun self => set_room_name (dict_get (rd_name room_data) (room_name self)) self) ;;
     modify (fun self =>
       set_room_width_m (dict_get (rd_width_m room_data) (room_width_m self)) self) ;;
     modify (fun self =>
       set_room_depth_m (dict_get (rd_depth_m room_data) (room_depth_m self)) self) ;;
     modify (set_current_floor_texture
               (dict_get (rd_floor_texture room_data) "None"%string)) ;;
     modify (set_show_room_border (dict_get (rd_show_border room_data) true)) ;;
     update_ui_from_room ;;
     draw_room_border)
    self.

(** The furniture array of a document, empty when the key is absent. *)
Definition furniture_array (d : layout_data) : list furn_data :=
  dict_get (ld_furniture d) [].

(** The room object of a document, empty when the key is absent. *)
Definition room_object (d : layout_data) : room_data :=
  dict_get (ld_room d) empty_room_data.

(** A document whose room is 0 m wide and -3 m deep. *)
Definition flat_room_document : layout_data :=
  {| ld_room := Some {| rd_name := Some "Attic"%string;
                        rd_width_m := Some 0;
                        rd_depth_m := Some (-3);
                        rd_floor_texture := None;
                        rd_show_border := None |};
     ld_furniture := None |}.


(** A window whose settings hold the given cached document. *)
Definition with_cache (d : layout_data) (self : RoomPlanner) : RoomPlanner :=
  set_settings {| s_canvas_scale := s_canvas_scale (settings self);
                  s_show_border := s_show_border (settings self);
                  s_floor_texture := s_floor_texture (settings self);
                  s_cached_room := Some (Document d) |} self.




(* ------------------------------------------------------------------ *)
(** ** Sessions *)

(** What the user can do with the window. *)
Inductive command : Type :=
  | EditRoomName (text : string)
  | EditRoomWidth (v : Q)
  | EditRoomDepth (v : Q)
  | SelectRoomWidthUnit (u : length_unit)
  | SelectRoomDepthUnit (u : length_unit)
  | ApplyRoomSize
  | ClickSnap
  | SelectFloor (texture_name : string)
  | EditFurnitureName (text : string)
  | EditFurnitureWidth (v : Q)
  | EditFurnitureDepth (v : Q)
  | SelectFurnitureWidthUnit (u : length_unit)
  | SelectFurnitureDepthUnit (u : length_unit)
  | PickColour (chosen : QColor)
  | AddFurniture
  | Drag (i : nat) (p : QPointF)
  | RotateSelected (selected : list nat)
  | CopySelected (selected : option nat)
  | Paste
  | DuplicateSelected (selected : option nat)
  | AddDoor (dialog : option DialogInput)
  | AddWindow (dialog : option DialogInput)
  | NewRoom
  | LoadLayout (filename : option file)
  | SetCanvasScale (scale : Z)
  | SaveSettings.

Definition execute (c : command) : SE RoomPlanner unit :=
  match c with
  | EditRoomName text => edit_room_name_input text
  | EditRoomWidth v => edit_room_w_spin v
  | EditRoomDepth v => edit_room_d_spin v
  | SelectRoomWidthUnit u => select_room_w_unit u
  | SelectRoomDepthUnit u => select_room_d_unit u
  | ApplyRoomSize => on_room_apply
  | ClickSnap => click_snap_checkbox
  | SelectFloor texture_name =>
    if FloorTexture.mem texture_name then
      modify (set_floor_combo texture_name) ;; on_floor_changed texture_name
    else ret tt
  | EditFurnitureName text => modify (set_f_name text)
  | EditFurnitureWidth v => edit_f_w_spin v
  | EditFurnitureDepth v => edit_f_d_spin v
  | SelectFurnitureWidthUnit u => select_f_w_unit u
  | SelectFurnitureDepthUnit u => select_f_d_unit u
  | PickColour chosen => modify (set_f_colour chosen)
  | AddFurniture => on_add_furniture
  | Drag i p => drag_furniture_item i p
  | RotateSelected selected => rotate_selected_furniture selected
  | CopySelected selected => copy_selected_furniture selected
  | Paste => paste_furniture_center
  | DuplicateSelected selected => duplicate_selected_furniture selected
  | AddDoor dialog => add_door dialog ;; ret tt
  | AddWindow dialog => add_window dialog ;; ret tt
  | NewRoom => new_room
  | LoadLayout filename => load_layout filename ;; ret tt
  | SetCanvasScale scale => _set_canvas_scale scale
  | SaveSettings => _save_settings
  end.

(** The window after a list of commands, in order. *)
Fixpoint run (cs : list command) (self : RoomPlanner) : RoomPlanner :=
  match cs with
  | [] => self
  | c :: rest => run rest (state_after (execute c) self)
  end.

(** A door or window added with the name the dialog proposes. *)
Definition adds_proposed_name (c : command) : Prop :=
  match c with
  | AddDoor (Some input) | AddWindow (Some input) => dlg_name input = None
  | _ => False
  end.

(** The windows a session can be in: the one [__init__] builds from the
    stored settings, and those further commands lead to, whether or not a
    command ended with an exception. *)
Inductive reachable : RoomPlanner -> Prop :=
  | reachable_init (stored : QSettings) : reachable (fst (RoomPlanner_init stored))
  | reachable_step (self : RoomPlanner) (c : command) :
      reachable self -> reachable (state_after (execute c) self).

(** The form keeps its spin boxes in range and its recorded units in step
    with the width selectors, and the room rectangle exists. *)
Definition in_range (v : Q) : Prop := 1 <= v <= 1000.

Definition panel_consistent (self : RoomPlanner) : Prop :=
  in_range (room_w_spin (control_panel self)) /\
  in_range (room_d_spin (control_panel self)) /\
  in_range (f_w_spin (control_panel self)) /\
  in_range (f_d_spin (control_panel self)) /\
  current_room_unit self = room_w_unit (control_panel self) /\
  current_furniture_unit self = f_w_unit (control_panel self) /\
  _room_rect_item self <> None.

(** A command keeps a property of the window, whether it returns or
    raises. *)
Definition keeps {A : Type} (P : RoomPlanner -> Prop) (c : SE RoomPlanner A) : Prop :=
  forall s, P s -> P (fst (c s)).

(* ------------------------------------------------------------------ *)
(** ** Doors and windows on the canvas *)

Definition door_set_is_open (b : bool) (self : DoorItem) : DoorItem :=
  {| door_window := door_window self; door_scale := door_scale self;
     door_rect := door_rect self; door_pos := door_pos self;
     door_rotation := door_rotation self; is_open := b |}.

(** [DoorItem.toggle_door].  The opening arc, the brush and the tool tip
    the method also changes are drawing only. *)
Definition toggle_door (self : DoorItem) : DoorItem :=
  if negb (is_door (door_window self)) then self
  else door_set_is_open (negb (is_open self)) self.

(** [DoorItem.mouseDoubleClickEvent]. *)
Definition mouseDoubleClickEvent (self : DoorItem) : DoorItem :=
  if is_door (door_window self) then toggle_door self else self.

(** [l.remove(x)] for the element at index [i]. *)
Fixpoint remove_nth {A : Type} (i : nat) (l : list A) : list A :=
  match l, i with
  | [], _ => []
  | _ :: rest, O => rest
  | x :: rest, S i' => x :: remove_nth i' rest
  end.

(** The loop of [_remove_door_from_list]: the first entry that holds a
    door or window of that name is taken out. *)
Fixpoint take_first_opening (door_name : string) (l : list ListEntry) : list ListEntry :=
  match l with
  | [] => []
  | FurnitureEntry n :: rest => FurnitureEntry n :: take_first_opening door_name rest
  | DoorWindowEntry n d :: rest =>
    if String.eqb n door_name then rest
    else DoorWindowEntry n d :: take_first_opening door_name rest
  end.

(** [RoomPlanner._remove_door_from_list]. *)
Definition _remove_door_from_list (door_name : string) : SE RoomPlanner unit :=
  modify (fun self => set_list_widget (take_first_opening door_name (list_widget self)) self).

(** [DoorItem.delete_self] on the [i]-th tracked door or window. *)
Definition delete_self (i : nat) : SE RoomPlanner unit :=
  self <- get ;;
  match nth_error (door_items self) i with
  | None => ret tt
  | Some item =>
    modify (fun self => set_door_items (remove_nth i (door_items self)) self) ;;
    _remove_door_from_list (dw_name (door_window item))
  end.

(** A method of the [i]-th tracked door or window, run from its menu or by
    the mouse. *)
Definition on_door_item (i : nat) (method : DoorItem -> DoorItem) : SE RoomPlanner unit :=
  modify (fun self => set_door_items (update_nth i method (door_items self)) self).

(* ------------------------------------------------------------------ *)
(** ** The zoomable view *)

(** [ZoomableGraphicsView]: its three attributes and the factor of the
    view transform, which [QGraphicsView.scale] multiplies (the same
    factor is passed for both axes). *)
Record ZoomableGraphicsView : Type := mkZoomableGraphicsView {
  zoom_factor : Q;
  min_zoom : Q;
  max_zoom : Q;
  transform_factor : Q
}.

(** [ZoomableGraphicsView.__init__]. *)
Definition ZoomableGraphicsView_init : ZoomableGraphicsView :=
  {| zoom_factor := 1.0; min_zoom := 0.1; max_zoom := 5.0; transform_factor := 1 |}.

(** [QGraphicsView.scale(s, s)]. *)
Definition view_scale (s : Q) (self : ZoomableGraphicsView) : ZoomableGraphicsView :=
  {| zoom_factor := zoom_factor self; min_zoom := min_zoom self;
     max_zoom := max_zoom self; transform_factor := transform_factor self * s |}.

Definition set_zoom_factor (z : Q) (self : ZoomableGraphicsView) : ZoomableGraphicsView :=
  {| zoom_factor := z; min_zoom := min_zoom self;
     max_zoom := max_zoom self; transform_factor := transform_factor self |}.

(** [ZoomableGraphicsView.zoom_in]. *)
Definition zoom_in (self : ZoomableGraphicsView) : ZoomableGraphicsView :=
  if Qlt_bool (zoom_factor self) (max_zoom self) then
    let self := view_scale 1.2 self in
    set_zoom_factor (zoom_factor self * 1.2) self
  else self.

(** [ZoomableGraphicsView.zoom_out]. *)
Definition zoom_out (self : ZoomableGraphicsView) : ZoomableGraphicsView :=
  if Qlt_bool (min_zoom self) (zoom_factor self) then
    let self := view_scale 0.8 self in
    set_zoom_factor (zoom_factor self * 0.8) self
  else self.

(** [ZoomableGraphicsView.wheelEvent]; [control] tells whether Control is
    the only modifier held, [angle_delta_y] is [event.angleDelta().y()].
    Without Control the view scrolls, which does not touch the zoom. *)
Definition wheelEvent (control : bool) (angle_delta_y : Z) (self : ZoomableGraphicsView)
  : ZoomableGraphicsView :=
  if control then
    let zoom_in_wanted := (0 <? angle_delta_y)%Z in
    if zoom_in_wanted then zoom_in self else zoom_out self
  else self.

(** What the user can do to the zoom. *)
Inductive zoom_event : Type :=
  | ZoomInButton
  | ZoomOutButton
  | Wheel (control : bool) (angle_delta_y : Z).

Definition zoom_step (e : zoom_event) (self : ZoomableGraphicsView) : ZoomableGraphicsView :=
  match e with
  | ZoomInButton => zoom_in self
  | ZoomOutButton => zoom_out self
  | Wheel control angle_delta_y => wheelEvent control angle_delta_y self
  end.

(** The view after a list of events, in order. *)
Definition zoom_run (es : list zoom_event) (self : ZoomableGraphicsView)
  : ZoomableGraphicsView :=
  fold_left (fun view e => zoom_step e view) es self.

(* ------------------------------------------------------------------ *)
(** ** Sessions that also use the doors' and windows' own menus *)

(** A command of the window, or something done to the [i]-th tracked door
    or window: a double click, the menu entries Open/Close, Rotate and
    Delete, and a drag (a door or window has no [itemChange], so it goes
    where it is dragged). *)
Inductive action : Type :=
  | Do (c : command)
  | DoubleClickOpening (i : nat)
  | ToggleOpening (i : nat)
  | RotateOpening (i : nat)
  | DragOpening (i : nat) (p : QPointF)
  | DeleteOpening (i : nat).

Definition perform (a : action) : SE RoomPlanner unit :=
  match a with
  | Do c => execute c
  | DoubleClickOpening i => on_door_item i mouseDoubleClickEvent
  | ToggleOpening i => on_door_item i toggle_door
  | RotateOpening i => on_door_item i door_rotate_90
  | DragOpening i p => on_door_item i (door_setPos p)
  | DeleteOpening i => delete_self i
  end.

Inductive in_session : RoomPlanner -> Prop :=
  | session_start (stored : QSettings) : in_session (fst (RoomPlanner_init stored))
  | session_step (self : RoomPlanner) (a : action) :
      in_session self -> in_session (state_after (perform a) self).

(* ------------------------------------------------------------------ *)
(** ** Further views used in the statements *)

(** The display position of an item is its model position at the item's
    scale. *)
Definition in_step (item : FurnitureItem) : Prop :=
  px (pos item) == x_m (furn item) * inject_Z (scale item) /\
  py (pos item) == y_m (furn item) * inject_Z (scale item).

(** The names of the doors and windows held by the list widget, in order. *)
Fixpoint opening_names (l : list ListEntry) : list string :=
  match l with
  | [] => []
  | FurnitureEntry _ :: rest => opening_names rest
  | DoorWindowEntry n _ :: rest => n :: opening_names rest
  end.

(** The names of the furniture held by the list widget, in order. *)
Fixpoint furniture_names (l : list ListEntry) : list string :=
  match l with
  | [] => []
  | FurnitureEntry n :: rest => n :: furniture_names rest
  | DoorWindowEntry _ _ :: rest => furniture_names rest
  end.

(** The names of the tracked doors and windows, in order. *)
Definition tracked_opening_names (self : RoomPlanner) : list string :=
  map (fun item => dw_name (door_window item)) (door_items self).

(** A tracked door or window as the dialog and [DoorItem] leave it. *)
Definition opening_ok (item : DoorItem) : Prop :=
  0.1 <= dw_width_m (door_window item) <= 10 /\
  0.05 <= thickness_m (door_window item) <= 1 /\
  dw_x_m (door_window item) == 0 /\
  dw_y_m (door_window item) == 0 /\
  width (door_rect item) == dw_width_m (door_window item) * inject_Z (door_scale item) /\
  height (door_rect item) == thickness_m (door_window item) * inject_Z (door_scale item) /\
  (is_open item = true -> is_door (door_window item) = true).

Definition openings_tracked (self : RoomPlanner) : Prop :=
  Forall opening_ok (door_items self) /\
  Permutation (tracked_opening_names self) (opening_names (list_widget self)).




(** The zoom of a view as the buttons and the wheel can leave it. *)
Definition zoom_consistent (view : ZoomableGraphicsView) : Prop :=
  min_zoom view = 0.1 /\
  max_zoom view = 5.0 /\
  transform_factor view == zoom_factor view /\
  0.08 < zoom_factor view /\
  zoom_factor view < 6.




(** A first window in which the user has called a piece of furniture
    ["Door 1"]. *)
Definition sample_named_like_a_door : RoomPlanner :=
  state_after (modify (set_f_name "Door 1") ;; on_add_furniture) first_start.

(** A piece of furniture with a rotation of 90 degrees. *)
Definition quarter_turned_piece : FurnitureItem :=
  FurnitureItem_init
    {| name := "Desk"; width_m := 1.2; depth_m := 0.6; colour := "#4a90e2"%string;
       x_m := 0; y_m := 0; rotation := 90 |} 60.

(* ------------------------------------------------------------------ *)
(** ** The settings dialog *)

(** The names of the three themes of [Theme]. *)
Inductive theme_name : Type := Light | Dark | Mixed.

Definition theme_name_eqb (a b : theme_name) : bool :=
  match a, b with
  | Light, Light | Dark, Dark | Mixed, Mixed => true
  | _, _ => false
  end.

(** [SettingsDialog]: the theme combo box and the scale slider.  (The font
    slider and [_set_font_size] do not touch the layout.) *)
Record SettingsDialog : Type := mkSettingsDialog {
  theme_combo : theme_name;
  scale_slider : Z
}.

(** [SettingsDialog.__init__]: the combo box shows its first item, the
    slider has [setRange(30, 120)] and [setValue(60)]. *)
Definition SettingsDialog_init : SettingsDialog :=
  {| theme_combo := Light; scale_slider := 60 |}.

(** The main window together with its current theme and the dialog that
    [show_settings] has open. *)
Record SettingsSession : Type := mkSettingsSession {
  parent_window : RoomPlanner;
  current_theme : theme_name;
  settings_dialog : SettingsDialog
}.

Definition set_parent_window (p : RoomPlanner) (s : SettingsSession) : SettingsSession :=
  {| parent_window := p; current_theme := current_theme s;
     settings_dialog := settings_dialog s |}.

Definition set_current_theme (t : theme_name) (s : SettingsSession) : SettingsSession :=
  {| parent_window := parent_window s; current_theme := t;
     settings_dialog := settings_dialog s |}.

Definition set_settings_dialog (d : SettingsDialog) (s : SettingsSession) : SettingsSession :=
  {| parent_window := parent_window s; current_theme := current_theme s;
     settings_dialog := d |}.

(** A method of the main window called from the dialog. *)
Definition on_parent {A : Type} (c : SE RoomPlanner A) : SE SettingsSession A :=
  fun s => let (p, o) := c (parent_window s) in (set_parent_window p s, o).

(** [RoomPlanner._apply_theme(theme)]: the theme is recorded, then the
    floor texture is looked up. *)
Definition apply_theme (theme : theme_name) : SE SettingsSession unit :=
  modify (set_current_theme theme) ;;
  on_parent _apply_theme.

(** [SettingsDialog.on_theme_changed]. *)
Definition on_theme_changed (theme : theme_name) : SE SettingsSession unit :=
  apply_theme theme.

(** [SettingsDialog.on_scale_changed]. *)
Definition on_scale_changed (scale : Z) : SE SettingsSession unit :=
  on_parent (_set_canvas_scale scale).

(** [QComboBox.setCurrentText] on the theme combo, by the program or by
    the user: [currentTextChanged] is emitted when the text changes. *)
Definition theme_combo_setCurrentText (theme : theme_name) : SE SettingsSession unit :=
  s <- get ;;
  if theme_name_eqb (theme_combo (settings_dialog s)) theme then ret tt
  else
    modify (fun s => set_settings_dialog
                       {| theme_combo := theme;
                          scale_slider := scale_slider (settings_dialog s) |} s) ;;
    on_theme_changed theme.

(** [QSlider.setValue] on the scale slider, by the program or by the user:
    the value is bounded by the range, and [valueChanged] is emitted when
    it changes. *)
Definition scale_slider_setValue (v : Z) : SE SettingsSession unit :=
  s <- get ;;
  let value := Z.max 30 (Z.min v 120) in
  if (value =? scale_slider (settings_dialog s))%Z then ret tt
  else
    modify (fun s => set_settings_dialog
                       {| theme_combo := theme_combo (settings_dialog s);
                          scale_slider := value |} s) ;;
    on_scale_changed value.

(** [SettingsDialog.apply_settings]. *)
Definition apply_settings : SE SettingsSession unit :=
  s <- get ;;
  apply_theme (theme_combo (settings_dialog s)) ;;
  on_parent (_set_canvas_scale (scale_slider (settings_dialog s))) ;;
  on_parent _save_settings.

(** [SettingsDialog.accept_and_apply]. *)
Definition accept_and_apply : SE SettingsSession unit := apply_settings.

(** What the user does while the dialog is open. *)
Inductive settings_event : Type :=
  | PickTheme (theme : theme_name)
  | MoveScaleSlider (v : Z)
  | ClickApply.

Definition settings_step (e : settings_event) : SE SettingsSession unit :=
  match e with
  | PickTheme theme => theme_combo_setCurrentText theme
  | MoveScaleSlider v => scale_slider_setValue v
  | ClickApply => apply_settings
  end.

(** [RoomPlanner.show_settings]; [events] is what the user does in the
    dialog, [accepted] tells whether it is closed with OK (which runs
    [accept_and_apply]) or rejected. *)
Definition show_settings (events : list settings_event) (accepted : bool)
  : SE SettingsSession unit :=
  modify (set_settings_dialog SettingsDialog_init) ;;
  s <- get ;;
  theme_combo_setCurrentText (current_theme s) ;;
  s <- get ;;
  scale_slider_setValue (pixels_per_m (parent_window s)) ;;
  s <- get ;;
  let original_theme := current_theme s in
  let original_scale := pixels_per_m (parent_window s) in
  for_each events settings_step ;;
  if accepted then accept_and_apply
  else
    apply_theme original_theme ;;
    on_parent (_set_canvas_scale original_scale).

(** The main window with the settings dialog about to open. *)
Definition opening_settings (self : RoomPlanner) (theme : theme_name) : SettingsSession :=
  {| parent_window := self; current_theme := theme; settings_dialog := SettingsDialog_init |}.

(* ------------------------------------------------------------------ *)
(** ** Sessions in which the canvas scale is never zero *)

(** A piece is drawn as its record says, at the scale of the canvas. *)
Definition drawn_to_scale (self : RoomPlanner) (item : FurnitureItem) : Prop :=
  scale item = pixels_per_m self /\
  rect item = {| width := width_m (furn item) * inject_Z (scale item);
                 height := depth_m (furn item) * inject_Z (scale item) |} /\
  item_rotation item = rotation (furn item).

(** The canvas scale is not zero, every piece is drawn to scale, and the
    room rectangle is the room at the canvas scale. *)
Definition steady (self : RoomPlanner) : Prop :=
  pixels_per_m self <> 0%Z /\
  Forall (drawn_to_scale self) (furniture_items self) /\
  _room_rect_item self =
    Some {| width := room_width_m self * inject_Z (pixels_per_m self);
            height := room_depth_m self * inject_Z (pixels_per_m self) |}.

(** The action does not set the canvas scale to zero. *)
Definition sets_nonzero_scale (a : action) : Prop :=
  match a with
  | Do (SetCanvasScale k) => k <> 0%Z
  | _ => True
  end.

(** The action does not make the program switch the border check box: a
    loaded document has the border flag the check box shows. *)
Definition keeps_border_checkbox (self : RoomPlanner) (a : action) : Prop :=
  match a with
  | Do (LoadLayout (Some (Readable (Document d)))) =>
    dict_get (rd_show_border (room_object d)) true = border_checkbox (control_panel self)
  | _ => True
  end.

(** Stored settings with a canvas scale other than zero and the border
    shown, there and in the cached room. *)
Definition stored_ok (stored : QSettings) : Prop :=
  dict_get (s_canvas_scale stored) 60%Z <> 0%Z /\
  dict_get (s_show_border stored) true = true /\
  match s_cached_room stored with
  | Some (Document d) => dict_get (rd_show_border (room_object d)) true = true
  | _ => True
  end.

Inductive steady_session : RoomPlanner -> Prop :=
  | steady_start (stored : QSettings) :
      stored_ok stored -> steady_session (fst (RoomPlanner_init stored))
  | steady_step (self : RoomPlanner) (a : action) :
      steady_session self ->
      sets_nonzero_scale a ->
      keeps_border_checkbox self a ->
      steady_session (state_after (perform a) self).

(** A command returns from every window that has a property, and keeps the
    property. *)
Definition runs {A : Type} (P : RoomPlanner -> Prop) (c : SE RoomPlanner A) : Prop :=
  forall s, P s -> P (fst (c s)) /\ exists a, snd (c s) = Ret a.

(** The furniture entries of the list widget are the tracked pieces, in
    order. *)
Definition furniture_listed (self : RoomPlanner) : Prop :=
  furniture_names (list_widget self) =
    map (fun item => name (furn item)) (furniture_items self).

(** A converted value as a spin box shows it: in the range, with two
    decimals, within half a hundredth of the conversion bounded to the
    range.  The 1e-9 allows for the rounding of the double the program
    converts. *)
Definition shows_converted (shown value : Q) (old u : length_unit) : Prop :=
  in_range shown /\
  (exists k : Z, shown == inject_Z k / 100) /\
  Qabs (shown - qBound 1 (from_m (to_m value old) u) 1000) <= (1 # 200) + tolerance.


(* ------------------------------------------------------------------ *)
(** ** The arithmetic of the program: IEEE 754 binary64 *)

(** A Python float is a binary64 number, with its operations rounded to
    nearest, ties to even: the primitive floats of the prover.  The
    functions below are the purely numerical ones of [src/main.py] once
    more, on these numbers, so that what rounding does to a formula of the
    model can be computed and not only estimated. *)
Module Binary64.

Import PrimFloat FloatOps SpecFloat.

(** [float(z)] of a Python int, exact below 2^53 in absolute value. *)
Definition of_int (z : Z) : float :=
  if (z <? 0)%Z then opp (of_uint63 (Uint63.of_Z (- z)))
  else of_uint63 (Uint63.of_Z z).

Definition _UNIT_FACTORS (u : length_unit) : float :=
  match u with U_m => 1.0 | U_ft => 0.3048 | U_in => 0.0254 end%float.

Definition to_m (value : float) (u : length_unit) : float :=
  mul value (_UNIT_FACTORS u).

Definition from_m (value_m : float) (u : length_unit) : float :=
  div value_m (_UNIT_FACTORS u).

(** C's [fmod(x, y)] for a finite [y] other than zero: [x] minus the
    multiple of [y] nearest to it towards zero.  The result is a binary64
    number, so that nothing is rounded; it has the sign of [x]. *)
Definition fmod (x y : float) : float :=
  match Prim2SF x, Prim2SF y with
  | S754_finite sx mx ex, S754_finite _ my ey =>
    let e := Z.min ex ey in
    let r := Z.rem (Z.pos mx * 2 ^ (ex - e)) (Z.pos my * 2 ^ (ey - e)) in
    let f := Z.ldexp (of_uint63 (Uint63.of_Z r)) e in
    if sx then opp f else f
  | S754_zero _, S754_finite _ _ _ => x
  | _, _ => nan
  end.

(** [a % n] on floats ([float_rem] of CPython) for a finite [n] other than
    zero: [fmod], moved by [n] when its sign is not that of [n]; that
    addition is rounded. *)
Definition py_mod (a n : float) : float :=
  let m := fmod a n in
  if is_zero m then (if get_sign n then neg_zero else zero)
  else if Bool.eqb (ltb n zero) (ltb m zero) then m
  else add m n.

(** The rotation [FurnitureItem.rotate_90] stores. *)
Definition rotate_90 (rotation : float) : float :=
  py_mod (add rotation 90%float) 360%float.

(** What [itemChange] stores as [x_m] when [setPos] has moved a piece to
    [x_m * scale] and [itemChange] has left the proposed position alone:
    [pos_px.x() / self.scale]. *)
Definition restored_x_m (x_m : float) (scale : Z) : float :=
  div (mul x_m (of_int scale)) (of_int scale).


(** [abs(a - b) <= 1e-9]. *)
Definition close (a b : float) : bool := leb (abs (sub a b)) 1e-9%float.

(** [QDoubleSpinBox.setValue] on a spin box of the control panel, in
    hundredths: the double is rounded to two decimals on its exact value (a
    tie away from zero) and bounded to [1, 1000].  Not a number is not
    among the values the program passes. *)
Definition spin_setValue (v : float) : Z :=
  let rounded :=
    match Prim2SF v with
    | S754_finite s m e =>
      let n :=
        if (0 <=? e)%Z then (100 * Z.pos m * 2 ^ e)%Z
        else ((200 * Z.pos m + 2 ^ (- e)) / 2 ^ (1 - e))%Z in
      if s then (- n)%Z else n
    | S754_infinity s => if s then (-100000000)%Z else 100000000%Z
    | _ => 0%Z
    end in
  Z.max 100 (Z.min rounded 100000).









End Binary64.

(* ================================================================== *)
(** * Properties *)

(** ** Comparisons and arithmetic *)

Lemma Qlt_bool_spec (x y : Q) : reflect (x < y) (Qlt_bool x y).
Proof.
  unfold Qlt_bool. destruct (Qle_bool y x) eqn:E; simpl; constructor.
  - apply Qle_bool_iff in E. intro H. lra.
  - destruct (Qlt_le_dec x y) as [H|H]; [exact H|].
    apply Qle_bool_iff in H. congruence.
Qed.

Ltac q_cases :=
  repeat match goal with
  | |- context [Qlt_bool ?a ?b] => destruct (Qlt_bool_spec a b)
  | H : context [Qlt_bool ?a ?b] |- _ => destruct (Qlt_bool_spec a b)
  end.

(** Inverses of numerals, computed. *)
Ltac q_consts :=
  repeat match goal with
  | |- context [/ ?c] =>
    let c' := eval vm_compute in (/ c) in progress change (/ c) with c'
  | H : context [/ ?c] |- _ =>
    let c' := eval vm_compute in (/ c) in progress change (/ c) with c' in H
  end.

Lemma py_clamp_bounds (v hi : Q) :
  0 <= hi -> 0 <= py_max 0 (py_min v hi) <= hi.
Proof. intros H. unfold py_max, py_min. q_cases; lra. Qed.

Lemma py_clamp_saturates (v hi : Q) :
  hi < 0 -> py_max 0 (py_min v hi) == 0.
Proof. intros H. unfold py_max, py_min. q_cases; lra. Qed.


Lemma qBound_range (lo v hi : Q) : lo <= hi -> lo <= qBound lo v hi <= hi.
Proof. intros H. unfold qBound. q_cases; lra. Qed.

Lemma qBound_inside (lo v hi : Q) : lo <= v <= hi -> qBound lo v hi = v.
Proof. intros H. unfold qBound. q_cases; try lra; reflexivity. Qed.

(** Rounding to two decimals moves a value by half a hundredth at most. *)
Lemma round_decimals_near (v : Q) : Qabs (round_decimals v - v) <= 1 # 200.
Proof.
  unfold round_decimals. apply Qabs_Qle_condition.
  destruct (Qlt_bool_spec v 0) as [Hneg|Hpos].
  - pose proof (Qfloor_le (- v * 100 + (1 # 2))) as Lo.
    pose proof (Qlt_floor (- v * 100 + (1 # 2))) as Hi.
    rewrite inject_Z_plus in Hi.
    set (n := inject_Z (Qfloor (- v * 100 + (1 # 2)))) in *. clearbody n.
    change (inject_Z 1) with 1 in Hi.
    unfold Qdiv. change (/ 100) with (1 # 100). split; lra.
  - pose proof (Qfloor_le (v * 100 + (1 # 2))) as Lo.
    pose proof (Qlt_floor (v * 100 + (1 # 2))) as Hi.
    rewrite inject_Z_plus in Hi.
    set (n := inject_Z (Qfloor (v * 100 + (1 # 2)))) in *. clearbody n.
    change (inject_Z 1) with 1 in Hi.
    unfold Qdiv. change (/ 100) with (1 # 100). split; lra.
Qed.

(** Bounding to the range of a spin box brings two values no further
    apart. *)
Lemma qBound_near (a b e : Q) :
  Qabs (a - b) <= e -> Qabs (qBound 1 a 1000 - qBound 1 b 1000) <= e.
Proof.
  intros H. apply Qabs_Qle_condition in H. apply Qabs_Qle_condition.
  unfold qBound. q_cases; split; lra.
Qed.

(** What a spin box shows for [v] is within half a hundredth of [v]
    bounded to the range. *)
Lemma spin_setValue_near (v : Q) :
  Qabs (spin_setValue v - qBound 1 v 1000) <= 1 # 200.
Proof. unfold spin_setValue. apply qBound_near, round_decimals_near. Qed.

Lemma spin_setValue_range (v : Q) : 1 <= spin_setValue v <= 1000.
Proof. apply qBound_range. lra. Qed.

Lemma unit_factor_pos (u : length_unit) : 0 < _UNIT_FACTORS u.
Proof. destruct u; simpl; lra. Qed.

Lemma to_m_pos (v : Q) (u : length_unit) : 0 < v -> 0 < to_m v u.
Proof.
  intros H. unfold to_m. pose proof (unit_factor_pos u) as F.
  apply Qmult_lt_0_compat; assumption.
Qed.

Lemma py_mod_range (a n : Q) : 0 < n -> 0 <= py_mod a n < n.
Proof.
  intros Hn. unfold py_mod.
  pose proof (Qfloor_le (a / n)) as Hlo.
  pose proof (Qlt_floor (a / n)) as Hhi.
  rewrite inject_Z_plus in Hhi.
  set (q := inject_Z (Qfloor (a / n))) in *.
  assert (Ha : a == n * (a / n)) by (field; lra).
  split.
  - assert (n * q <= n * (a / n)) by (apply Qmult_le_l; assumption). lra.
  - assert (n * (a / n) < n * (q + inject_Z 1)) by (apply Qmult_lt_l; assumption).
    change (inject_Z 1) with 1 in *. lra.
Qed.

Lemma unit_eqb_eq (a b : length_unit) : unit_eqb a b = true <-> a = b.
Proof. destruct a, b; simpl; split; intros H; congruence. Qed.

Lemma unit_eqb_refl (a : length_unit) : unit_eqb a a = true.
Proof. destruct a; reflexivity. Qed.

Lemma unit_eqb_neq (a b : length_unit) : a <> b -> unit_eqb a b = false.
Proof. destruct a, b; simpl; intros H; congruence. Qed.

(** ** Decimal names *)

Lemma py_str_inj (a b : Z) : py_str a = py_str b -> a = b.
Proof.
  unfold py_str. intros H. apply DecimalZ.to_int_inj.
  assert (N : forall z, Z.to_int z <> Decimal.Pos Decimal.Nil /\
                        Z.to_int z <> Decimal.Neg Decimal.Nil).
  { intros [|p|p]; simpl; split; try discriminate; intros E; injection E;
      apply DecimalPos.Unsigned.to_uint_nonnil. }
  destruct (N a) as [Pa Na], (N b) as [Pb Nb].
  pose proof (NilZero.isi _ Pa Na) as Ia.
  pose proof (NilZero.isi _ Pb Nb) as Ib.
  rewrite H in Ia. rewrite Ia in Ib. congruence.
Qed.

Lemma append_inj_r (p s t : string) : (p ++ s = p ++ t)%string -> s = t.
Proof. induction p as [|c p IH]; simpl; intros H; [exact H | injection H; auto]. Qed.

Lemma numbered_name_inj (prefix : string) (a b : Z) :
  (prefix ++ py_str a = prefix ++ py_str b)%string -> a = b.
Proof. intros H. apply py_str_inj. eapply append_inj_r. exact H. Qed.

Lemma name_exists_In (self : RoomPlanner) (n : string) :
  _name_exists self n = true <-> In n (map entry_data_name (list_widget self)).
Proof.
  unfold _name_exists. rewrite existsb_exists, in_map_iff. split.
  - intros (e & He & E). apply String.eqb_eq in E. eauto.
  - intros (e & E & He). exists e. split; [exact He|]. apply String.eqb_eq. exact E.
Qed.

(** The probing loop returns: it leaves at a counter whose name is free,
    having skipped only counters whose names are taken. *)
Lemma next_available_spec (self : RoomPlanner) (prefix : string) :
  forall (fuel : nat) (l : list string) (counter : Z),
    (forall k, (counter <= k)%Z ->
         _name_exists self (prefix ++ py_str k)%string = true ->
         In (prefix ++ py_str k)%string l) ->
    (length l < fuel)%nat ->
    exists n,
      next_available fuel self prefix counter = Some n /\
      (counter <= n)%Z /\
      _name_exists self (prefix ++ py_str n)%string = false /\
      (forall k, (counter <= k < n)%Z ->
         _name_exists self (prefix ++ py_str k)%string = true).
Proof.
  induction fuel as [|fuel IH]; intros l counter Hl Hlen; [lia|].
  simpl. destruct (_name_exists self (prefix ++ py_str counter)%string) eqn:E.
  - assert (Hin : In (prefix ++ py_str counter)%string l) by (apply Hl; [lia | exact E]).
    destruct (IH (remove string_dec (prefix ++ py_str counter)%string l) (counter + 1)%Z)
      as (n & Hn & Hle & Hfree & Hskipped).
    + intros k Hk Hex. apply in_in_remove.
      * intros Heq. apply numbered_name_inj in Heq. lia.
      * apply Hl; [lia | exact Hex].
    + pose proof (remove_length_lt string_dec l _ Hin). lia.
    + exists n. repeat split; try assumption; try lia.
      intros k Hk. destruct (Z.eq_dec k counter) as [->|Hne]; [exact E|].
      apply Hskipped. lia.
  - exists counter. repeat split; try assumption; lia.
Qed.

Lemma next_available_total (self : RoomPlanner) (prefix : string) (counter : Z) :
  exists n,
    next_available (enough_fuel self) self prefix counter = Some n /\
    (counter <= n)%Z /\
    _name_exists self (prefix ++ py_str n)%string = false /\
    (forall k, (counter <= k < n)%Z ->
       _name_exists self (prefix ++ py_str k)%string = true).
Proof.
  apply (next_available_spec self prefix (enough_fuel self)
           (map entry_data_name (list_widget self))).
  - intros k _ H. apply name_exists_In. exact H.
  - unfold enough_fuel. rewrite length_map. lia.
Qed.

(* ------------------------------------------------------------------ *)
(** ** Checks over a range of integers *)





(** ** Running commands *)

Ltac se_unfold :=
  unfold state_after, result_of, try_except, on_local,
         bind, modify, get, ret, raise, lift, dict_item.

Lemma bind_Ret {S A B : Type} (c : SE S A) (k : A -> SE S B) (s s' : S) (a : A) :
  c s = (s', Ret a) -> bind c k s = k a s'.
Proof. intros H. unfold bind. rewrite H. reflexivity. Qed.

Lemma bind_Raise {S A B : Type} (c : SE S A) (k : A -> SE S B) (s s' : S) (e : exn) :
  c s = (s', Raise e) -> bind c k s = (s', Raise e).
Proof. intros H. unfold bind. rewrite H. reflexivity. Qed.

Lemma add_items_nil (self : RoomPlanner) :
  furniture_items (add_items [] self) = furniture_items self /\
  list_widget (add_items [] self) = list_widget self.
Proof. unfold add_items. simpl. rewrite !app_nil_r. split; reflexivity. Qed.


(** [add_items] touches the tracked furniture and the list only. *)
Lemma add_items_frame (items : list FurnitureItem) (self : RoomPlanner) :
  room_name (add_items items self) = room_name self /\
  room_width_m (add_items items self) = room_width_m self /\
  room_depth_m (add_items items self) = room_depth_m self /\
  current_floor_texture (add_items items self) = current_floor_texture self /\
  show_room_border (add_items items self) = show_room_border self /\
  door_items (add_items items self) = door_items self /\
  furniture_items (add_items items self) = furniture_items self ++ items.
Proof. repeat split. Qed.

Lemma add_items_app (a b : list FurnitureItem) (self : RoomPlanner) :
  add_items b (add_items a self) = add_items (a ++ b) self.
Proof.
  unfold add_items, set_list_widget, set_furniture_items. simpl.
  rewrite map_app, !app_assoc. reflexivity.
Qed.

(** ** [setPos] *)

Lemma QPointF_eqb_true (p q : QPointF) :
  QPointF_eqb p q = true <-> px p == px q /\ py p == py q.
Proof.
  unfold QPointF_eqb. rewrite andb_true_iff, !Qeq_bool_iff. reflexivity.
Qed.

(** What [setPos] leaves alone. *)
Lemma setPos_frame (planner : RoomPlanner) (p : QPointF) (self : FurnitureItem) :
  let self' := fst (setPos planner p self) in
  name (furn self') = name (furn self) /\
  width_m (furn self') = width_m (furn self) /\
  depth_m (furn self') = depth_m (furn self) /\
  colour (furn self') = colour (furn self) /\
  rotation (furn self') = rotation (furn self) /\
  scale self' = scale self /\
  rect self' = rect self /\
  item_rotation self' = item_rotation self.
Proof.
  unfold setPos, itemChange_ItemPositionHasChanged, py_truediv. se_unfold.
  destruct (QPointF_eqb (pos self) p); simpl; [repeat split|].
  destruct (QPointF_eqb _ (pos self)); simpl; [repeat split|].
  destruct (Qeq_bool (inject_Z (scale self)) 0); simpl; repeat split.
Qed.

(** [setPos] either keeps the position (and the model position) or takes
    the position answered by [itemChange] and divides it by the item's
    scale. *)
Lemma setPos_cases (planner : RoomPlanner) (p : QPointF) (self : FurnitureItem) :
  let newPos := itemChange_ItemPositionChange planner self p in
  if QPointF_eqb (pos self) p || QPointF_eqb newPos (pos self)
  then setPos planner p self = (self, Ret tt)
  else if Qeq_bool (inject_Z (scale self)) 0
  then setPos planner p self = (setPosHelper newPos self, Raise ZeroDivisionError)
  else
    let self' := fst (setPos planner p self) in
    snd (setPos planner p self) = Ret tt /\
    pos self' = newPos /\
    x_m (furn self') = px newPos / inject_Z (scale self) /\
    y_m (furn self') = py newPos / inject_Z (scale self).
Proof.
  unfold setPos, itemChange_ItemPositionHasChanged, py_truediv. se_unfold.
  destruct (QPointF_eqb (pos self) p); simpl; [reflexivity|].
  destruct (QPointF_eqb _ (pos self)); simpl; [reflexivity|].
  destruct (Qeq_bool (inject_Z (scale self)) 0); simpl; [reflexivity|].
  repeat split.
Qed.

(** [setPos] on a fresh item, to the display position of its record, as in
    [load_furniture]: it returns, and the model position it leaves is the
    answer of [itemChange] turned back into metres. *)
Lemma loaded_item_spec (planner : RoomPlanner) (f : Furniture) :
  let s := pixels_per_m planner in
  let item := FurnitureItem_init f s in
  let p := {| px := x_m f * inject_Z s; py := y_m f * inject_Z s |} in
  let newPos := itemChange_ItemPositionChange planner item p in
  snd (setPos planner p item) = Ret tt /\
  ((x_m (furn (loaded_item planner f)) = x_m f /\
    y_m (furn (loaded_item planner f)) = y_m f /\
    (QPointF_eqb origin p = true \/ QPointF_eqb newPos origin = true)) \/
   (~ inject_Z s == 0 /\
    QPointF_eqb newPos origin = false /\
    x_m (furn (loaded_item planner f)) = px newPos / inject_Z s /\
    y_m (furn (loaded_item planner f)) = py newPos / inject_Z s)).
Proof.
  intros s item p newPos.
  pose proof (setPos_cases planner p item) as C. cbv zeta in C.
  fold newPos in C. unfold loaded_item. fold s item p.
  change (pos item) with origin in C.
  destruct (QPointF_eqb origin p) eqn:E0; simpl in C.
  { rewrite C. simpl. split; [reflexivity|]. left. auto. }
  destruct (QPointF_eqb newPos origin) eqn:E1; simpl in C.
  { rewrite C. simpl. split; [reflexivity|]. left. auto. }
  change (scale item) with s in C.
  destruct (Qeq_bool (inject_Z s) 0) eqn:Es.
  { exfalso. apply Qeq_bool_iff in Es.
    assert (QPointF_eqb origin p = true); [|congruence].
    apply QPointF_eqb_true. subst p. simpl. rewrite Es. split; ring. }
  destruct C as (Hret & _ & Hx & Hy).
  split; [exact Hret|]. right.
  split; [apply Qeq_bool_neq; exact Es|]. auto.
Qed.

(** ** The furniture loop of [load_layout] and [_load_cached_room] *)

Lemma Furniture_of_data_spec (d : furn_data) (self : RoomPlanner) :
  match furniture_of_record d with
  | Some f => Furniture_of_data d self = (self, Ret f)
  | None => exists key, Furniture_of_data d self = (self, Raise (KeyError key))
  end.
Proof.
  unfold furniture_of_record, Furniture_of_data. se_unfold.
  destruct (fd_name d); [|eexists; reflexivity].
  destruct (fd_width_m d); [|eexists; reflexivity].
  destruct (fd_depth_m d); [|eexists; reflexivity].
  destruct (fd_colour d); [|eexists; reflexivity].
  destruct (fd_x_m d); [|eexists; reflexivity].
  destruct (fd_y_m d); [|eexists; reflexivity].
  reflexivity.
Qed.

Lemma load_furniture_spec (d : furn_data) (self : RoomPlanner) :
  match furniture_of_record d with
  | Some f => load_furniture d self = (add_items [loaded_item self f] self, Ret tt)
  | None => exists key, load_furniture d self = (self, Raise (KeyError key))
  end.
Proof.
  pose proof (Furniture_of_data_spec d self) as P.
  destruct (furniture_of_record d) as [f|].
  - pose proof (loaded_item_spec self f) as (Hret & _).
    unfold load_furniture, bind at 1. rewrite P.
    unfold loaded_item.
    destruct (setPos self _ (FurnitureItem_init f (pixels_per_m self))) as [item o] eqn:E.
    se_unfold. rewrite E. simpl in Hret. subst o. reflexivity.
  - destruct P as (key & P). exists key.
    unfold load_furniture, bind at 1. rewrite P. reflexivity.
Qed.

(** The window reads the same for [itemChange] after items were appended. *)
Lemma loaded_item_add_items (items : list FurnitureItem) (self : RoomPlanner) (f : Furniture) :
  loaded_item (add_items items self) f = loaded_item self f.
Proof. reflexivity. Qed.

(** The loop appends the items of the complete prefix of the array, in
    order; it ends normally exactly when the whole array was complete, and
    with [KeyError] otherwise. *)
Lemma for_each_load_furniture (l : list furn_data) (self : RoomPlanner) :
  fst (for_each l load_furniture self) =
    add_items (map (loaded_item self) (complete_prefix l)) self /\
  ((length (complete_prefix l) = length l /\
    snd (for_each l load_furniture self) = Ret tt) \/
   ((length (complete_prefix l) < length l)%nat /\
    exists key, snd (for_each l load_furniture self) = Raise (KeyError key))).
Proof.
  revert self. induction l as [|d rest IH]; intros self.
  - simpl. unfold ret, add_items, set_list_widget, set_furniture_items. simpl.
    rewrite !app_nil_r. split; [destruct self; reflexivity | left; auto].
  - simpl for_each.
    pose proof (load_furniture_spec d self) as P. simpl complete_prefix.
    destruct (furniture_of_record d) as [f|].
    + rewrite (bind_Ret _ _ _ _ _ P).
      destruct (IH (add_items [loaded_item self f] self)) as (Hst & Hres).
      split.
      * rewrite Hst. rewrite add_items_app. simpl. f_equal.
      * simpl. destruct Hres as [(Hlen & Hr)|(Hlen & key & Hr)].
        -- left. split; [lia | exact Hr].
        -- right. split; [lia | exists key; exact Hr].
    + destruct P as (key & P). rewrite (bind_Raise _ _ _ _ _ P). simpl. split.
      * unfold add_items, set_list_widget, set_furniture_items. simpl.
        rewrite !app_nil_r. destruct self; reflexivity.
      * right. split; [lia | exists key; reflexivity].
Qed.

(** ** The shape of a load *)

Lemma floor_known_or_not (self : RoomPlanner) :
  {FloorTexture.mem (current_floor_texture self) = true} +
  {FloorTexture.mem (current_floor_texture self) = false}.
Proof. destruct (FloorTexture.mem (current_floor_texture self)); auto. Qed.

Lemma room_loaded_fields (d : layout_data) (self : RoomPlanner) :
  let s := room_loaded d self in
  room_name s = dict_get (rd_name (room_object d)) "My Room"%string /\
  room_width_m s = dict_get (rd_width_m (room_object d)) 5.0 /\
  room_depth_m s = dict_get (rd_depth_m (room_object d)) 4.0 /\
  current_floor_texture s = dict_get (rd_floor_texture (room_object d)) "None"%string /\
  show_room_border s = dict_get (rd_show_border (room_object d)) true /\
  furniture_items s = [] /\
  door_items s = [] /\
  list_widget s = [] /\
  door_counter s = 1%Z /\
  window_counter s = 1%Z /\
  snap_to_borders s = snap_to_borders self /\
  pixels_per_m s = pixels_per_m self.
Proof.
  unfold room_loaded, room_object, new_room, update_ui_from_room, draw_room_border,
    floor_combo_setCurrentText. se_unfold.
  simpl. destruct (FloorTexture.mem _); simpl; repeat split.
Qed.

(** [load_layout] on a readable, well-formed file: the layout is cleared
    and the room replaced; then either the floor texture is unknown and the
    load stops there, or the complete prefix of the furniture array is
    appended. *)
Lemma load_layout_document (d : layout_data) (self : RoomPlanner) :
  let s := room_loaded d self in
  let l := furniture_array d in
  if FloorTexture.mem (current_floor_texture s) then
    state_after (load_layout (Some (Readable (Document d)))) self =
      add_items (map (loaded_item s) (complete_prefix l)) s /\
    ((length (complete_prefix l) = length l /\
      result_of (load_layout (Some (Readable (Document d)))) self = Ret Information) \/
     ((length (complete_prefix l) < length l)%nat /\
      exists key,
        result_of (load_layout (Some (Readable (Document d)))) self =
          Ret (Critical (KeyError key))))
  else
    state_after (load_layout (Some (Readable (Document d)))) self = s /\
    result_of (load_layout (Some (Readable (Document d)))) self =
      Ret (Critical (KeyError (current_floor_texture s))).
Proof.
  intros s l.
  assert (E : load_layout (Some (Readable (Document d))) self =
    try_except
      (_apply_theme ;; for_each l load_furniture ;; ret Information)
      (fun e => ret (Critical e)) s).
  { subst s l. unfold room_loaded, furniture_array, load_layout, new_room,
      update_ui_from_room, draw_room_border, floor_combo_setCurrentText,
      open_and_json_load, json_loads, as_dict. se_unfold. simpl.
    destruct (FloorTexture.mem _); reflexivity. }
  unfold state_after, result_of. rewrite E. clear E.
  assert (T : _apply_theme s =
    if FloorTexture.mem (current_floor_texture s) then (s, Ret tt)
    else (s, Raise (KeyError (current_floor_texture s)))).
  { unfold _apply_theme. se_unfold. destruct (FloorTexture.mem _); reflexivity. }
  destruct (FloorTexture.mem (current_floor_texture s)).
  - unfold try_except. rewrite (bind_Ret _ _ _ _ _ T).
    pose proof (for_each_load_furniture l s) as (Hst & Hres).
    destruct (for_each l load_furniture s) as [s' o] eqn:F. simpl in Hst, Hres. subst s'.
    destruct Hres as [(Hlen & ->)|(Hlen & key & ->)].
    + rewrite (bind_Ret _ _ _ _ _ F). simpl. split; [reflexivity|]. left. auto.
    + rewrite (bind_Raise _ _ _ _ _ F). simpl. split; [reflexivity|].
      right. split; [exact Hlen|]. exists key. reflexivity.
  - unfold try_except. rewrite (bind_Raise _ _ _ _ _ T). split; reflexivity.
Qed.

Lemma room_restored_fields (d : layout_data) (self : RoomPlanner) :
  let s := room_restored d self in
  room_name s = dict_get (rd_name (room_object d)) (room_name self) /\
  room_width_m s = dict_get (rd_width_m (room_object d)) (room_width_m self) /\
  room_depth_m s = dict_get (rd_depth_m (room_object d)) (room_depth_m self) /\
  current_floor_texture s = dict_get (rd_floor_texture (room_object d)) "None"%string /\
  show_room_border s = dict_get (rd_show_border (room_object d)) true /\
  furniture_items s = furniture_items self /\
  door_items s = door_items self /\
  list_widget s = list_widget self /\
  snap_to_borders s = snap_to_borders self /\
  pixels_per_m s = pixels_per_m self.
Proof.
  unfold room_restored, room_object, update_ui_from_room, draw_room_border,
    floor_combo_setCurrentText. se_unfold.
  simpl. destruct (FloorTexture.mem _); simpl; repeat split.
Qed.

(** [_load_cached_room]: nothing happens without a cached text or with one
    that is not JSON or not a JSON object; otherwise the room is replaced
    and the complete prefix of the furniture array is appended.  It never
    raises. *)
Lemma load_cached_room_shape (self : RoomPlanner) :
  result_of _load_cached_room self = Ret tt /\
  match s_cached_room (settings self) with
  | None | Some Malformed | Some NotAnObject => state_after _load_cached_room self = self
  | Some (Document d) =>
    let s := room_restored d self in
    state_after _load_cached_room self =
      add_items (map (loaded_item s) (complete_prefix (furniture_array d))) s
  end.
Proof.
  destruct (s_cached_room (settings self)) as [[| |d]|] eqn:C.
  - unfold _load_cached_room, json_loads. se_unfold. rewrite C. split; reflexivity.
  - unfold _load_cached_room, json_loads, as_dict. se_unfold. rewrite C.
    split; reflexivity.
  - assert (E : _load_cached_room self =
      try_except (for_each (furniture_array d) load_furniture) (fun _ => ret tt)
        (room_restored d self)).
    { unfold room_restored, furniture_array, _load_cached_room, json_loads, as_dict,
        update_ui_from_room, draw_room_border, floor_combo_setCurrentText.
      se_unfold. rewrite C. simpl.
      destruct (FloorTexture.mem _); reflexivity. }
    unfold state_after, result_of. rewrite E. clear E. unfold try_except.
    pose proof (for_each_load_furniture (furniture_array d) (room_restored d self))
      as (Hst & Hres).
    destruct (for_each _ load_furniture _) as [s' o]. simpl in Hst, Hres. subst s'.
    destruct Hres as [(_ & ->)|(_ & key & ->)]; split; reflexivity.
  - unfold _load_cached_room. se_unfold. rewrite C. split; reflexivity.
Qed.

(** ** Adding and pasting *)

Lemma on_add_furniture_spec (self : RoomPlanner) :
  let panel := control_panel self in
  let new_name :=
    if String.eqb (f_name panel) "" then
      ("Item " ++ py_str (Z.of_nat (length (list_widget self)) + 1))%string
    else f_name panel in
  on_add_furniture self =
    (set_f_name "" (add_items
       [FurnitureItem_init
          {| name := new_name;
             width_m := to_m (f_w_spin panel) (f_w_unit panel);
             depth_m := to_m (f_d_spin panel) (f_d_unit panel);
             colour := f_colour panel;
             x_m := 0.0; y_m := 0.0; rotation := 0.0 |} (pixels_per_m self)] self), Ret tt).
Proof. reflexivity. Qed.


(** [RoomPlanner.__init__] up to the call of [_load_cached_room]: the
    default room, no items, the stored settings. *)
Lemma init_shape (stored : QSettings) :
  exists pre,
    fst (RoomPlanner_init stored) = state_after _load_cached_room pre /\
    settings pre = stored /\
    room_width_m pre = to_m 16.0 U_ft /\
    room_depth_m pre = to_m 12.0 U_ft /\
    furniture_items pre = [] /\
    door_items pre = [] /\
    list_widget pre = [] /\
    control_panel pre =
      panel_set_floor_combo (floor_combo (control_panel pre))
        (panel_set_border_checkbox (border_checkbox (control_panel pre))
           (control_panel (initial_attributes stored))) /\
    current_room_unit pre = U_ft /\
    current_furniture_unit pre = U_in.
Proof.
  unfold RoomPlanner_init, _load_settings, _set_canvas_scale, draw_room_border,
    floor_combo_setCurrentText, state_after.
  unfold try_except, on_local, bind, modify, get, ret, raise, lift. simpl.
  destruct (FloorTexture.mem _); eexists; (split; [reflexivity|]); simpl; repeat split.
Qed.

(* ------------------------------------------------------------------ *)
(** ** The outcome of a load *)









(* ------------------------------------------------------------------ *)
(** ** Unit conversion *)


Section UnitRoundTrip.

Import PrimFloat.


End UnitRoundTrip.



(* ------------------------------------------------------------------ *)
(** ** Boundary clamp *)

(** C4. With snap-to-border on, [itemChange] answers a proposed position
    with a point clamped on each axis separately into [0, W - w] and
    [0, H - h], where [W, H] is the room and [w, h] the item's unrotated
    rectangle in pixels; on an axis where the item is larger than the room
    the answer is 0; the answer does not depend on the item's rotation, and
    it is a value, never an exception. *)
Theorem clamp_within_room (parent_planner : RoomPlanner) (self : FurnitureItem) (value : QPointF) :
  snap_to_borders parent_planner = true ->
  let W := room_width_m parent_planner * inject_Z (scale self) in
  let H := room_depth_m parent_planner * inject_Z (scale self) in
  let w := width (rect self) in
  let h := height (rect self) in
  let p := itemChange_ItemPositionChange parent_planner self value in
  (w <= W -> 0 <= px p <= W - w) /\
  (h <= H -> 0 <= py p <= H - h) /\
  (W < w -> px p == 0) /\
  (H < h -> py p == 0) /\
  px p = py_max 0 (py_min (px value) (W - w)) /\
  py p = py_max 0 (py_min (py value) (H - h)) /\
  (forall r : Q,
     itemChange_ItemPositionChange parent_planner
       (setRotation r (item_set_furn (set_rotation r (furn self)) self)) value = p).
Proof.
  intros Hsnap W H w h p.
  assert (Ep : p = {| px := py_max 0 (py_min (px value) (W - w));
                      py := py_max 0 (py_min (py value) (H - h)) |}).
  { subst p. unfold itemChange_ItemPositionChange. rewrite Hsnap. reflexivity. }
  rewrite Ep. simpl.
  split; [intros Hw; apply py_clamp_bounds; lra|].
  split; [intros Hh; apply py_clamp_bounds; lra|].
  split; [intros Hw; apply py_clamp_saturates; lra|].
  split; [intros Hh; apply py_clamp_saturates; lra|].
  split; [reflexivity|]. split; [reflexivity|].
  intros r. unfold itemChange_ItemPositionChange. rewrite Hsnap. reflexivity.
Qed.

Lemma clamp_within_room_witness :
  let planner := state_after click_snap_checkbox sample_with_door in
  let item := FurnitureItem_init
                {| name := "Sofa"; width_m := 2; depth_m := 1; colour := "#4a90e2"%string;
                   x_m := 0; y_m := 0; rotation := 0 |} 60 in
  let p := itemChange_ItemPositionChange planner item {| px := 1000; py := -5 |} in
  snap_to_borders planner = true /\
  width (rect item) <= room_width_m planner * inject_Z (scale item) /\
  height (rect item) <= room_depth_m planner * inject_Z (scale item) /\
  0 <= px p <= room_width_m planner * inject_Z (scale item) - width (rect item) /\
  0 <= py p <= room_depth_m planner * inject_Z (scale item) - height (rect item).
Proof.
  set (planner := state_after click_snap_checkbox sample_with_door).
  set (item := FurnitureItem_init
                {| name := "Sofa"; width_m := 2; depth_m := 1; colour := "#4a90e2"%string;
                   x_m := 0; y_m := 0; rotation := 0 |} 60).
  destruct (clamp_within_room planner item {| px := 1000; py := -5 |} eq_refl)
    as (Hx & Hy & _).
  assert (Hw : width (rect item) <= room_width_m planner * inject_Z (scale item))
    by (vm_compute; discriminate).
  assert (Hh : height (rect item) <= room_depth_m planner * inject_Z (scale item))
    by (vm_compute; discriminate).
  cbv zeta. split; [reflexivity|]. split; [exact Hw|]. split; [exact Hh|].
  split; [exact (Hx Hw) | exact (Hy Hh)].
Defined.

(* ------------------------------------------------------------------ *)
(** ** Names *)

(** When the dialog is accepted with the proposed name, the entry added to
    the list is that name, and the stored counter moves past it. *)
Lemma add_door_inserts_proposed (self : RoomPlanner) (w t : Q) :
  _room_rect_item self <> None ->
  exists n,
    next_available (enough_fuel self) self "Door " (door_counter self) = Some n /\
    let self' := state_after
      (add_door (Some {| dlg_name := None; dlg_width := w; dlg_thickness := t |})) self in
    list_widget self' =
      list_widget self ++ [DoorWindowEntry ("Door " ++ py_str n) true] /\
    door_counter self' = (n + 1)%Z.
Proof.
  intros Hroom.
  destruct (next_available_total self "Door " (door_counter self)) as (n & Hn & _).
  exists n. split; [exact Hn|].
  unfold add_door. se_unfold.
  destruct (_room_rect_item self); [|congruence].
  rewrite Hn. simpl. split; reflexivity.
Qed.

Lemma add_window_inserts_proposed (self : RoomPlanner) (w t : Q) :
  _room_rect_item self <> None ->
  exists n,
    next_available (enough_fuel self) self "Window " (window_counter self) = Some n /\
    let self' := state_after
      (add_window (Some {| dlg_name := None; dlg_width := w; dlg_thickness := t |})) self in
    list_widget self' =
      list_widget self ++ [DoorWindowEntry ("Window " ++ py_str n) false] /\
    window_counter self' = (n + 1)%Z.
Proof.
  intros Hroom.
  destruct (next_available_total self "Window " (window_counter self)) as (n & Hn & _).
  exists n. split; [exact Hn|].
  unfold add_window. se_unfold.
  destruct (_room_rect_item self); [|congruence].
  rewrite Hn. simpl. split; reflexivity.
Qed.

(** Names stay pairwise distinct under insertions of proposed names. *)
Lemma fresh_entry_keeps_distinct (self : RoomPlanner) (entry : ListEntry) (l : list ListEntry) :
  NoDup (names self) ->
  _name_exists self (entry_data_name entry) = false ->
  l = list_widget self ++ [entry] ->
  NoDup (map entry_data_name l).
Proof.
  intros Hnd Hfree ->. rewrite map_app. simpl.
  apply NoDup_app; [exact Hnd | repeat constructor; intros [] | ].
  intros x Hx [<-|[]]. apply name_exists_In in Hx. congruence.
Qed.

Lemma proposed_names_keep_distinct (self : RoomPlanner) (c : command) :
  adds_proposed_name c ->
  NoDup (names self) ->
  NoDup (names (state_after (execute c) self)).
Proof.
  intros Hc Hnd.
  destruct c as [| | | | | | | | | | | | | | | | | | | |[input|]|[input|]| | | |];
    simpl in Hc; try contradiction.
  - destruct input as [nm w t]. simpl in Hc. subst nm.
    destruct (_room_rect_item self) eqn:Hroom.
    + destruct (add_door_inserts_proposed self w t) as (n & Hn & Hlist & _);
        [congruence|].
      destruct (next_available_total self "Door " (door_counter self))
        as (n' & Hn' & _ & Hfree & _).
      assert (n' = n) by congruence. subst n'. cbv zeta in Hlist.
      unfold names.
      apply (fresh_entry_keeps_distinct self (DoorWindowEntry ("Door " ++ py_str n) true));
        [exact Hnd | exact Hfree |].
      rewrite <- Hlist. unfold state_after, execute, bind.
      destruct (add_door _ self) as [s' [m|e]]; reflexivity.
    + unfold state_after, execute, add_door. se_unfold. rewrite Hroom. exact Hnd.
  - destruct input as [nm w t]. simpl in Hc. subst nm.
    destruct (_room_rect_item self) eqn:Hroom.
    + destruct (add_window_inserts_proposed self w t) as (n & Hn & Hlist & _);
        [congruence|].
      destruct (next_available_total self "Window " (window_counter self))
        as (n' & Hn' & _ & Hfree & _).
      assert (n' = n) by congruence. subst n'. cbv zeta in Hlist.
      unfold names.
      apply (fresh_entry_keeps_distinct self (DoorWindowEntry ("Window " ++ py_str n) false));
        [exact Hnd | exact Hfree |].
      rewrite <- Hlist. unfold state_after, execute, bind.
      destruct (add_window _ self) as [s' [m|e]]; reflexivity.
    + unfold state_after, execute, add_window. se_unfold. rewrite Hroom. exact Hnd.
Qed.

(** Along any sequence of doors and windows added under their proposed
    names, no name is ever given twice. *)
Lemma proposed_names_never_collide (cs : list command) (self : RoomPlanner) :
  Forall adds_proposed_name cs ->
  NoDup (names self) ->
  NoDup (names (run cs self)).
Proof.
  revert self. induction cs as [|c rest IH]; intros self Hcs Hnd; [exact Hnd|].
  inversion Hcs as [|? ? Hc Hrest]. subst. simpl.
  apply IH; [exact Hrest|]. apply proposed_names_keep_distinct; assumption.
Qed.

(** C7.  At every call of [add_door] or [add_window], in any state of the
    window, the probing loop ends; the counter [n] it ends on is not below
    the stored counter, its name ["Door n"] (or ["Window n"]) is not among
    the names of the entries of the list widget, which holds furniture and
    openings alike, and every counter it stepped over is a name that is
    among them; when the dialog is accepted with the name it proposes, that
    name is the one entered in the list.  Neither command raises, whatever
    the user does with the dialog.  Along any sequence of doors and windows
    added under their proposed names, names that were pairwise distinct
    stay so. *)
Theorem default_name_is_unused (self : RoomPlanner) :
  (exists n,
     next_available (enough_fuel self) self "Door " (door_counter self) = Some n /\
     (door_counter self <= n)%Z /\
     ~ In ("Door " ++ py_str n)%string (names self) /\
     (forall k, (door_counter self <= k < n)%Z ->
        In ("Door " ++ py_str k)%string (names self)) /\
     (forall w t : Q,
        _room_rect_item self <> None ->
        list_widget
          (state_after
             (add_door (Some {| dlg_name := None; dlg_width := w; dlg_thickness := t |}))
             self) =
          list_widget self ++ [DoorWindowEntry ("Door " ++ py_str n) true])) /\
  (exists n,
     next_available (enough_fuel self) self "Window " (window_counter self) = Some n /\
     (window_counter self <= n)%Z /\
     ~ In ("Window " ++ py_str n)%string (names self) /\
     (forall k, (window_counter self <= k < n)%Z ->
        In ("Window " ++ py_str k)%string (names self)) /\
     (forall w t : Q,
        _room_rect_item self <> None ->
        list_widget
          (state_after
             (add_window (Some {| dlg_name := None; dlg_width := w; dlg_thickness := t |}))
             self) =
          list_widget self ++ [DoorWindowEntry ("Window " ++ py_str n) false])) /\
  (forall dialog, exists m, result_of (add_door dialog) self = Ret m) /\
  (forall dialog, exists m, result_of (add_window dialog) self = Ret m) /\
  (forall cs : list command,
     Forall adds_proposed_name cs ->
     NoDup (names self) ->
     NoDup (names (run cs self))).
Proof.
  pose proof (next_available_total self "Door " (door_counter self)) as D.
  pose proof (next_available_total self "Window " (window_counter self)) as W.
  split; [|split; [|split; [|split]]].
  - destruct D as (n & Hn & Hle & Hfree & Hskipped).
    exists n. split; [exact Hn|]. split; [exact Hle|].
    split; [|split].
    + intros Hin. apply name_exists_In in Hin. congruence.
    + intros k Hk. apply name_exists_In. apply Hskipped. exact Hk.
    + intros w t Hroom.
      destruct (add_door_inserts_proposed self w t Hroom) as (n' & Hn' & Hlist & _).
      assert (n' = n) by congruence. subst n'. exact Hlist.
  - destruct W as (n & Hn & Hle & Hfree & Hskipped).
    exists n. split; [exact Hn|]. split; [exact Hle|].
    split; [|split].
    + intros Hin. apply name_exists_In in Hin. congruence.
    + intros k Hk. apply name_exists_In. apply Hskipped. exact Hk.
    + intros w t Hroom.
      destruct (add_window_inserts_proposed self w t Hroom) as (n' & Hn' & Hlist & _).
      assert (n' = n) by congruence. subst n'. exact Hlist.
  - intros dialog. destruct D as (n & Hn & _).
    unfold add_door. se_unfold.
    destruct (_room_rect_item self); [|eexists; reflexivity].
    rewrite Hn. destruct dialog; eexists; reflexivity.
  - intros dialog. destruct W as (n & Hn & _).
    unfold add_window. se_unfold.
    destruct (_room_rect_item self); [|eexists; reflexivity].
    rewrite Hn. destruct dialog; eexists; reflexivity.
  - intros cs. apply proposed_names_never_collide.
Qed.

(** In a window where a piece of furniture is called ["Door 1"] the loop
    steps over 1 and proposes ["Door 2"], which is entered in the list. *)
Lemma default_name_is_unused_witness :
  In "Door 1"%string (names sample_named_like_a_door) /\
  door_counter sample_named_like_a_door = 1%Z /\
  next_available (enough_fuel sample_named_like_a_door) sample_named_like_a_door "Door "
    (door_counter sample_named_like_a_door) = Some 2%Z /\
  ~ In "Door 2"%string (names sample_named_like_a_door) /\
  list_widget
    (state_after
       (add_door (Some {| dlg_name := None; dlg_width := 1; dlg_thickness := 0.1 |}))
       sample_named_like_a_door) =
    list_widget sample_named_like_a_door ++ [DoorWindowEntry "Door 2" true] /\
  NoDup (names (run [AddDoor (Some {| dlg_name := None; dlg_width := 1;
                                      dlg_thickness := 0.1 |})]
                  sample_named_like_a_door)).
Proof.
  destruct (default_name_is_unused sample_named_like_a_door)
    as ((n & Hn & _ & Hfree & Hskipped & Hlist) & _ & _ & _ & Hseq).
  assert (E : next_available (enough_fuel sample_named_like_a_door)
                sample_named_like_a_door "Door "
                (door_counter sample_named_like_a_door) = Some 2%Z)
    by (vm_compute; reflexivity).
  assert (n = 2%Z) by congruence. subst n.
  split; [apply (Hskipped 1%Z); vm_compute; split; congruence|].
  split; [reflexivity|]. split; [exact E|]. split; [exact Hfree|].
  split.
  - apply Hlist. vm_compute. discriminate.
  - apply Hseq.
    + constructor; [reflexivity | constructor].
    + vm_compute. constructor; [intros [] | constructor].
Defined.

(** C10. When the name field is empty, [on_add_furniture] names the new
    piece ["Item n"] with [n] one more than the number of entries of the
    list widget (furniture, doors and windows together), appends the piece
    and its list entry and leaves the field empty; no look-up of the name
    takes place: the number of entries called ["Item n"] grows by one,
    whatever it was. *)
Theorem default_item_name (self : RoomPlanner) :
  f_name (control_panel self) = ""%string ->
  let default := ("Item " ++ py_str (Z.of_nat (length (list_widget self)) + 1))%string in
  let self' := state_after on_add_furniture self in
  result_of on_add_furniture self = Ret tt /\
  (exists item,
     furniture_items self' = furniture_items self ++ [item] /\
     name (furn item) = default) /\
  list_widget self' = list_widget self ++ [FurnitureEntry default] /\
  count_occ string_dec (names self') default =
    S (count_occ string_dec (names self) default) /\
  f_name (control_panel self') = ""%string.
Proof.
  intros Hname default self'.
  assert (Hrun : on_add_furniture self =
    (set_f_name "" (add_items
       [FurnitureItem_init
          {| name := default;
             width_m := to_m (f_w_spin (control_panel self)) (f_w_unit (control_panel self));
             depth_m := to_m (f_d_spin (control_panel self)) (f_d_unit (control_panel self));
             colour := f_colour (control_panel self);
             x_m := 0.0; y_m := 0.0; rotation := 0.0 |} (pixels_per_m self)] self), Ret tt)).
  { unfold on_add_furniture. se_unfold. rewrite Hname. reflexivity. }
  assert (Hlist : list_widget self' = list_widget self ++ [FurnitureEntry default]).
  { subst self'. unfold state_after. rewrite Hrun. reflexivity. }
  split; [unfold result_of; rewrite Hrun; reflexivity|].
  split; [|split; [exact Hlist|split]].
  - eexists. split; [subst self'; unfold state_after; rewrite Hrun; reflexivity|].
    reflexivity.
  - unfold names. rewrite Hlist. clearbody default.
    rewrite map_app, count_occ_app. simpl.
    destruct (string_dec default default); [lia|congruence].
  - subst self'. unfold state_after. rewrite Hrun. reflexivity.
Qed.

(** A window in which the default name is already taken: a piece, a door
    and a piece the user called ["Item 4"]. *)
Lemma default_item_name_witness :
  let self := state_after
    (modify (set_f_name "Item 4") ;; on_add_furniture) sample_with_door in
  f_name (control_panel self) = ""%string /\
  In (DoorWindowEntry "Door 1" true) (list_widget self) /\
  _name_exists self "Item 4" = true /\
  list_widget (state_after on_add_furniture self) =
    list_widget self ++ [FurnitureEntry "Item 4"].
Proof.
  set (self := state_after (modify (set_f_name "Item 4") ;; on_add_furniture) sample_with_door).
  pose proof (default_item_name self eq_refl) as (_ & _ & Hlist & _ & _).
  split; [reflexivity|]. split; [vm_compute; auto|]. split; [reflexivity|].
  exact Hlist.
Defined.

(* ------------------------------------------------------------------ *)
(** ** Unit selectors of the control panel *)

(** C9, as stated, fails for either selector of the room panel.  After the
    width unit goes from ft to in at first start, the width value is
    converted (16 to 192), but the depth value 12 still goes with the depth
    selector, which still reads ft: applying the room size gives a depth of
    12 ft, not 12 in.  After the depth unit goes from ft to in, no value is
    converted at all. *)
Lemma unit_selector_counterexample :
  let after_w := state_after (select_room_w_unit U_in) first_start in
  let after_d := state_after (select_room_d_unit U_in) first_start in
  (room_w_spin (control_panel after_w) == 192 /\
   room_d_spin (control_panel after_w) == 12 /\
   room_d_unit (control_panel after_w) = U_ft /\
   room_depth_m (state_after on_room_apply after_w) == to_m 12 U_ft /\
   ~ room_depth_m (state_after on_room_apply after_w) == to_m 12 U_in) /\
  (room_w_spin (control_panel after_d) == 16 /\
   ~ room_w_spin (control_panel after_d) == from_m (to_m 16 U_ft) U_in /\
   room_depth_m (state_after on_room_apply after_d) == to_m 12 U_in).
Proof.
  cbv zeta. repeat split; try (vm_compute; congruence).
Qed.

Lemma spin_setValue_two_decimals (v : Q) :
  exists k : Z, spin_setValue v == inject_Z k / 100.
Proof.
  unfold spin_setValue, qBound, round_decimals.
  destruct (Qlt_bool (if Qlt_bool v 0 then _ else _) 1).
  - exists 100%Z. reflexivity.
  - destruct (Qlt_bool 1000 (if Qlt_bool v 0 then _ else _)).
    + exists 100000%Z. reflexivity.
    + destruct (Qlt_bool v 0).
      * exists (- Qfloor (- v * 100 + (1 # 2)))%Z.
        rewrite inject_Z_opp. unfold Qdiv. ring.
      * exists (Qfloor (v * 100 + (1 # 2))). reflexivity.
Qed.

Lemma spin_setValue_shows_converted (value : Q) (old u : length_unit) :
  shows_converted (spin_setValue (from_m (to_m value old) u)) value old u.
Proof.
  split; [apply spin_setValue_range|]. split.
  - apply spin_setValue_two_decimals.
  - pose proof (spin_setValue_near (from_m (to_m value old) u)) as H.
    unfold tolerance. lra.
Qed.

Section FloatSpinBox.

Import PrimFloat.

(** Where the exact conversion lies half way between two hundredths, the
    program rounds the double it has computed: 18.75 ft are 5.715 m, the
    double is just below, and the spin box shows 5.71. *)
Lemma converted_tie_on_floats :
  Binary64.to_m 18.75 U_ft = 5.7149999999999999%float /\
  Binary64.spin_setValue (Binary64.from_m (Binary64.to_m 18.75 U_ft) U_m) = 571%Z /\
  from_m (to_m 18.75 U_ft) U_m == 5.715.
Proof. repeat split; vm_compute; reflexivity. Qed.

End FloatSpinBox.

(** C9, amended.  In a window whose recorded units are those shown by the
    width selectors: selecting a width unit other than the one shown
    converts only the width value, from the old unit to the new one, and
    sets the spin box to it, which keeps it in its range [1, 1000] and
    rounds it to two decimals: the value shown is within half a hundredth of
    the conversion bounded to the range (16 ft become 4.88 m, not 4.8768 m).
    The depth value and the depth selector are left alone, so that the depth
    means what it meant.  Selecting a depth unit converts nothing, so that
    the unchanged depth value is read in the new unit.  The same holds for
    the furniture panel. *)
Theorem unit_selector_change (self : RoomPlanner) (u : length_unit) :
  current_room_unit self = room_w_unit (control_panel self) ->
  current_furniture_unit self = f_w_unit (control_panel self) ->
  let panel := control_panel self in
  (let self' := state_after (select_room_w_unit u) self in
   let panel' := control_panel self' in
   room_w_unit panel' = u /\
   current_room_unit self' = u /\
   (if unit_eqb (room_w_unit panel) u then room_w_spin panel' = room_w_spin panel
    else shows_converted (room_w_spin panel') (room_w_spin panel) (room_w_unit panel) u) /\
   room_d_spin panel' = room_d_spin panel /\
   room_d_unit panel' = room_d_unit panel /\
   room_depth_m (state_after on_room_apply self') =
     to_m (room_d_spin panel) (room_d_unit panel)) /\
  (let self' := state_after (select_room_d_unit u) self in
   let panel' := control_panel self' in
   room_d_unit panel' = u /\
   current_room_unit self' = room_w_unit panel' /\
   room_w_unit panel' = room_w_unit panel /\
   room_w_spin panel' = room_w_spin panel /\
   room_d_spin panel' = room_d_spin panel /\
   room_depth_m (state_after on_room_apply self') = to_m (room_d_spin panel) u) /\
  (let self' := state_after (select_f_w_unit u) self in
   let panel' := control_panel self' in
   f_w_unit panel' = u /\
   current_furniture_unit self' = u /\
   (if unit_eqb (f_w_unit panel) u then f_w_spin panel' = f_w_spin panel
    else shows_converted (f_w_spin panel') (f_w_spin panel) (f_w_unit panel) u) /\
   f_d_spin panel' = f_d_spin panel /\
   f_d_unit panel' = f_d_unit panel) /\
  (let self' := state_after (select_f_d_unit u) self in
   let panel' := control_panel self' in
   f_d_unit panel' = u /\
   current_furniture_unit self' = f_w_unit panel' /\
   f_w_unit panel' = f_w_unit panel /\
   f_w_spin panel' = f_w_spin panel /\
   f_d_spin panel' = f_d_spin panel /\
   exists item,
     furniture_items (state_after on_add_furniture self') = furniture_items self' ++ [item] /\
     depth_m (furn item) = to_m (f_d_spin panel) u).
Proof.
  intros Hroom Hfurn panel. subst panel.
  split; [|split; [|split]].
  - unfold select_room_w_unit, _update_room_unit_display, on_room_apply, draw_room_border.
    se_unfold.
    destruct (unit_eqb (room_w_unit (control_panel self)) u) eqn:E; simpl.
    + apply unit_eqb_eq in E. rewrite <- E. repeat split; auto.
    + rewrite Hroom, E. simpl.
      split; [reflexivity|]. split; [reflexivity|].
      split; [apply spin_setValue_shows_converted|]. repeat split.
  - unfold select_room_d_unit, _update_room_unit_display, on_room_apply, draw_room_border.
    se_unfold.
    destruct (unit_eqb (room_d_unit (control_panel self)) u) eqn:E; simpl.
    + apply unit_eqb_eq in E. rewrite <- E. repeat split; auto.
    + rewrite Hroom, unit_eqb_refl. simpl. repeat split.
  - unfold select_f_w_unit, _update_furniture_unit_display. se_unfold.
    destruct (unit_eqb (f_w_unit (control_panel self)) u) eqn:E; simpl.
    + apply unit_eqb_eq in E. rewrite <- E. repeat split; auto.
    + rewrite Hfurn, E. simpl.
      split; [reflexivity|]. split; [reflexivity|].
      split; [apply spin_setValue_shows_converted|]. repeat split.
  - assert (S : state_after (select_f_d_unit u) self =
      if unit_eqb (f_d_unit (control_panel self)) u then self
      else set_current_furniture_unit (f_w_unit (control_panel self)) (set_f_d_unit u self)).
    { unfold select_f_d_unit, _update_furniture_unit_display. se_unfold.
      destruct (unit_eqb (f_d_unit (control_panel self)) u); simpl; [reflexivity|].
      rewrite Hfurn, unit_eqb_refl. reflexivity. }
    cbv zeta. rewrite S. unfold state_after. rewrite on_add_furniture_spec.
    destruct (unit_eqb (f_d_unit (control_panel self)) u) eqn:E; simpl.
    + apply unit_eqb_eq in E. rewrite <- E. repeat split; auto.
      eexists. split; reflexivity.
    + repeat split. eexists. split; reflexivity.
Qed.

(** At first start the room is 16 ft wide: in metres the spin box shows
    4.88, half a hundredth at most from 4.8768. *)
Lemma unit_selector_change_witness :
  let shown :=
    room_w_spin (control_panel (state_after (select_room_w_unit U_m) first_start)) in
  current_room_unit first_start = room_w_unit (control_panel first_start) /\
  current_furniture_unit first_start = f_w_unit (control_panel first_start) /\
  shows_converted shown 16.0 U_ft U_m /\
  shown == 4.88 /\
  from_m (to_m 16.0 U_ft) U_m == 4.8768 /\
  room_depth_m (state_after on_room_apply
                  (state_after (select_room_d_unit U_m) first_start)) = to_m 12.0 U_m.
Proof.
  pose proof (unit_selector_change first_start U_m eq_refl eq_refl) as (Hw & Hd & _).
  cbv zeta in Hw, Hd. cbv zeta.
  split; [reflexivity|]. split; [reflexivity|]. split; [|split; [|split]].
  - destruct Hw as (_ & _ & Hspin & _). exact Hspin.
  - vm_compute. reflexivity.
  - vm_compute. reflexivity.
  - destruct Hd as (_ & _ & _ & _ & _ & Hdepth). exact Hdepth.
Defined.

(* ------------------------------------------------------------------ *)
(** ** Room dimensions *)

(** C5, as stated, fails for a load: [load_layout] stores the width and
    depth of the document as they are. *)
Lemma loaded_room_not_positive :
  let self' := state_after (load_layout (Some (Readable (Document flat_room_document))))
                 first_start in
  result_of (load_layout (Some (Readable (Document flat_room_document)))) first_start
    = Ret Information /\
  ~ 0 < room_width_m self' /\
  ~ 0 < room_depth_m self'.
Proof. cbv zeta. repeat split; vm_compute; congruence. Qed.

Lemma on_room_apply_positive (self : RoomPlanner) :
  1 <= room_w_spin (control_panel self) ->
  1 <= room_d_spin (control_panel self) ->
  0 < room_width_m (state_after on_room_apply self) /\
  0 < room_depth_m (state_after on_room_apply self).
Proof.
  intros Hw Hd. unfold on_room_apply, draw_room_border. se_unfold. simpl.
  split; apply to_m_pos; lra.
Qed.

(** C5, amended.  The room is 16 ft by 12 ft, hence positive, when the
    window is created without a cached room; [on_room_apply] makes both
    dimensions positive for spin box values in their range (at least 1);
    [load_layout] on a parsed document and [_load_cached_room] store the
    width and depth of the document unchecked (5.0 and 4.0, respectively
    the current values, when the key is absent), so that they are positive
    exactly when those values are. *)
Theorem room_dimensions_after_replacement :
  (forall stored : QSettings,
     s_cached_room stored = None ->
     let self := fst (RoomPlanner_init stored) in
     room_width_m self = to_m 16.0 U_ft /\ room_depth_m self = to_m 12.0 U_ft /\
     0 < room_width_m self /\ 0 < room_depth_m self) /\
  (forall self : RoomPlanner,
     1 <= room_w_spin (control_panel self) ->
     1 <= room_d_spin (control_panel self) ->
     let self' := state_after on_room_apply self in
     0 < room_width_m self' /\ 0 < room_depth_m self') /\
  (forall (self : RoomPlanner) (d : layout_data),
     let self' := state_after (load_layout (Some (Readable (Document d)))) self in
     room_width_m self' = dict_get (rd_width_m (room_object d)) 5.0 /\
     room_depth_m self' = dict_get (rd_depth_m (room_object d)) 4.0) /\
  (forall (self : RoomPlanner) (d : layout_data),
     s_cached_room (settings self) = Some (Document d) ->
     let self' := state_after _load_cached_room self in
     room_width_m self' = dict_get (rd_width_m (room_object d)) (room_width_m self) /\
     room_depth_m self' = dict_get (rd_depth_m (room_object d)) (room_depth_m self)).
Proof.
  split; [|split; [|split]].
  - intros stored Hc self.
    destruct (init_shape stored) as (pre & E & Hset & W1 & W2 & _).
    pose proof (load_cached_room_shape pre) as (_ & L). rewrite Hset, Hc in L.
    subst self. rewrite E, L, W1, W2.
    repeat split; apply to_m_pos; lra.
  - intros self Hw Hd self'. subst self'. apply on_room_apply_positive; assumption.
  - intros self d self'. subst self'.
    pose proof (room_loaded_fields d self) as (_ & Hw & Hd & _).
    cbv zeta in Hw, Hd.
    destruct (floor_known_or_not (room_loaded d self)) as [Hm|Hm];
      pose proof (load_layout_document d self) as L; cbv zeta in L; rewrite Hm in L.
    + destruct L as (-> & _).
      destruct (add_items_frame
        (map (loaded_item (room_loaded d self)) (complete_prefix (furniture_array d)))
        (room_loaded d self)) as (_ & -> & -> & _).
      rewrite Hw, Hd. split; reflexivity.
    + destruct L as (-> & _). rewrite Hw, Hd. split; reflexivity.
  - intros self d Hc self'. subst self'.
    pose proof (room_restored_fields d self) as (_ & Hw & Hd & _).
    pose proof (load_cached_room_shape self) as (_ & L). rewrite Hc in L.
    cbv zeta in L, Hw, Hd. rewrite L.
    destruct (add_items_frame
      (map (loaded_item (room_restored d self)) (complete_prefix (furniture_array d)))
      (room_restored d self)) as (_ & -> & -> & _).
    rewrite Hw, Hd. split; reflexivity.
Qed.

Lemma room_dimensions_after_replacement_witness :
  (s_cached_room no_settings = None /\ 0 < room_width_m first_start) /\
  (1 <= room_w_spin (control_panel first_start) /\
   1 <= room_d_spin (control_panel first_start) /\
   0 < room_width_m (state_after on_room_apply first_start)) /\
  (s_cached_room (settings (with_cache flat_room_document first_start)) =
     Some (Document flat_room_document) /\
   room_width_m (state_after _load_cached_room (with_cache flat_room_document first_start))
     = 0).
Proof.
  destruct room_dimensions_after_replacement as (Hinit & Happly & _ & Hcache).
  split; [|split].
  - split; [reflexivity|]. apply (Hinit no_settings eq_refl).
  - assert (H1 : 1 <= room_w_spin (control_panel first_start))
      by (vm_compute; congruence).
    assert (H2 : 1 <= room_d_spin (control_panel first_start))
      by (vm_compute; congruence).
    split; [exact H1|]. split; [exact H2|].
    apply (Happly first_start H1 H2).
  - split; [reflexivity|].
    apply (Hcache (with_cache flat_room_document first_start) flat_room_document eq_refl).
Defined.

(* ------------------------------------------------------------------ *)
(** ** Rotation *)





Section FloatRotation.

Import PrimFloat.

(** On floats [%] can return the modulus itself: the remainder of a small
    negative number is that number plus 360, which rounds to 360. *)
Lemma quarter_turn_can_store_360 :
  Binary64.rotate_90 (-90.00000000000001) = 360%float /\
  ltb (Binary64.rotate_90 (-90.00000000000001)) 360 = false.
Proof. split; vm_compute; reflexivity. Qed.

End FloatRotation.













(* ------------------------------------------------------------------ *)
(** ** Canvas scale *)

(** [_set_canvas_scale] never touches the door and window items. *)
Lemma set_canvas_scale_door_items (scale : Z) (self : RoomPlanner) :
  door_items (state_after (_set_canvas_scale scale) self) = door_items self /\
  list_widget (state_after (_set_canvas_scale scale) self) = list_widget self /\
  pixels_per_m (state_after (_set_canvas_scale scale) self) = scale /\
  room_width_m (state_after (_set_canvas_scale scale) self) = room_width_m self /\
  room_depth_m (state_after (_set_canvas_scale scale) self) = room_depth_m self /\
  _room_rect_item (state_after (_set_canvas_scale scale) self) =
    Some {| width := room_width_m self * inject_Z scale;
            height := room_depth_m self * inject_Z scale |}.
Proof.
  unfold _set_canvas_scale, draw_room_border. se_unfold. simpl.
  destruct (for_each_item _ _) as [items o]. simpl. repeat split.
Qed.

(** What the loop of [_set_canvas_scale] does to one furniture item when it
    completes: the rectangle is recomputed from the model size, the stored
    rotation is reapplied, the item takes the new scale, and the model size
    and rotation are kept. *)
Lemma rescale_item_run (planner : RoomPlanner) (new_scale : Z) (item : FurnitureItem) :
  rescale_item planner new_scale item =
    let resized := setRect (width_m (furn item) * inject_Z new_scale)
                     (depth_m (furn item) * inject_Z new_scale) item in
    let p := {| px := x_m (furn item) * inject_Z new_scale;
                py := y_m (furn item) * inject_Z new_scale |} in
    match setPos planner p resized with
    | (moved, Ret _) =>
      (setRotation (rotation (furn moved)) (item_set_scale new_scale moved), Ret tt)
    | (moved, Raise e) => (moved, Raise e)
    end.
Proof.
  unfold rescale_item. se_unfold. cbv zeta.
  destruct (setPos planner _ _) as [moved [[]|e]]; reflexivity.
Qed.

Lemma rescale_item_spec (planner : RoomPlanner) (new_scale : Z) (item : FurnitureItem) :
  let item' := fst (rescale_item planner new_scale item) in
  snd (rescale_item planner new_scale item) = Ret tt ->
  rect item' = {| width := width_m (furn item) * inject_Z new_scale;
                  height := depth_m (furn item) * inject_Z new_scale |} /\
  scale item' = new_scale /\
  item_rotation item' = rotation (furn item) /\
  name (furn item') = name (furn item) /\
  width_m (furn item') = width_m (furn item) /\
  depth_m (furn item') = depth_m (furn item) /\
  rotation (furn item') = rotation (furn item).
Proof.
  rewrite rescale_item_run. cbv zeta.
  set (resized := setRect _ _ item).
  set (p := {| px := _; py := _ |}).
  pose proof (setPos_frame planner p resized) as F. cbv zeta in F.
  destruct (setPos planner p resized) as [moved [[]|e]]; simpl; [|discriminate].
  intros _. simpl in F. destruct F as (F1 & F2 & F3 & F4 & F5 & F6 & F7 & F8).
  rewrite F7, F5, F1, F2, F3. repeat split.
Qed.

(** With snap-to-border off, an item that has to move is given the new
    display position, and [itemChange] then divides that position by the
    scale the item still carries, the old one: the model position becomes
    the old one times new scale over old scale. *)
Lemma rescale_rewrites_model_position
    (planner : RoomPlanner) (new_scale : Z) (item : FurnitureItem) :
  snap_to_borders planner = false ->
  ~ inject_Z (scale item) == 0 ->
  let target := {| px := x_m (furn item) * inject_Z new_scale;
                   py := y_m (furn item) * inject_Z new_scale |} in
  QPointF_eqb (pos item) target = false ->
  let item' := fst (rescale_item planner new_scale item) in
  snd (rescale_item planner new_scale item) = Ret tt /\
  pos item' = target /\
  x_m (furn item') = x_m (furn item) * inject_Z new_scale / inject_Z (scale item) /\
  y_m (furn item') = y_m (furn item) * inject_Z new_scale / inject_Z (scale item).
Proof.
  intros Hsnap Hscale target Hmove.
  rewrite rescale_item_run. cbv zeta. fold target.
  set (resized := setRect _ _ item).
  pose proof (setPos_cases planner target resized) as C. cbv zeta in C.
  assert (N : itemChange_ItemPositionChange planner resized target = target).
  { unfold itemChange_ItemPositionChange. rewrite Hsnap. reflexivity. }
  rewrite N in C. change (pos resized) with (pos item) in C.
  change (scale resized) with (scale item) in C.
  assert (Hmove' : QPointF_eqb target (pos item) = false).
  { unfold QPointF_eqb in *. rewrite (Qeq_bool_comm (px target)), (Qeq_bool_comm (py target)).
    exact Hmove. }
  rewrite Hmove, Hmove' in C. simpl in C.
  destruct (Qeq_bool (inject_Z (scale item)) 0) eqn:Ez.
  { exfalso. apply Hscale. apply Qeq_bool_iff. exact Ez. }
  destruct C as (Hret & Hpos & Hx & Hy).
  destruct (setPos planner target resized) as [moved o]. simpl in *. subst o.
  simpl. auto.
Qed.

(** C1 at a failing input: one piece at (1 m, 0.5 m) and one door, canvas
    scale 60, rescaled to 120.  The command completes; the door item keeps
    the rectangle, the position and the scale it had at 60 px/m, so its
    display width is not its model width times the new scale. *)
Theorem rescale_skips_openings :
  let self := sample_with_door in
  let self' := state_after (_set_canvas_scale 120) self in
  result_of (_set_canvas_scale 120) self = Ret tt /\
  pixels_per_m self = 60%Z /\
  pixels_per_m self' = 120%Z /\
  door_items self' = door_items self /\
  (exists door,
     door_items self' = [door] /\
     dw_width_m (door_window door) == 1 /\
     door_scale door = 60%Z /\
     width (door_rect door) == 60 /\
     ~ width (door_rect door) == dw_width_m (door_window door) * 120).
Proof.
  cbv zeta.
  split; [vm_compute; reflexivity|].
  split; [vm_compute; reflexivity|].
  split; [vm_compute; reflexivity|].
  split; [apply set_canvas_scale_door_items|].
  eexists. split; [vm_compute; reflexivity|].
  repeat split; vm_compute; congruence.
Qed.

(** In the same window the piece is resized and moved, but its model
    position is rewritten from (1, 0.5) to (2, 1). *)
Lemma rescale_rewrites_model_position_example :
  let self := sample_with_door in
  let self' := state_after (_set_canvas_scale 120) self in
  exists piece piece',
    furniture_items self = [piece] /\
    furniture_items self' = [piece'] /\
    x_m (furn piece) == 1 /\ y_m (furn piece) == 0.5 /\
    x_m (furn piece') == 2 /\ y_m (furn piece') == 1 /\
    width (rect piece') == width_m (furn piece') * 120.
Proof.
  cbv zeta. eexists. eexists. split; [vm_compute; reflexivity|].
  split; [vm_compute; reflexivity|].
  repeat split; vm_compute; congruence.
Qed.

(* ------------------------------------------------------------------ *)
(** ** Failing loads *)




(* ------------------------------------------------------------------ *)
(** ** Save, then load *)










Section FloatPositions.

Import PrimFloat.

(** On floats the position that comes back need not be the one stored: it
    can differ in the last place, and by more than 1e-9 for a coordinate
    of some ten thousand kilometres. *)
Lemma restored_position_is_rounded :
  Binary64.restored_x_m 12.708680555555556 85 = 12.708680555555558%float /\
  Binary64.restored_x_m 12345678.9 47 = 12345678.900000002%float /\
  Binary64.close (Binary64.restored_x_m 12345678.9 47) 12345678.9 = false.
Proof. repeat split; vm_compute; reflexivity. Qed.

End FloatPositions.



(* ------------------------------------------------------------------ *)
(** ** Sessions *)

Section Keeps.
Variable P : RoomPlanner -> Prop.

Lemma keeps_ret {A : Type} (a : A) : keeps P (ret a).
Proof. intros s H. exact H. Qed.

Lemma keeps_raise {A : Type} (e : exn) : keeps P (@raise RoomPlanner A e).
Proof. intros s H. exact H. Qed.

Lemma keeps_lift {A : Type} (o : outcome A) : keeps P (lift o).
Proof. intros s H. exact H. Qed.

Lemma keeps_get : keeps P get.
Proof. intros s H. exact H. Qed.

Lemma keeps_modify (f : RoomPlanner -> RoomPlanner) :
  (forall s, P s -> P (f s)) -> keeps P (modify f).
Proof. intros Hf s H. apply Hf. exact H. Qed.

Lemma keeps_bind {A B : Type} (c : SE RoomPlanner A) (k : A -> SE RoomPlanner B) :
  keeps P c -> (forall a, keeps P (k a)) -> keeps P (bind c k).
Proof.
  intros Hc Hk s H. unfold bind. specialize (Hc s H).
  destruct (c s) as [s' [a|e]]; simpl in *; [apply Hk; exact Hc | exact Hc].
Qed.

Lemma keeps_try_except {A : Type} (body : SE RoomPlanner A)
    (handler : exn -> SE RoomPlanner A) :
  keeps P body -> (forall e, keeps P (handler e)) -> keeps P (try_except body handler).
Proof.
  intros Hb Hh s H. unfold try_except. specialize (Hb s H).
  destruct (body s) as [s' [a|e]]; simpl in *; [exact Hb | apply Hh; exact Hb].
Qed.

Lemma keeps_for_each {A : Type} (l : list A) (body : A -> SE RoomPlanner unit) :
  (forall x, keeps P (body x)) -> keeps P (for_each l body).
Proof.
  intros Hb. induction l as [|x rest IH]; simpl.
  - apply keeps_ret.
  - apply keeps_bind; [apply Hb | intros _; exact IH].
Qed.

Lemma keeps_on_local {L : Type} (obj : L) (c : SE L unit) :
  keeps P (@on_local RoomPlanner L obj c).
Proof. intros s H. unfold on_local. destruct (c obj) as [obj' [[]|e]]; exact H. Qed.
End Keeps.

Create HintDb consistent discriminated.

(** The steps of a command, taken apart; commands already dealt with are
    looked up in the hint database [consistent]. *)
Ltac keeps_steps :=
  repeat first
    [ solve [auto 1 with consistent]
    | match goal with
      | |- keeps _ (ret _) => apply keeps_ret
      | |- keeps _ (raise _) => apply keeps_raise
      | |- keeps _ (lift _) => apply keeps_lift
      | |- keeps _ get => apply keeps_get
      | |- keeps _ (on_local _ _) => apply keeps_on_local
      | |- keeps _ (bind _ _) => apply keeps_bind; [|intros ?]
      | |- keeps _ (try_except _ _) => apply keeps_try_except; [|intros ?]
      | |- keeps _ (for_each _ _) => apply keeps_for_each; intros ?
      | |- keeps _ (modify _) => apply keeps_modify; intros ? ?
      | |- keeps _ (match ?x with _ => _ end) => destruct x
      end ].

Lemma in_range_setValue (v : Q) : in_range (spin_setValue v).
Proof. apply spin_setValue_range. Qed.

(** A window that differs from a consistent one in fields the property
    does not read, or in a spin box set through [spin_setValue]. *)
Ltac panel_done :=
  match goal with
  | H : panel_consistent _ |- panel_consistent _ =>
    first
      [ exact H
      | let H1 := fresh in let H2 := fresh in let H3 := fresh in let H4 := fresh in
        let H5 := fresh in let H6 := fresh in let H7 := fresh in
        destruct H as (H1 & H2 & H3 & H4 & H5 & H6 & H7);
        unfold panel_consistent; simpl;
        repeat match goal with |- _ /\ _ => split end;
        first [ assumption | reflexivity | apply in_range_setValue | discriminate ] ]
  end.

Ltac consistent := keeps_steps; try panel_done.

Lemma draw_room_border_consistent : keeps panel_consistent draw_room_border.
Proof. unfold draw_room_border. consistent. Qed.
#[local] Hint Resolve draw_room_border_consistent : consistent.

Lemma new_room_consistent : keeps panel_consistent new_room.
Proof.
  intros s H. unfold new_room, draw_room_border. se_unfold. simpl. panel_done.
Qed.
#[local] Hint Resolve new_room_consistent : consistent.

Lemma on_room_apply_consistent : keeps panel_consistent on_room_apply.
Proof. unfold on_room_apply. consistent. Qed.

Lemma edit_room_name_input_consistent (text : string) :
  keeps panel_consistent (edit_room_name_input text).
Proof. unfold edit_room_name_input, on_room_name_changed. consistent. Qed.

Lemma edit_spin_consistent (v : Q) :
  keeps panel_consistent (edit_room_w_spin v) /\
  keeps panel_consistent (edit_room_d_spin v) /\
  keeps panel_consistent (edit_f_w_spin v) /\
  keeps panel_consistent (edit_f_d_spin v).
Proof.
  unfold edit_room_w_spin, edit_room_d_spin, edit_f_w_spin, edit_f_d_spin.
  split; [|split; [|split]]; consistent.
Qed.

Lemma click_snap_checkbox_consistent : keeps panel_consistent click_snap_checkbox.
Proof. unfold click_snap_checkbox, toggle_snap_to_borders. consistent. Qed.

Lemma select_room_w_unit_consistent (u : length_unit) :
  keeps panel_consistent (select_room_w_unit u).
Proof.
  intros s H. unfold select_room_w_unit, _update_room_unit_display. se_unfold.
  destruct (unit_eqb (room_w_unit (control_panel s)) u); simpl; [exact H|].
  destruct (negb _); simpl; panel_done.
Qed.

Lemma select_room_d_unit_consistent (u : length_unit) :
  keeps panel_consistent (select_room_d_unit u).
Proof.
  intros s H. unfold select_room_d_unit, _update_room_unit_display. se_unfold.
  destruct (unit_eqb (room_d_unit (control_panel s)) u); simpl; [exact H|].
  destruct H as (H1 & H2 & H3 & H4 & H5 & H6 & H7).
  rewrite H5, unit_eqb_refl. simpl.
  unfold panel_consistent. simpl.
  repeat match goal with |- _ /\ _ => split end; first [assumption | reflexivity].
Qed.

Lemma select_f_w_unit_consistent (u : length_unit) :
  keeps panel_consistent (select_f_w_unit u).
Proof.
  intros s H. unfold select_f_w_unit, _update_furniture_unit_display. se_unfold.
  destruct (unit_eqb (f_w_unit (control_panel s)) u); simpl; [exact H|].
  destruct (negb _); simpl; panel_done.
Qed.

Lemma select_f_d_unit_consistent (u : length_unit) :
  keeps panel_consistent (select_f_d_unit u).
Proof.
  intros s H. unfold select_f_d_unit, _update_furniture_unit_display. se_unfold.
  destruct (unit_eqb (f_d_unit (control_panel s)) u); simpl; [exact H|].
  destruct H as (H1 & H2 & H3 & H4 & H5 & H6 & H7).
  rewrite H6, unit_eqb_refl. simpl.
  unfold panel_consistent. simpl.
  repeat match goal with |- _ /\ _ => split end; first [assumption | reflexivity].
Qed.

Lemma on_add_furniture_consistent : keeps panel_consistent on_add_furniture.
Proof. unfold on_add_furniture. consistent. Qed.

Lemma drag_furniture_item_consistent (i : nat) (p : QPointF) :
  keeps panel_consistent (drag_furniture_item i p).
Proof. unfold drag_furniture_item. consistent. Qed.

Lemma rotate_selected_furniture_consistent (selected : list nat) :
  keeps panel_consistent (rotate_selected_furniture selected).
Proof. unfold rotate_selected_furniture. consistent. Qed.

Lemma copy_furniture_consistent (f : Furniture) : keeps panel_consistent (copy_furniture f).
Proof. unfold copy_furniture. consistent. Qed.
#[local] Hint Resolve copy_furniture_consistent : consistent.

Lemma paste_furniture_consistent (p : option QPointF) :
  keeps panel_consistent (paste_furniture p).
Proof. unfold paste_furniture. consistent. Qed.
#[local] Hint Resolve paste_furniture_consistent : consistent.

Lemma copy_selected_furniture_consistent (selected : option nat) :
  keeps panel_consistent (copy_selected_furniture selected).
Proof. unfold copy_selected_furniture. consistent. Qed.

Lemma duplicate_selected_furniture_consistent (selected : option nat) :
  keeps panel_consistent (duplicate_selected_furniture selected).
Proof. unfold duplicate_selected_furniture. consistent. Qed.

Lemma add_door_consistent (dialog : option DialogInput) :
  keeps panel_consistent (add_door dialog).
Proof. unfold add_door, _add_door_to_list. consistent. Qed.

Lemma add_window_consistent (dialog : option DialogInput) :
  keeps panel_consistent (add_window dialog).
Proof. unfold add_window, _add_door_to_list. consistent. Qed.

Lemma set_canvas_scale_consistent (scale : Z) :
  keeps panel_consistent (_set_canvas_scale scale).
Proof. unfold _set_canvas_scale. consistent. Qed.
#[local] Hint Resolve set_canvas_scale_consistent : consistent.

Lemma load_furniture_consistent (d : furn_data) : keeps panel_consistent (load_furniture d).
Proof. unfold load_furniture, Furniture_of_data, dict_item. consistent. Qed.
#[local] Hint Resolve load_furniture_consistent : consistent.

Lemma update_ui_from_room_consistent : keeps panel_consistent update_ui_from_room.
Proof. unfold update_ui_from_room, floor_combo_setCurrentText. consistent. Qed.
#[local] Hint Resolve update_ui_from_room_consistent : consistent.

Lemma load_layout_consistent (filename : option file) :
  keeps panel_consistent (load_layout filename).
Proof.
  unfold load_layout, open_and_json_load, json_loads, as_dict, _apply_theme. consistent.
Qed.

Lemma load_cached_room_consistent : keeps panel_consistent _load_cached_room.
Proof. unfold _load_cached_room, json_loads, as_dict. consistent. Qed.
#[local] Hint Resolve load_cached_room_consistent : consistent.

Lemma save_settings_consistent : keeps panel_consistent _save_settings.
Proof. unfold _save_settings, _cache_current_room. consistent. Qed.

Lemma execute_consistent (c : command) : keeps panel_consistent (execute c).
Proof.
  destruct c; simpl.
  - apply edit_room_name_input_consistent.
  - apply edit_spin_consistent.
  - apply edit_spin_consistent.
  - apply select_room_w_unit_consistent.
  - apply select_room_d_unit_consistent.
  - apply on_room_apply_consistent.
  - apply click_snap_checkbox_consistent.
  - unfold on_floor_changed. consistent.
  - consistent.
  - apply edit_spin_consistent.
  - apply edit_spin_consistent.
  - apply select_f_w_unit_consistent.
  - apply select_f_d_unit_consistent.
  - consistent.
  - apply on_add_furniture_consistent.
  - apply drag_furniture_item_consistent.
  - apply rotate_selected_furniture_consistent.
  - apply copy_selected_furniture_consistent.
  - apply paste_furniture_consistent.
  - apply duplicate_selected_furniture_consistent.
  - apply keeps_bind; [apply add_door_consistent | intros; apply keeps_ret].
  - apply keeps_bind; [apply add_window_consistent | intros; apply keeps_ret].
  - apply new_room_consistent.
  - apply keeps_bind; [apply load_layout_consistent | intros; apply keeps_ret].
  - apply set_canvas_scale_consistent.
  - apply save_settings_consistent.
Qed.

Lemma initial_attributes_consistent (stored : QSettings) :
  panel_consistent (fst (draw_room_border (initial_attributes stored))).
Proof.
  unfold panel_consistent, in_range. simpl.
  repeat match goal with |- _ /\ _ => split end;
    try reflexivity; try discriminate; try (vm_compute; discriminate).
Qed.

Lemma load_settings_consistent : keeps panel_consistent _load_settings.
Proof. unfold _load_settings, floor_combo_setCurrentText. consistent. Qed.

(** Every window of a session has its spin boxes in range, its recorded
    units equal to the width selectors, and a room rectangle. *)
Lemma reachable_consistent (self : RoomPlanner) : reachable self -> panel_consistent self.
Proof.
  induction 1 as [stored | self c _ IH].
  - unfold RoomPlanner_init.
    pose proof (initial_attributes_consistent stored) as H0.
    pose proof (load_settings_consistent _ H0) as H1.
    unfold bind. destruct (draw_room_border (initial_attributes stored)) as [s0 [[]|e]] eqn:E.
    + exact H1.
    + exact H0.
  - apply execute_consistent. exact IH.
Qed.

(** In a session, applying the room size always gives a room of positive
    width and depth. *)
Lemma room_positive_after_apply (self : RoomPlanner) :
  reachable self ->
  0 < room_width_m (state_after on_room_apply self) /\
  0 < room_depth_m (state_after on_room_apply self).
Proof.
  intros R. destruct (reachable_consistent self R) as ((Hw & _) & (Hd & _) & _).
  apply on_room_apply_positive; assumption.
Qed.

(** In a session, a room rectangle always exists, so that [add_door] and
    [add_window] never answer with the warning. *)
Lemma add_door_never_warns (self : RoomPlanner) (dialog : option DialogInput) :
  reachable self ->
  result_of (add_door dialog) self = Ret NoMessage /\
  result_of (add_window dialog) self = Ret NoMessage.
Proof.
  intros R. destruct (reachable_consistent self R) as (_ & _ & _ & _ & _ & _ & Hroom).
  destruct (next_available_total self "Door " (door_counter self)) as (n & Hn & _).
  destruct (next_available_total self "Window " (window_counter self)) as (m & Hm & _).
  unfold add_door, add_window. se_unfold.
  destruct (_room_rect_item self); [|congruence].
  rewrite Hn, Hm. destruct dialog; split; reflexivity.
Qed.

(* ------------------------------------------------------------------ *)
(** ** Scenarios *)

(** The default room of 16 ft by 12 ft is 4.8768 m by 3.6576 m. *)
Example default_room_in_metres :
  room_width_m first_start == 4.8768 /\ room_depth_m first_start == 3.6576.
Proof. split; vm_compute; reflexivity. Qed.

(** A piece of 72 in by 36 in at 60 px/m is 109.728 by 54.864 pixels. *)
Example default_piece_in_pixels :
  exists item,
    furniture_items (state_after on_add_furniture first_start) = [item] /\
    name (furn item) = "Item 1"%string /\
    width (rect item) == 109.728 /\
    height (rect item) == 54.864.
Proof.
  eexists. split; [vm_compute; reflexivity|].
  split; [reflexivity|]. split; vm_compute; reflexivity.
Qed.

(** After [new_room] the counters are back at 1 and the next door is
    proposed as ["Door 1"]. *)
Example new_room_resets_names :
  let self := state_after new_room sample_with_door in
  furniture_items self = [] /\ door_items self = [] /\ list_widget self = [] /\
  door_counter self = 1%Z /\ window_counter self = 1%Z /\
  names (state_after (add_door (Some {| dlg_name := None; dlg_width := 1;
                                         dlg_thickness := 0.1 |})) self)
    = ["Door 1"%string].
Proof. cbv zeta. repeat split; vm_compute; reflexivity. Qed.

(** A second door in the sample window is proposed as ["Door 2"]; if the
    user had named a piece ["Door 2"], the proposal would be ["Door 3"]. *)
Example door_names_skip_taken :
  next_available (enough_fuel sample_with_door) sample_with_door "Door "
    (door_counter sample_with_door) = Some 2%Z /\
  let taken := state_after (modify (set_f_name "Door 2") ;; on_add_furniture)
                 sample_with_door in
  next_available (enough_fuel taken) taken "Door " (door_counter taken) = Some 3%Z.
Proof. split; vm_compute; reflexivity. Qed.

(** With snap-to-border off a piece can be dragged out of the room; with
    it on, the same drag ends at the room's edge. *)
Example drag_with_and_without_snap :
  let free := state_after (drag_furniture_item 0 {| px := 600; py := 30 |})
                sample_with_door in
  let snapped := state_after (click_snap_checkbox ;;
                              drag_furniture_item 0 {| px := 600; py := 30 |})
                   sample_with_door in
  (exists item, furniture_items free = [item] /\ px (pos item) == 600 /\
                x_m (furn item) == 10) /\
  (exists item, furniture_items snapped = [item] /\ px (pos item) == 182.88 /\
                x_m (furn item) == 3.048).
Proof.
  cbv zeta. split; eexists; (split; [vm_compute; reflexivity|]);
    split; vm_compute; reflexivity.
Qed.

(* ------------------------------------------------------------------ *)
(** ** Quarter turns *)








Lemma door_rotate_90_iter_frame (n : nat) (item : DoorItem) :
  door_window (Nat.iter n door_rotate_90 item) = door_window item /\
  door_pos (Nat.iter n door_rotate_90 item) = door_pos item /\
  door_rect (Nat.iter n door_rotate_90 item) = door_rect item /\
  door_scale (Nat.iter n door_rotate_90 item) = door_scale item /\
  is_open (Nat.iter n door_rotate_90 item) = is_open item.
Proof.
  induction n as [|n IH]; [repeat split|].
  simpl Nat.iter. unfold door_rotate_90 at 1 3 5 7 9. simpl. exact IH.
Qed.

(** X2.  Quarter turns of a door or window: [DoorItem.rotate_90] adds 90
    degrees each time and never reduces the angle, so after [n] calls the
    rotation is the starting one plus 90 n (360 more after four calls);
    the record, the position, the rectangle and the open state are left
    alone. *)
Theorem door_quarter_turns (item : DoorItem) (n : nat) :
  let turned := Nat.iter n door_rotate_90 item in
  door_rotation turned == door_rotation item + 90 * inject_Z (Z.of_nat n) /\
  door_window turned = door_window item /\
  door_pos turned = door_pos item /\
  door_rect turned = door_rect item /\
  is_open turned = is_open item.
Proof.
  intros turned. split.
  - subst turned. induction n as [|n IH].
    + simpl. change (inject_Z 0) with 0. ring.
    + change (Nat.iter (S n) door_rotate_90 item)
        with (door_rotate_90 (Nat.iter n door_rotate_90 item)).
      unfold door_rotate_90 at 1. simpl door_rotation. rewrite IH.
      rewrite Nat2Z.inj_succ. unfold Z.succ.
      rewrite inject_Z_plus. change (inject_Z 1) with 1. ring.
  - destruct (door_rotate_90_iter_frame n item) as (H1 & H2 & H3 & _ & H5). auto.
Qed.

(* ------------------------------------------------------------------ *)
(** ** Zoom *)

Lemma zoom_in_consistent (view : ZoomableGraphicsView) :
  zoom_consistent view -> zoom_consistent (zoom_in view).
Proof.
  intros (Hmin & Hmax & Ht & Hlo & Hhi). unfold zoom_in. rewrite Hmax.
  destruct (Qlt_bool_spec (zoom_factor view) 5.0) as [Hz|Hz].
  - unfold zoom_consistent. simpl.
    repeat match goal with |- _ /\ _ => split end; try assumption; lra.
  - unfold zoom_consistent. auto.
Qed.

Lemma zoom_out_consistent (view : ZoomableGraphicsView) :
  zoom_consistent view -> zoom_consistent (zoom_out view).
Proof.
  intros (Hmin & Hmax & Ht & Hlo & Hhi). unfold zoom_out. rewrite Hmin.
  destruct (Qlt_bool_spec 0.1 (zoom_factor view)) as [Hz|Hz].
  - unfold zoom_consistent. simpl.
    repeat match goal with |- _ /\ _ => split end; try assumption; lra.
  - unfold zoom_consistent. auto.
Qed.

Lemma zoom_step_consistent (e : zoom_event) (view : ZoomableGraphicsView) :
  zoom_consistent view -> zoom_consistent (zoom_step e view).
Proof.
  intros H. destruct e as [| |control dy]; simpl.
  - apply zoom_in_consistent, H.
  - apply zoom_out_consistent, H.
  - unfold wheelEvent. destruct control; [|exact H].
    destruct (0 <? dy)%Z; [apply zoom_in_consistent | apply zoom_out_consistent]; exact H.
Qed.

Lemma zoom_run_consistent (es : list zoom_event) (view : ZoomableGraphicsView) :
  zoom_consistent view -> zoom_consistent (zoom_run es view).
Proof.
  revert view. induction es as [|e es IH]; intros view H; [exact H|].
  apply IH, zoom_step_consistent, H.
Qed.

(** X3.  Zoom of the canvas view: whatever sequence of zoom buttons and
    wheel events a view has seen since it was built, its zoom factor equals
    the factor accumulated in the view transform and lies strictly between
    0.08 and 6.  The limits [min_zoom] = 0.1 and [max_zoom] = 5 are tested
    before a step and not after it, so the factor can pass them: nine
    zoom-ins leave it above [max_zoom], eleven zoom-outs below
    [min_zoom]. *)
Theorem zoom_stays_in_band (es : list zoom_event) :
  let view := zoom_run es ZoomableGraphicsView_init in
  transform_factor view == zoom_factor view /\
  0.08 < zoom_factor view /\
  zoom_factor view < 6 /\
  (exists above,
     max_zoom ZoomableGraphicsView_init <
       zoom_factor (zoom_run above ZoomableGraphicsView_init)) /\
  (exists below,
     zoom_factor (zoom_run below ZoomableGraphicsView_init) <
       min_zoom ZoomableGraphicsView_init).
Proof.
  assert (H0 : zoom_consistent ZoomableGraphicsView_init).
  { unfold zoom_consistent. simpl. repeat split; try reflexivity; lra. }
  destruct (zoom_run_consistent es _ H0) as (_ & _ & Ht & Hlo & Hhi).
  intros view. split; [exact Ht|]. split; [exact Hlo|]. split; [exact Hhi|]. split.
  - exists (repeat ZoomInButton 9). vm_compute. reflexivity.
  - exists (repeat (Wheel true (-120)) 11). vm_compute. reflexivity.
Qed.

(** X4.  Zooming in and then out does not restore the zoom: when both
    steps pass their tests, the factor (and the view transform) end at
    0.96 times what they were. *)
Theorem zoom_in_then_out (view : ZoomableGraphicsView) :
  zoom_factor view < max_zoom view ->
  min_zoom view < zoom_factor view * 1.2 ->
  zoom_factor (zoom_out (zoom_in view)) == 0.96 * zoom_factor view /\
  transform_factor (zoom_out (zoom_in view)) == 0.96 * transform_factor view.
Proof.
  intros Hin Hout. unfold zoom_in.
  destruct (Qlt_bool_spec (zoom_factor view) (max_zoom view)) as [_|N]; [|contradiction].
  unfold zoom_out. simpl.
  destruct (Qlt_bool_spec (min_zoom view) (zoom_factor view * 1.2)) as [_|N];
    [|contradiction].
  simpl. split; ring.
Qed.

Lemma zoom_in_then_out_witness :
  zoom_factor (zoom_out (zoom_in ZoomableGraphicsView_init)) == 0.96 * 1.0.
Proof.
  apply (zoom_in_then_out ZoomableGraphicsView_init); simpl; lra.
Defined.

(* ------------------------------------------------------------------ *)
(** ** Dragging, and changing the canvas scale there and back *)

Lemma Qeq_bool_false_neq (a : Q) : Qeq_bool a 0 = false <-> ~ a == 0.
Proof.
  split.
  - intros E. apply Qeq_bool_neq. exact E.
  - intros N. destruct (Qeq_bool a 0) eqn:E; [|reflexivity].
    exfalso. apply N. apply Qeq_bool_iff. exact E.
Qed.

Lemma inject_Z_nonzero (z : Z) : z <> 0%Z -> ~ inject_Z z == 0.
Proof. intros N E. apply N. unfold Qeq in E. simpl in E. lia. Qed.

(** X5.  Dragging a piece of furniture whose scale is not zero: the call
    returns, the other pieces and the list are untouched, and the dragged
    piece is either exactly as it was (it was dropped where it stood, or
    [itemChange] answered with its old position) or its stored position in
    metres is its display position divided by its scale.  Name, size,
    colour, rotation and rectangle never change. *)
Theorem drag_keeps_model_in_step
    (self : RoomPlanner) (i : nat) (p : QPointF) (item : FurnitureItem) :
  nth_error (furniture_items self) i = Some item ->
  ~ inject_Z (scale item) == 0 ->
  exists item',
    drag_furniture_item i p self =
      (set_furniture_items (update_nth i (fun _ => item') (furniture_items self)) self,
       Ret tt) /\
    (item' = item \/ in_step item') /\
    name (furn item') = name (furn item) /\
    width_m (furn item') = width_m (furn item) /\
    depth_m (furn item') = depth_m (furn item) /\
    colour (furn item') = colour (furn item) /\
    rotation (furn item') = rotation (furn item) /\
    scale item' = scale item /\
    rect item' = rect item.
Proof.
  intros Hi Hs.
  pose proof (setPos_frame self p item) as F. cbv zeta in F.
  pose proof (setPos_cases self p item) as C. cbv zeta in C.
  assert (Hz : Qeq_bool (inject_Z (scale item)) 0 = false)
    by (apply Qeq_bool_false_neq; exact Hs).
  rewrite Hz in C.
  exists (fst (setPos self p item)).
  assert (R : snd (setPos self p item) = Ret tt).
  { destruct (_ || _); [rewrite C; reflexivity | apply C]. }
  split.
  - unfold drag_furniture_item. unfold bind at 1, get at 1. rewrite Hi.
    destruct (setPos self p item) as [item' o]. simpl in R. subst o. reflexivity.
  - split.
    + destruct (_ || _).
      * left. rewrite C. reflexivity.
      * right. destruct C as (_ & Hpos & Hx & Hy).
        destruct F as (_ & _ & _ & _ & _ & Fs & _).
        unfold in_step. rewrite Hx, Hy, Hpos, Fs. split; field; exact Hs.
    + destruct F as (F1 & F2 & F3 & F4 & F5 & F6 & F7 & _).
      repeat match goal with |- _ /\ _ => split end; assumption.
Qed.

Lemma drag_keeps_model_in_step_witness :
  exists item',
    drag_furniture_item 0 {| px := 120; py := 90 |} sample_with_door =
      (set_furniture_items
         (update_nth 0 (fun _ => item') (furniture_items sample_with_door))
         sample_with_door, Ret tt) /\
    in_step item'.
Proof.
  destruct (drag_keeps_model_in_step sample_with_door 0 {| px := 120; py := 90 |}
              (fst (setPos first_start {| px := 60; py := 30 |}
                      (FurnitureItem_init
                         {| name := "Item 1"; width_m := to_m 72 U_in;
                            depth_m := to_m 36 U_in; colour := "#4a90e2"%string;
                            x_m := 0.0; y_m := 0.0; rotation := 0.0 |} 60))))
    as (item' & Hrun & [Hsame|Hstep] & _).
  - vm_compute. reflexivity.
  - vm_compute. discriminate.
  - exists item'. split; [exact Hrun|].
    subst item'. vm_compute. split; reflexivity.
  - exists item'. split; [exact Hrun|]. exact Hstep.
Defined.

(** An item that already stands at the display position of its record is
    only resized and given the new scale. *)
Lemma rescale_item_stays (planner : RoomPlanner) (new_scale : Z) (item : FurnitureItem) :
  QPointF_eqb (pos item)
    {| px := x_m (furn item) * inject_Z new_scale;
       py := y_m (furn item) * inject_Z new_scale |} = true ->
  rescale_item planner new_scale item =
    (setRotation (rotation (furn item))
       (item_set_scale new_scale
          (setRect (width_m (furn item) * inject_Z new_scale)
                   (depth_m (furn item) * inject_Z new_scale) item)), Ret tt).
Proof.
  intros E. rewrite rescale_item_run. cbv zeta.
  set (resized := setRect _ _ item).
  set (p := {| px := _; py := _ |}) in *.
  pose proof (setPos_cases planner p resized) as C. cbv zeta in C.
  change (pos resized) with (pos item) in C. rewrite E in C. simpl in C.
  rewrite C. reflexivity.
Qed.

(** One item through [_set_canvas_scale new] and back to [old], with
    snap-to-border off. *)
Lemma rescale_item_there_and_back
    (planner1 planner2 : RoomPlanner) (old new : Z) (item : FurnitureItem) :
  snap_to_borders planner1 = false ->
  old <> 0%Z ->
  scale item = old ->
  in_step item ->
  let item1 := fst (rescale_item planner1 new item) in
  let item2 := fst (rescale_item planner2 old item1) in
  snd (rescale_item planner1 new item) = Ret tt /\
  snd (rescale_item planner2 old item1) = Ret tt /\
  scale item2 = old /\
  rect item2 = {| width := width_m (furn item) * inject_Z old;
                  height := depth_m (furn item) * inject_Z old |} /\
  in_step item2 /\
  x_m (furn item2) == x_m (furn item) * (inject_Z new / inject_Z old) /\
  y_m (furn item2) == y_m (furn item) * (inject_Z new / inject_Z old) /\
  name (furn item2) = name (furn item) /\
  rotation (furn item2) = rotation (furn item).
Proof.
  intros Hsnap Hold Hscale (Hx & Hy). rewrite Hscale in Hx, Hy.
  pose proof (inject_Z_nonzero old Hold) as Hq.
  set (target := {| px := x_m (furn item) * inject_Z new;
                    py := y_m (furn item) * inject_Z new |}).
  destruct (QPointF_eqb (pos item) target) eqn:E.
  - (* the item does not move on the way there *)
    pose proof (rescale_item_stays planner1 new item E) as R1.
    apply QPointF_eqb_true in E. destruct E as (Ex & Ey). simpl in Ex, Ey.
    cbv zeta. rewrite R1. simpl fst. simpl snd.
    set (item1 := setRotation _ _).
    assert (E2 : QPointF_eqb (pos item1)
                   {| px := x_m (furn item1) * inject_Z old;
                      py := y_m (furn item1) * inject_Z old |} = true).
    { apply QPointF_eqb_true. simpl. split; assumption. }
    rewrite (rescale_item_stays planner2 old item1 E2). simpl.
    split; [reflexivity|]. split; [reflexivity|]. split; [reflexivity|].
    split; [reflexivity|]. unfold in_step. simpl.
    split; [split; assumption|].
    split; [|split; [|split; reflexivity]].
    + assert (H : x_m (furn item) * inject_Z new == x_m (furn item) * inject_Z old)
        by (exact (Qeq_trans _ _ _ (Qeq_sym _ _ Ex) Hx)).
      setoid_replace (x_m (furn item) * (inject_Z new / inject_Z old))
        with (x_m (furn item) * inject_Z new / inject_Z old) by (field; exact Hq).
      rewrite H. field. exact Hq.
    + assert (H : y_m (furn item) * inject_Z new == y_m (furn item) * inject_Z old)
        by (exact (Qeq_trans _ _ _ (Qeq_sym _ _ Ey) Hy)).
      setoid_replace (y_m (furn item) * (inject_Z new / inject_Z old))
        with (y_m (furn item) * inject_Z new / inject_Z old) by (field; exact Hq).
      rewrite H. field. exact Hq.
  - (* the item moves on the way there, and stays on the way back *)
    assert (Hq' : ~ inject_Z (scale item) == 0) by (rewrite Hscale; exact Hq).
    pose proof (rescale_rewrites_model_position planner1 new item Hsnap Hq' E)
      as (R1 & P1 & X1 & Y1).
    pose proof (rescale_item_spec planner1 new item R1) as (_ & _ & _ & N1 & W1 & D1 & T1).
    cbv zeta. set (item1 := fst (rescale_item planner1 new item)) in *.
    rewrite Hscale in X1, Y1.
    assert (E2 : QPointF_eqb (pos item1)
                   {| px := x_m (furn item1) * inject_Z old;
                      py := y_m (furn item1) * inject_Z old |} = true).
    { apply QPointF_eqb_true. rewrite P1, X1, Y1. simpl. split; field; exact Hq. }
    rewrite (rescale_item_stays planner2 old item1 E2). simpl.
    split; [exact R1|]. split; [reflexivity|]. split; [reflexivity|].
    split; [rewrite W1, D1; reflexivity|]. unfold in_step. simpl.
    split; [rewrite P1, X1, Y1; simpl; split; field; exact Hq|].
    split; [rewrite X1; field; exact Hq|].
    split; [rewrite Y1; field; exact Hq|].
    split; assumption.
Qed.

(** A loop whose body returns for every item runs through the list. *)
Lemma for_each_item_returns (body : SE FurnitureItem unit) (items : list FurnitureItem) :
  Forall (fun item => snd (body item) = Ret tt) items ->
  for_each_item body items = (map (fun item => fst (body item)) items, Ret tt).
Proof.
  induction 1 as [|item rest H _ IH]; [reflexivity|].
  simpl. destruct (body item) as [item' o]. simpl in H. subst o.
  rewrite IH. reflexivity.
Qed.

Lemma set_canvas_scale_returns (new_scale : Z) (self : RoomPlanner) :
  let planner := fst (draw_room_border (set_pixels_per_m new_scale self)) in
  Forall (fun item => snd (rescale_item planner new_scale item) = Ret tt)
         (furniture_items self) ->
  _set_canvas_scale new_scale self =
    (set_furniture_items
       (map (fun item => fst (rescale_item planner new_scale item)) (furniture_items self))
       planner, Ret tt).
Proof.
  intros planner H. unfold _set_canvas_scale.
  unfold bind at 1. unfold modify at 1. unfold bind at 1.
  change (draw_room_border (set_pixels_per_m new_scale self)) with (planner, Ret tt).
  unfold bind at 1, get at 1.
  change (furniture_items planner) with (furniture_items self).
  rewrite (for_each_item_returns _ _ H). reflexivity.
Qed.

(** X6.  Changing the canvas scale and changing it back does not restore
    the layout.  In a window with snap-to-border off and a non-zero scale,
    whose pieces stand where their records say, [_set_canvas_scale new]
    followed by [_set_canvas_scale old] returns, and gives every piece its
    old rectangle and scale back, but the stored position of every piece
    has been multiplied by new/old (the piece is displayed there too):
    on the way there [itemChange] divides the new display position by the
    scale the item still carries, and on the way back the item is already
    at the position its rewritten record asks for. *)
Theorem rescale_there_and_back (self : RoomPlanner) (new : Z) :
  snap_to_borders self = false ->
  pixels_per_m self <> 0%Z ->
  Forall (fun item => scale item = pixels_per_m self /\ in_step item)
         (furniture_items self) ->
  let old := pixels_per_m self in
  let back := state_after (_set_canvas_scale new ;; _set_canvas_scale old) self in
  result_of (_set_canvas_scale new ;; _set_canvas_scale old) self = Ret tt /\
  pixels_per_m back = old /\
  _room_rect_item back =
    Some {| width := room_width_m self * inject_Z old;
            height := room_depth_m self * inject_Z old |} /\
  Forall2
    (fun item item' =>
       scale item' = old /\
       rect item' = {| width := width_m (furn item) * inject_Z old;
                       height := depth_m (furn item) * inject_Z old |} /\
       in_step item' /\
       x_m (furn item') == x_m (furn item) * (inject_Z new / inject_Z old) /\
       y_m (furn item') == y_m (furn item) * (inject_Z new / inject_Z old) /\
       name (furn item') = name (furn item) /\
       rotation (furn item') = rotation (furn item))
    (furniture_items self) (furniture_items back).
Proof.
  intros Hsnap Hold Hitems old back.
  set (planner1 := fst (draw_room_border (set_pixels_per_m new self))).
  set (f1 := fun item => fst (rescale_item planner1 new item)).
  set (s1 := set_furniture_items (map f1 (furniture_items self)) planner1).
  set (planner2 := fst (draw_room_border (set_pixels_per_m old s1))).
  set (f2 := fun item => fst (rescale_item planner2 old item)).
  assert (Hsnap1 : snap_to_borders planner1 = false) by exact Hsnap.
  assert (Each : forall item, In item (furniture_items self) ->
            snd (rescale_item planner1 new item) = Ret tt /\
            snd (rescale_item planner2 old (f1 item)) = Ret tt /\
            scale (f2 (f1 item)) = old /\
            rect (f2 (f1 item)) = {| width := width_m (furn item) * inject_Z old;
                                     height := depth_m (furn item) * inject_Z old |} /\
            in_step (f2 (f1 item)) /\
            x_m (furn (f2 (f1 item))) == x_m (furn item) * (inject_Z new / inject_Z old) /\
            y_m (furn (f2 (f1 item))) == y_m (furn item) * (inject_Z new / inject_Z old) /\
            name (furn (f2 (f1 item))) = name (furn item) /\
            rotation (furn (f2 (f1 item))) = rotation (furn item)).
  { intros item Hin. rewrite Forall_forall in Hitems.
    destruct (Hitems item Hin) as (Hs & Hstep).
    exact (rescale_item_there_and_back planner1 planner2 old new item
             Hsnap1 Hold Hs Hstep). }
  assert (E1 : _set_canvas_scale new self = (s1, Ret tt)).
  { apply set_canvas_scale_returns. apply Forall_forall. intros item Hin.
    apply (Each item Hin). }
  assert (E2 : _set_canvas_scale old s1 =
                 (set_furniture_items (map f2 (map f1 (furniture_items self))) planner2,
                  Ret tt)).
  { apply (set_canvas_scale_returns old s1). apply Forall_forall. intros item1 Hin.
    change (furniture_items s1) with (map f1 (furniture_items self)) in Hin.
    apply in_map_iff in Hin. destruct Hin as (item & <- & Hin).
    apply (Each item Hin). }
  assert (E : (_set_canvas_scale new ;; _set_canvas_scale old) self =
                (set_furniture_items (map f2 (map f1 (furniture_items self))) planner2,
                 Ret tt)).
  { rewrite (bind_Ret _ _ _ _ _ E1). exact E2. }
  subst back. unfold state_after, result_of. rewrite E. simpl fst. simpl snd.
  split; [reflexivity|]. split; [reflexivity|]. split; [reflexivity|].
  change (furniture_items (set_furniture_items (map f2 (map f1 (furniture_items self)))
                             planner2))
    with (map f2 (map f1 (furniture_items self))).
  clear E E1 E2 Hitems. induction (furniture_items self) as [|item rest IH].
  - constructor.
  - simpl. constructor.
    + apply (Each item). left. reflexivity.
    + apply IH. intros item' Hin. apply Each. right. exact Hin.
Qed.

Lemma rescale_there_and_back_witness :
  let back :=
    state_after (_set_canvas_scale 120 ;; _set_canvas_scale 60) sample_with_door in
  result_of (_set_canvas_scale 120 ;; _set_canvas_scale 60) sample_with_door = Ret tt /\
  pixels_per_m back = 60%Z /\
  Forall2 (fun item item' => x_m (furn item') == x_m (furn item) * (120 / 60))
    (furniture_items sample_with_door) (furniture_items back).
Proof.
  assert (H1 : snap_to_borders sample_with_door = false) by (vm_compute; reflexivity).
  assert (H2 : pixels_per_m sample_with_door <> 0%Z) by (vm_compute; discriminate).
  assert (H3 : Forall (fun item => scale item = pixels_per_m sample_with_door /\
                                   in_step item)
                 (furniture_items sample_with_door)).
  { repeat constructor; vm_compute; reflexivity. }
  destruct (rescale_there_and_back sample_with_door 120 H1 H2 H3) as (R & P & _ & F).
  split; [exact R|]. split; [exact P|].
  refine (Forall2_impl _ _ F). intros item item' (_ & _ & _ & Hx & _). exact Hx.
Defined.

(* ------------------------------------------------------------------ *)
(** ** Pasting *)

Lemma paste_furniture_center_run (self : RoomPlanner) (c : Clipboard) :
  clipboard_furniture self = Some c ->
  pixels_per_m self <> 0%Z ->
  let ppm := inject_Z (pixels_per_m self) in
  let centre := {| px := room_width_m self * ppm / 2; py := room_depth_m self * ppm / 2 |} in
  let item0 :=
    FurnitureItem_init
      {| name := (clip_name c ++ " (Copy)")%string; width_m := clip_width_m c;
         depth_m := clip_depth_m c; colour := clip_colour c;
         x_m := 0.0; y_m := 0.0; rotation := clip_rotation c |} (pixels_per_m self) in
  let item1 := fst (setPos self centre item0) in
  snd (setPos self centre item0) = Ret tt /\
  paste_furniture None self =
    (add_items
       [item_set_furn (set_position_m (px centre / ppm) (py centre / ppm) (furn item1)) item1]
       self, Ret tt).
Proof.
  intros Hc Hs ppm centre item0 item1.
  assert (Hq : Qeq_bool ppm 0 = false).
  { apply Qeq_bool_false_neq. apply inject_Z_nonzero. exact Hs. }
  pose proof (setPos_cases self centre item0) as C. cbv zeta in C.
  change (scale item0) with (pixels_per_m self) in C. fold ppm in C. rewrite Hq in C.
  assert (R : snd (setPos self centre item0) = Ret tt).
  { destruct (_ || _); [rewrite C; reflexivity | apply C]. }
  split; [exact R|].
  unfold paste_furniture. unfold bind at 1. unfold get at 1. rewrite Hc.
  fold ppm. fold centre. fold item0. subst item1.
  destruct (setPos self centre item0) as [item1 o] eqn:E. simpl in R. subst o.
  se_unfold. rewrite E. unfold py_truediv. rewrite Hq. reflexivity.
Qed.

(** X7.  Pasting with the keyboard or the menu: with a clipboard and a
    canvas scale that is not zero, [paste_furniture_center] returns and
    appends one piece and one list entry; the piece is named after the
    clipboard with the suffix (Copy), has the clipboard's size, colour and
    rotation, and its stored position is the middle of the room, half the
    room width and half the room depth, whatever snap-to-border made of the
    display position.  With snap-to-border off the piece is displayed
    there.  The clipboard is kept. *)
Theorem paste_lands_mid_room (self : RoomPlanner) (c : Clipboard) :
  clipboard_furniture self = Some c ->
  pixels_per_m self <> 0%Z ->
  exists item,
    paste_furniture_center self = (add_items [item] self, Ret tt) /\
    x_m (furn item) == room_width_m self / 2 /\
    y_m (furn item) == room_depth_m self / 2 /\
    name (furn item) = (clip_name c ++ " (Copy)")%string /\
    width_m (furn item) = clip_width_m c /\
    depth_m (furn item) = clip_depth_m c /\
    colour (furn item) = clip_colour c /\
    rotation (furn item) = clip_rotation c /\
    scale item = pixels_per_m self /\
    (snap_to_borders self = false -> in_step item) /\
    clipboard_furniture (add_items [item] self) = Some c.
Proof.
  intros Hc Hs.
  pose proof (paste_furniture_center_run self c Hc Hs) as (R & Hrun). cbv zeta in Hrun, R.
  pose proof (inject_Z_nonzero _ Hs) as Hq.
  set (ppm := inject_Z (pixels_per_m self)) in *.
  set (centre := {| px := room_width_m self * ppm / 2;
                    py := room_depth_m self * ppm / 2 |}) in *.
  set (item0 := FurnitureItem_init _ (pixels_per_m self)) in *.
  pose proof (setPos_frame self centre item0) as F. cbv zeta in F.
  destruct F as (F1 & F2 & F3 & F4 & F5 & F6 & _ & _).
  eexists. split; [exact Hrun|]. simpl.
  split; [field; exact Hq|]. split; [field; exact Hq|].
  split; [exact F1|]. split; [exact F2|]. split; [exact F3|]. split; [exact F4|].
  split; [exact F5|]. split; [exact F6|]. split; [|exact Hc].
  intros Hsnap. unfold in_step. simpl. rewrite F6.
  change (scale item0) with (pixels_per_m self). fold ppm.
  pose proof (setPos_cases self centre item0) as C. cbv zeta in C.
  assert (N : itemChange_ItemPositionChange self item0 centre = centre).
  { unfold itemChange_ItemPositionChange. rewrite Hsnap. reflexivity. }
  rewrite N in C. change (pos item0) with origin in C.
  change (scale item0) with (pixels_per_m self) in C. fold ppm in C.
  destruct (QPointF_eqb origin centre) eqn:E0; simpl in C.
  { rewrite C. apply QPointF_eqb_true in E0. destruct E0 as (Ex & Ey).
    simpl in Ex, Ey |- *. split.
    - rewrite Ex. field. exact Hq.
    - rewrite Ey. field. exact Hq. }
  destruct (QPointF_eqb centre origin) eqn:E1; simpl in C.
  { rewrite C. apply QPointF_eqb_true in E1. destruct E1 as (Ex & Ey).
    simpl in Ex, Ey |- *. split.
    - rewrite <- Ex. field. exact Hq.
    - rewrite <- Ey. field. exact Hq. }
  rewrite (proj2 (Qeq_bool_false_neq ppm) Hq) in C.
  destruct C as (_ & -> & _). simpl. split; field; exact Hq.
Qed.

Lemma paste_lands_mid_room_witness :
  exists item,
    paste_furniture_center
      (state_after (copy_selected_furniture (Some 0%nat)) sample_with_door) =
      (add_items [item]
         (state_after (copy_selected_furniture (Some 0%nat)) sample_with_door), Ret tt) /\
    x_m (furn item) ==
      room_width_m (state_after (copy_selected_furniture (Some 0%nat)) sample_with_door) / 2.
Proof.
  destruct (paste_lands_mid_room
              (state_after (copy_selected_furniture (Some 0%nat)) sample_with_door)
              {| clip_name := "Item 1"; clip_width_m := to_m 72 U_in;
                 clip_depth_m := to_m 36 U_in; clip_colour := "#4a90e2"%string;
                 clip_rotation := 0.0 |})
    as (item & Hrun & Hx & _).
  - vm_compute. reflexivity.
  - vm_compute. discriminate.
  - exists item. split; [exact Hrun | exact Hx].
Defined.

Lemma paste_zero_scale_run (self : RoomPlanner) (c : Clipboard) :
  pixels_per_m self = 0%Z ->
  clipboard_furniture self = Some c ->
  paste_furniture None self = (self, Raise ZeroDivisionError).
Proof.
  intros Hs Hc. unfold paste_furniture.
  unfold bind at 1. unfold get at 1. rewrite Hc, Hs.
  set (item0 := FurnitureItem_init _ 0).
  set (centre := {| px := room_width_m self * inject_Z 0 / 2;
                    py := room_depth_m self * inject_Z 0 / 2 |}).
  pose proof (setPos_cases self centre item0) as C. cbv zeta in C.
  assert (E0 : QPointF_eqb (pos item0) centre = true).
  { apply QPointF_eqb_true. simpl. change (inject_Z 0) with 0. split; field. }
  rewrite E0 in C. simpl in C.
  se_unfold. rewrite C. reflexivity.
Qed.

Lemma paste_no_clipboard_run (self : RoomPlanner) :
  clipboard_furniture self = None -> paste_furniture None self = (self, Ret tt).
Proof.
  intros Hc. unfold paste_furniture. unfold bind at 1. unfold get at 1.
  rewrite Hc. reflexivity.
Qed.

(** X8.  Pasting on a canvas whose scale is zero: the division of the
    centre by the scale raises [ZeroDivisionError] after the item was
    built, and the window is left exactly as it was, no piece and no list
    entry added.  Without a clipboard the command does nothing. *)
Theorem paste_on_zero_scale (self : RoomPlanner) (c : Clipboard) :
  pixels_per_m self = 0%Z ->
  (clipboard_furniture self = Some c ->
   paste_furniture_center self = (self, Raise ZeroDivisionError)) /\
  (clipboard_furniture self = None ->
   paste_furniture_center self = (self, Ret tt)).
Proof.
  intros Hs. split; intros Hc; unfold paste_furniture_center.
  - apply (paste_zero_scale_run self c Hs Hc).
  - apply (paste_no_clipboard_run self Hc).
Qed.

Lemma paste_on_zero_scale_witness :
  paste_furniture_center
    (state_after (_set_canvas_scale 0 ;; copy_selected_furniture (Some 0%nat))
       sample_with_door) =
    (state_after (_set_canvas_scale 0 ;; copy_selected_furniture (Some 0%nat))
       sample_with_door, Raise ZeroDivisionError).
Proof.
  apply (paste_on_zero_scale
           (state_after (_set_canvas_scale 0 ;; copy_selected_furniture (Some 0%nat))
              sample_with_door)
           {| clip_name := "Item 1"; clip_width_m := to_m 72 U_in;
              clip_depth_m := to_m 36 U_in; clip_colour := "#4a90e2"%string;
              clip_rotation := 0.0 |}).
  - vm_compute. reflexivity.
  - vm_compute. reflexivity.
Defined.

(* ------------------------------------------------------------------ *)
(** ** Adding doors and windows *)

(** The item [add_door] and [add_window] build and place. *)
Lemma add_door_run (self : RoomPlanner) (input : DialogInput) :
  _room_rect_item self <> None ->
  exists n,
    next_available (enough_fuel self) self "Door " (door_counter self) = Some n /\
    let data := get_door_window_data true ("Door " ++ py_str n) input in
    let ppm := inject_Z (pixels_per_m self) in
    let item :=
      door_setPos {| px := (room_width_m self - dw_width_m data) / 2 * ppm;
                     py := (room_depth_m self - thickness_m data) * ppm |}
        (DoorItem_init data (pixels_per_m self)) in
    let self' := state_after (add_door (Some input)) self in
    result_of (add_door (Some input)) self = Ret NoMessage /\
    door_items self' = door_items self ++ [item] /\
    list_widget self' = list_widget self ++ [DoorWindowEntry (dw_name data) true] /\
    door_counter self' = (n + 1)%Z /\
    window_counter self' = window_counter self /\
    furniture_items self' = furniture_items self.
Proof.
  intros Hroom.
  destruct (next_available_total self "Door " (door_counter self)) as (n & Hn & _).
  exists n. split; [exact Hn|].
  unfold add_door, _add_door_to_list. se_unfold.
  destruct (_room_rect_item self); [|congruence].
  rewrite Hn. simpl. repeat split.
Qed.

Lemma add_window_run (self : RoomPlanner) (input : DialogInput) :
  _room_rect_item self <> None ->
  exists n,
    next_available (enough_fuel self) self "Window " (window_counter self) = Some n /\
    let data := get_door_window_data false ("Window " ++ py_str n) input in
    let ppm := inject_Z (pixels_per_m self) in
    let item :=
      door_setPos {| px := (room_width_m self - dw_width_m data) / 2 * ppm;
                     py := 0 * ppm |}
        (DoorItem_init data (pixels_per_m self)) in
    let self' := state_after (add_window (Some input)) self in
    result_of (add_window (Some input)) self = Ret NoMessage /\
    door_items self' = door_items self ++ [item] /\
    list_widget self' = list_widget self ++ [DoorWindowEntry (dw_name data) false] /\
    window_counter self' = (n + 1)%Z /\
    door_counter self' = door_counter self /\
    furniture_items self' = furniture_items self.
Proof.
  intros Hroom.
  destruct (next_available_total self "Window " (window_counter self)) as (n & Hn & _).
  exists n. split; [exact Hn|].
  unfold add_window, _add_door_to_list. se_unfold.
  destruct (_room_rect_item self); [|congruence].
  rewrite Hn. simpl. repeat split.
Qed.

Lemma dialog_data_ok (is_door : bool) (proposed : string) (input : DialogInput) (s : Z) :
  opening_ok (DoorItem_init (get_door_window_data is_door proposed input) s).
Proof.
  unfold opening_ok. simpl.
  pose proof (qBound_range 0.1 (dlg_width input) 10.0) as W.
  pose proof (qBound_range 0.05 (dlg_thickness input) 1.0) as T.
  split; [lra|]. split; [lra|]. split; [lra|]. split; [lra|].
  split; [reflexivity|]. split; [reflexivity|]. discriminate.
Qed.

(** X9.  Where a new door or window goes.  In a window that has a room
    rectangle, accepting the dialog appends exactly one tracked item: its
    width lies in [0.1, 10] and its thickness in [0.05, 1] metres whatever
    was typed, it is closed and not rotated, it is centred on the room
    width, and a door lies with its lower edge on the wall at the room
    depth while a window has its upper edge on the wall at 0.  The stored
    position of the record stays (0, 0). *)
Theorem new_opening_is_centred_on_its_wall (self : RoomPlanner) (input : DialogInput) :
  _room_rect_item self <> None ->
  let ppm := inject_Z (pixels_per_m self) in
  (exists door,
     door_items (state_after (add_door (Some input)) self) = door_items self ++ [door] /\
     opening_ok door /\
     is_door (door_window door) = true /\
     is_open door = false /\
     door_rotation door == 0 /\
     px (door_pos door) + width (door_rect door) / 2 == room_width_m self * ppm / 2 /\
     py (door_pos door) + height (door_rect door) == room_depth_m self * ppm) /\
  (exists window,
     door_items (state_after (add_window (Some input)) self) = door_items self ++ [window] /\
     opening_ok window /\
     is_door (door_window window) = false /\
     is_open window = false /\
     door_rotation window == 0 /\
     px (door_pos window) + width (door_rect window) / 2 == room_width_m self * ppm / 2 /\
     py (door_pos window) == 0).
Proof.
  intros Hroom ppm. split.
  - destruct (add_door_run self input Hroom) as (n & _ & _ & Hitems & _).
    eexists. split; [exact Hitems|].
    split; [apply (dialog_data_ok true ("Door " ++ py_str n) input (pixels_per_m self))|].
    split; [reflexivity|]. split; [reflexivity|]. split; [reflexivity|].
    simpl. fold ppm. split; field.
  - destruct (add_window_run self input Hroom) as (n & _ & _ & Hitems & _).
    eexists. split; [exact Hitems|].
    split; [apply (dialog_data_ok false ("Window " ++ py_str n) input (pixels_per_m self))|].
    split; [reflexivity|]. split; [reflexivity|]. split; [reflexivity|].
    simpl. fold ppm. split; field.
Qed.

Lemma new_opening_is_centred_on_its_wall_witness :
  exists door,
    door_items
      (state_after
         (add_door (Some {| dlg_name := None; dlg_width := 0.9; dlg_thickness := 0.1 |}))
         first_start) = door_items first_start ++ [door] /\
    py (door_pos door) + height (door_rect door) ==
      room_depth_m first_start * inject_Z (pixels_per_m first_start).
Proof.
  destruct (new_opening_is_centred_on_its_wall first_start
              {| dlg_name := None; dlg_width := 0.9; dlg_thickness := 0.1 |})
    as ((door & Hitems & _ & _ & _ & _ & _ & Hy) & _).
  - vm_compute. discriminate.
  - exists door. split; [exact Hitems | exact Hy].
Defined.

Lemma names_app_entry (self self' : RoomPlanner) (entry : ListEntry) (typed : string) :
  list_widget self' = list_widget self ++ [entry] ->
  entry_data_name entry = typed ->
  count_occ string_dec (names self') typed = S (count_occ string_dec (names self) typed).
Proof.
  intros Hl He. unfold names. rewrite Hl, map_app, count_occ_app. simpl.
  rewrite He. destruct (string_dec typed typed); [lia | congruence].
Qed.

(** X10.  A name typed into the door or window dialog is not checked
    against the list: it is entered as typed, so a name that is already in
    the list is in it once more afterwards, and the counter still moves
    past the number that was only proposed. *)
Theorem typed_name_is_not_checked (self : RoomPlanner) (typed : string) (w t : Q) :
  _room_rect_item self <> None ->
  let input := {| dlg_name := Some typed; dlg_width := w; dlg_thickness := t |} in
  (exists n,
     next_available (enough_fuel self) self "Door " (door_counter self) = Some n /\
     let self' := state_after (add_door (Some input)) self in
     list_widget self' = list_widget self ++ [DoorWindowEntry typed true] /\
     count_occ string_dec (names self') typed =
       S (count_occ string_dec (names self) typed) /\
     door_counter self' = (n + 1)%Z) /\
  (exists n,
     next_available (enough_fuel self) self "Window " (window_counter self) = Some n /\
     let self' := state_after (add_window (Some input)) self in
     list_widget self' = list_widget self ++ [DoorWindowEntry typed false] /\
     count_occ string_dec (names self') typed =
       S (count_occ string_dec (names self) typed) /\
     window_counter self' = (n + 1)%Z).
Proof.
  intros Hroom input. split.
  - destruct (add_door_run self input Hroom) as (n & Hn & _ & _ & Hlist & Hc & _).
    exists n. split; [exact Hn|]. cbv zeta. split; [exact Hlist|].
    split; [|exact Hc]. apply (names_app_entry _ _ _ _ Hlist). reflexivity.
  - destruct (add_window_run self input Hroom) as (n & Hn & _ & _ & Hlist & Hc & _).
    exists n. split; [exact Hn|]. cbv zeta. split; [exact Hlist|].
    split; [|exact Hc]. apply (names_app_entry _ _ _ _ Hlist). reflexivity.
Qed.

Lemma typed_name_is_not_checked_witness :
  count_occ string_dec
    (names (state_after
       (add_door (Some {| dlg_name := Some "Door 1"%string; dlg_width := 1;
                          dlg_thickness := 0.1 |})) sample_with_door))
    "Door 1"%string = 2%nat.
Proof.
  destruct (typed_name_is_not_checked sample_with_door "Door 1"%string 1 0.1)
    as ((n & _ & _ & Hcount & _) & _).
  - vm_compute. discriminate.
  - rewrite Hcount. vm_compute. reflexivity.
Defined.

(* ------------------------------------------------------------------ *)
(** ** What [load_layout] reports *)



(* ------------------------------------------------------------------ *)
(** ** Switching a width unit and switching back *)

(** A value converted to another unit through the spin box, and back
    through the spin box: each spin box rounds to two decimals, and the
    first rounding is converted with the value. *)
Lemma converted_and_back (w : Q) (old u : length_unit) :
  in_range w ->
  let there := from_m (to_m w old) u in
  let back := spin_setValue (from_m (to_m (spin_setValue there) u) old) in
  in_range back /\
  (in_range there ->
   Qabs (back - w) <= (1 # 200) * (1 + _UNIT_FACTORS u / _UNIT_FACTORS old) + tolerance) /\
  (1000 < there -> back <= w + (1 # 200) + tolerance) /\
  (there < 1 -> w - (1 # 200) - tolerance <= back).
Proof.
  intros Hw there back. split; [apply spin_setValue_range|].
  pose proof (spin_setValue_near (from_m (to_m (spin_setValue there) u) old)) as H2.
  fold back in H2. clearbody back.
  pose proof (spin_setValue_range there) as Hs.
  split; [|split].
  - intros Hthere.
    pose proof (spin_setValue_near there) as H1.
    rewrite (qBound_inside _ _ _ Hthere) in H1.
    pose proof (qBound_near (from_m (to_m (spin_setValue there) u) old)
                  (from_m (to_m there u) old)
                  ((1 # 200) * (_UNIT_FACTORS u / _UNIT_FACTORS old))) as H3.
    assert (E : from_m (to_m there u) old == w).
    { subst there. pose proof (unit_factor_pos old). pose proof (unit_factor_pos u).
      unfold from_m, to_m. field. split; lra. }
    assert (Ew : qBound 1 (from_m (to_m there u) old) 1000 == w).
    { unfold qBound. destruct Hw. q_cases; lra. }
    rewrite Ew in H3. clear Ew E.
    set (s := spin_setValue there) in *. clearbody s.
    set (c := qBound 1 (from_m (to_m s u) old) 1000) in *.
    assert (H4 : Qabs (c - w) <= (1 # 200) * (_UNIT_FACTORS u / _UNIT_FACTORS old)).
    { apply H3. clear H3 H2. subst c.
      apply Qabs_Qle_condition in H1. apply Qabs_Qle_condition.
      unfold from_m, to_m, Qdiv.
      destruct old, u; unfold _UNIT_FACTORS; q_consts; split; lra. }
    clearbody c. clear H3 H1.
    apply Qabs_Qle_condition in H2. apply Qabs_Qle_condition in H4.
    apply Qabs_Qle_condition. unfold tolerance. split; lra.
  - intros Hthere. subst there.
    set (s := spin_setValue (from_m (to_m w old) u)) in *. clearbody s.
    apply Qabs_Qle_condition in H2. destruct Hw as (Hlo & Hhi).
    revert H2 Hthere. unfold qBound, from_m, to_m, Qdiv, tolerance.
    destruct old, u; unfold _UNIT_FACTORS; q_consts; intros H2 Hthere; q_cases; lra.
  - intros Hthere. subst there.
    set (s := spin_setValue (from_m (to_m w old) u)) in *. clearbody s.
    pose proof (spin_setValue_near (from_m (to_m w old) u)) as H1.
    apply Qabs_Qle_condition in H2. destruct Hw as (Hlo & Hhi).
    revert H2 Hthere. unfold qBound, from_m, to_m, Qdiv, tolerance.
    destruct old, u; unfold _UNIT_FACTORS; q_consts; intros H2 Hthere; q_cases; lra.
Qed.

Lemma select_room_w_unit_twice (self : RoomPlanner) (u : length_unit) :
  current_room_unit self = room_w_unit (control_panel self) ->
  let panel := control_panel self in
  let old := room_w_unit panel in
  let back := state_after (select_room_w_unit u ;; select_room_w_unit old) self in
  room_w_spin (control_panel back) =
    (if unit_eqb old u then room_w_spin panel
     else spin_setValue
            (from_m (to_m (spin_setValue (from_m (to_m (room_w_spin panel) old) u)) u) old)) /\
  room_w_unit (control_panel back) = old /\
  current_room_unit back = old /\
  room_d_spin (control_panel back) = room_d_spin panel /\
  room_d_unit (control_panel back) = room_d_unit panel.
Proof.
  intros Hroom panel old back. subst panel old back.
  unfold select_room_w_unit, _update_room_unit_display. se_unfold.
  destruct (unit_eqb (room_w_unit (control_panel self)) u) eqn:E; simpl.
  - rewrite unit_eqb_refl. simpl.
    repeat match goal with |- _ /\ _ => split end; first [reflexivity | exact Hroom].
  - assert (E' : unit_eqb u (room_w_unit (control_panel self)) = false).
    { destruct u, (room_w_unit (control_panel self)); simpl in *; congruence. }
    repeat (progress (rewrite ?Hroom, ?E, ?E'; simpl)).
    repeat match goal with |- _ /\ _ => split end; reflexivity.
Qed.

Lemma select_f_w_unit_twice (self : RoomPlanner) (u : length_unit) :
  current_furniture_unit self = f_w_unit (control_panel self) ->
  let panel := control_panel self in
  let old := f_w_unit panel in
  let back := state_after (select_f_w_unit u ;; select_f_w_unit old) self in
  f_w_spin (control_panel back) =
    (if unit_eqb old u then f_w_spin panel
     else spin_setValue
            (from_m (to_m (spin_setValue (from_m (to_m (f_w_spin panel) old) u)) u) old)) /\
  f_w_unit (control_panel back) = old /\
  current_furniture_unit back = old /\
  f_d_spin (control_panel back) = f_d_spin panel /\
  f_d_unit (control_panel back) = f_d_unit panel.
Proof.
  intros Hfurn panel old back. subst panel old back.
  unfold select_f_w_unit, _update_furniture_unit_display. se_unfold.
  destruct (unit_eqb (f_w_unit (control_panel self)) u) eqn:E; simpl.
  - rewrite unit_eqb_refl. simpl.
    repeat match goal with |- _ /\ _ => split end; first [reflexivity | exact Hfurn].
  - assert (E' : unit_eqb u (f_w_unit (control_panel self)) = false).
    { destruct u, (f_w_unit (control_panel self)); simpl in *; congruence. }
    repeat (progress (rewrite ?Hfurn, ?E, ?E'; simpl)).
    repeat match goal with |- _ /\ _ => split end; reflexivity.
Qed.

(** X12.  Switching the width unit of the room and switching it back, in a
    window whose recorded room unit is the one the width selector shows and
    whose width value is in the spin box range [1, 1000]: the selector and
    the recorded unit are back, and depth value and depth unit were never
    touched.  The width value is not restored in general, for each of the
    two spin box settings rounds to two decimals (16 ft become 4.88 m, which
    become 16.01 ft).  When its conversion to the other unit fits the range,
    the value that comes back is within half a hundredth of the first unit
    plus half a hundredth of the other unit of what it was; when the
    conversion is above 1000 it comes back no more than half a hundredth
    larger than it was, when it is below 1 no more than half a hundredth
    smaller: the spin box cut it on the way.  (Each bound with 1e-9 added
    for the rounding of the doubles.)  The same holds for the width of the
    furniture form. *)
Theorem width_unit_there_and_back (self : RoomPlanner) (u : length_unit) :
  current_room_unit self = room_w_unit (control_panel self) ->
  current_furniture_unit self = f_w_unit (control_panel self) ->
  in_range (room_w_spin (control_panel self)) ->
  in_range (f_w_spin (control_panel self)) ->
  let panel := control_panel self in
  (let back := state_after (select_room_w_unit u ;; select_room_w_unit (room_w_unit panel))
                 self in
   let there := from_m (to_m (room_w_spin panel) (room_w_unit panel)) u in
   let came_back := room_w_spin (control_panel back) in
   room_w_unit (control_panel back) = room_w_unit panel /\
   current_room_unit back = room_w_unit panel /\
   room_d_spin (control_panel back) = room_d_spin panel /\
   room_d_unit (control_panel back) = room_d_unit panel /\
   in_range came_back /\
   (in_range there ->
    Qabs (came_back - room_w_spin panel) <=
      (1 # 200) * (1 + _UNIT_FACTORS u / _UNIT_FACTORS (room_w_unit panel)) + tolerance) /\
   (1000 < there -> came_back <= room_w_spin panel + (1 # 200) + tolerance) /\
   (there < 1 -> room_w_spin panel - (1 # 200) - tolerance <= came_back)) /\
  (let back := state_after (select_f_w_unit u ;; select_f_w_unit (f_w_unit panel)) self in
   let there := from_m (to_m (f_w_spin panel) (f_w_unit panel)) u in
   let came_back := f_w_spin (control_panel back) in
   f_w_unit (control_panel back) = f_w_unit panel /\
   current_furniture_unit back = f_w_unit panel /\
   f_d_spin (control_panel back) = f_d_spin panel /\
   f_d_unit (control_panel back) = f_d_unit panel /\
   in_range came_back /\
   (in_range there ->
    Qabs (came_back - f_w_spin panel) <=
      (1 # 200) * (1 + _UNIT_FACTORS u / _UNIT_FACTORS (f_w_unit panel)) + tolerance) /\
   (1000 < there -> came_back <= f_w_spin panel + (1 # 200) + tolerance) /\
   (there < 1 -> f_w_spin panel - (1 # 200) - tolerance <= came_back)).
Proof.
  assert (Same : forall (w : Q) (old : length_unit),
    in_range w ->
    let there := from_m (to_m w old) old in
    in_range w /\
    (in_range there ->
     Qabs (w - w) <= (1 # 200) * (1 + _UNIT_FACTORS old / _UNIT_FACTORS old) + tolerance) /\
    (1000 < there -> w <= w + (1 # 200) + tolerance) /\
    (there < 1 -> w - (1 # 200) - tolerance <= w)).
  { intros w old Hw there. split; [exact Hw|]. unfold tolerance.
    split; [|split; intros _; lra].
    intros _. setoid_replace (w - w) with 0 by ring.
    destruct old; vm_compute; discriminate. }
  intros Hroom Hfurn Hw Hf panel. subst panel. split.
  - destruct (select_room_w_unit_twice self u Hroom) as (Hspin & Hu & Hc & Hd & Hdu).
    cbv zeta in *.
    split; [exact Hu|]. split; [exact Hc|]. split; [exact Hd|]. split; [exact Hdu|].
    rewrite Hspin.
    destruct (unit_eqb (room_w_unit (control_panel self)) u) eqn:E.
    + apply unit_eqb_eq in E. subst u. apply Same. exact Hw.
    + apply converted_and_back. exact Hw.
  - destruct (select_f_w_unit_twice self u Hfurn) as (Hspin & Hu & Hc & Hd & Hdu).
    cbv zeta in *.
    split; [exact Hu|]. split; [exact Hc|]. split; [exact Hd|]. split; [exact Hdu|].
    rewrite Hspin.
    destruct (unit_eqb (f_w_unit (control_panel self)) u) eqn:E.
    + apply unit_eqb_eq in E. subst u. apply Same. exact Hf.
    + apply converted_and_back. exact Hf.
Qed.

(** At first start the room is 16 ft wide.  To metres and back the width
    reads 16.01 ft: within the bound, and not what it was. *)
Lemma width_unit_there_and_back_witness :
  let came_back :=
    room_w_spin
      (control_panel
         (state_after (select_room_w_unit U_m ;; select_room_w_unit U_ft) first_start)) in
  current_room_unit first_start = room_w_unit (control_panel first_start) /\
  current_furniture_unit first_start = f_w_unit (control_panel first_start) /\
  in_range (room_w_spin (control_panel first_start)) /\
  in_range (f_w_spin (control_panel first_start)) /\
  room_w_spin (control_panel first_start) == 16 /\
  came_back == 16.01 /\
  Qabs (came_back - 16.0) <=
    (1 # 200) * (1 + _UNIT_FACTORS U_m / _UNIT_FACTORS U_ft) + tolerance.
Proof.
  assert (H1 : current_room_unit first_start = room_w_unit (control_panel first_start))
    by (vm_compute; reflexivity).
  assert (H2 : current_furniture_unit first_start = f_w_unit (control_panel first_start))
    by (vm_compute; reflexivity).
  assert (H3 : in_range (room_w_spin (control_panel first_start)))
    by (vm_compute; split; discriminate).
  assert (H4 : in_range (f_w_spin (control_panel first_start)))
    by (vm_compute; split; discriminate).
  destruct (width_unit_there_and_back first_start U_m H1 H2 H3 H4)
    as ((_ & _ & _ & _ & _ & A & _) & _).
  cbv zeta.
  split; [exact H1|]. split; [exact H2|]. split; [exact H3|]. split; [exact H4|].
  split; [vm_compute; reflexivity|]. split; [vm_compute; reflexivity|].
  apply A. vm_compute. split; discriminate.
Defined.

(* ------------------------------------------------------------------ *)
(** ** Doors and windows over a session *)

Lemma opening_names_app (a b : list ListEntry) :
  opening_names (a ++ b) = opening_names a ++ opening_names b.
Proof.
  induction a as [|[n|n d] a IH]; simpl; [reflexivity | exact IH | rewrite IH; reflexivity].
Qed.

Lemma furniture_names_app (a b : list ListEntry) :
  furniture_names (a ++ b) = furniture_names a ++ furniture_names b.
Proof.
  induction a as [|[n|n d] a IH]; simpl; [reflexivity | rewrite IH; reflexivity | exact IH].
Qed.

(** Taking out the first door or window of a name that is in the list
    removes one entry, of that name, and no furniture. *)
Lemma take_first_opening_spec (door_name : string) (l : list ListEntry) :
  In door_name (opening_names l) ->
  Permutation (opening_names l)
              (door_name :: opening_names (take_first_opening door_name l)) /\
  furniture_names (take_first_opening door_name l) = furniture_names l /\
  S (length (take_first_opening door_name l)) = length l.
Proof.
  induction l as [|[n|n d] l IH]; simpl; intros Hin.
  - contradiction.
  - destruct (IH Hin) as (P & F & L). split; [exact P|]. split; [rewrite F|rewrite <- L]; reflexivity.
  - destruct (String.eqb n door_name) eqn:E.
    + apply String.eqb_eq in E. subst n. split; [reflexivity|]. split; reflexivity.
    + destruct Hin as [->|Hin]; [rewrite String.eqb_refl in E; discriminate|].
      destruct (IH Hin) as (P & F & L). simpl. split.
      * rewrite P. apply perm_swap.
      * split; [exact F | rewrite <- L; reflexivity].
Qed.

(** A name that is not in the list: nothing is taken out. *)
Lemma take_first_opening_absent (door_name : string) (l : list ListEntry) :
  ~ In door_name (opening_names l) -> take_first_opening door_name l = l.
Proof.
  induction l as [|[n|n d] l IH]; simpl; intros Hin; [reflexivity | rewrite IH; auto |].
  destruct (String.eqb n door_name) eqn:E.
  - apply String.eqb_eq in E. exfalso. apply Hin. left. exact E.
  - rewrite IH; [reflexivity | intros H; apply Hin; right; exact H].
Qed.

Lemma remove_nth_spec {A : Type} (i : nat) (l : list A) (x : A) :
  nth_error l i = Some x ->
  Permutation l (x :: remove_nth i l) /\ S (length (remove_nth i l)) = length l.
Proof.
  revert i. induction l as [|y l IH]; intros [|i]; simpl; intros H; try discriminate.
  - injection H as ->. split; reflexivity.
  - destruct (IH i H) as (P & L). split.
    + rewrite P at 1. apply perm_swap.
    + rewrite <- L. reflexivity.
Qed.

Lemma Forall_remove_nth {A : Type} (P : A -> Prop) (i : nat) (l : list A) :
  Forall P l -> Forall P (remove_nth i l).
Proof.
  revert i. induction l as [|y l IH]; intros [|i] H; simpl; try constructor;
    inversion H; subst; auto.
Qed.

Lemma Forall_update_nth {A : Type} (P : A -> Prop) (f : A -> A) (i : nat) (l : list A) :
  (forall x, P x -> P (f x)) -> Forall P l -> Forall P (update_nth i f l).
Proof.
  intros Hf. revert i. induction l as [|y l IH]; intros [|i] H; simpl; try constructor;
    inversion H; subst; auto.
Qed.

Lemma map_update_nth {A B : Type} (g : A -> B) (f : A -> A) (i : nat) (l : list A) :
  (forall x, g (f x) = g x) -> map g (update_nth i f l) = map g l.
Proof.
  intros Hf. revert i. induction l as [|y l IH]; intros [|i]; simpl;
    rewrite ?Hf, ?IH; reflexivity.
Qed.

(** The methods of a door or window keep it well formed and keep its
    record. *)
Lemma door_methods_ok (item : DoorItem) (p : QPointF) :
  opening_ok item ->
  (opening_ok (toggle_door item) /\ door_window (toggle_door item) = door_window item) /\
  (opening_ok (mouseDoubleClickEvent item) /\
   door_window (mouseDoubleClickEvent item) = door_window item) /\
  (opening_ok (door_rotate_90 item) /\ door_window (door_rotate_90 item) = door_window item) /\
  (opening_ok (door_setPos p item) /\ door_window (door_setPos p item) = door_window item).
Proof.
  intros ((H1 & H1') & (H2 & H2') & H3 & H4 & H5 & H6 & H7).
  unfold mouseDoubleClickEvent, toggle_door, opening_ok.
  destruct (is_door (door_window item)) eqn:D; simpl;
    repeat match goal with |- _ /\ _ => split end;
    first [ assumption | reflexivity
          | intros; first [reflexivity | assumption | rewrite <- D; apply H7; assumption]
          | let X := fresh in intros X; apply H7 in X; discriminate X ].
Qed.

Create HintDb tracked discriminated.

Ltac tracked_steps :=
  repeat first
    [ solve [auto 1 with tracked]
    | match goal with
      | |- keeps _ (ret _) => apply keeps_ret
      | |- keeps _ (raise _) => apply keeps_raise
      | |- keeps _ (lift _) => apply keeps_lift
      | |- keeps _ get => apply keeps_get
      | |- keeps _ (on_local _ _) => apply keeps_on_local
      | |- keeps _ (bind _ _) => apply keeps_bind; [|intros ?]
      | |- keeps _ (try_except _ _) => apply keeps_try_except; [|intros ?]
      | |- keeps _ (for_each _ _) => apply keeps_for_each; intros ?
      | |- keeps _ (modify _) => apply keeps_modify; intros ? ?
      | |- keeps _ (match ?x with _ => _ end) => destruct x
      end ].

(** A window that differs from a tracked one in fields the property does
    not read, or by furniture entries appended to the list. *)
Ltac tracked_done :=
  match goal with
  | H : openings_tracked _ |- openings_tracked _ =>
    first
      [ exact H
      | let Hok := fresh in let Hperm := fresh in
        destruct H as (Hok & Hperm); split; [exact Hok|];
        unfold tracked_opening_names in *; simpl;
        rewrite opening_names_app; simpl; rewrite app_nil_r; exact Hperm ]
  end.

Ltac tracked := tracked_steps; try tracked_done.

Lemma new_room_tracked : keeps openings_tracked new_room.
Proof.
  intros s _. unfold new_room, draw_room_border. se_unfold. simpl.
  split; constructor.
Qed.
#[local] Hint Resolve new_room_tracked : tracked.

Lemma draw_room_border_tracked : keeps openings_tracked draw_room_border.
Proof. unfold draw_room_border. tracked. Qed.
#[local] Hint Resolve draw_room_border_tracked : tracked.

Lemma appended_opening_tracked (s s' : RoomPlanner) (item : DoorItem) (d : bool) :
  openings_tracked s ->
  opening_ok item ->
  door_items s' = door_items s ++ [item] ->
  list_widget s' = list_widget s ++ [DoorWindowEntry (dw_name (door_window item)) d] ->
  openings_tracked s'.
Proof.
  intros (Hok & Hperm) Hitem Hd Hl. unfold openings_tracked, tracked_opening_names in *.
  rewrite Hd, Hl. split.
  - apply Forall_app. split; [exact Hok | constructor; [exact Hitem | constructor]].
  - rewrite map_app, opening_names_app. simpl. apply Permutation_app_tail. exact Hperm.
Qed.

Lemma add_door_tracked (dialog : option DialogInput) : keeps openings_tracked (add_door dialog).
Proof.
  intros s H. destruct (_room_rect_item s) eqn:Hroom.
  - destruct dialog as [input|].
    + destruct (add_door_run s input) as (n & _ & _ & Hd & Hl & _); [congruence|].
      refine (appended_opening_tracked s _ _ true H _ Hd Hl).
      apply (door_methods_ok _ _ (dialog_data_ok true _ input (pixels_per_m s))).
    + destruct (next_available_total s "Door " (door_counter s)) as (n & Hn & _).
      unfold add_door. se_unfold. rewrite Hroom, Hn. exact H.
  - unfold add_door. se_unfold. rewrite Hroom. exact H.
Qed.

Lemma add_window_tracked (dialog : option DialogInput) :
  keeps openings_tracked (add_window dialog).
Proof.
  intros s H. destruct (_room_rect_item s) eqn:Hroom.
  - destruct dialog as [input|].
    + destruct (add_window_run s input) as (n & _ & _ & Hd & Hl & _); [congruence|].
      refine (appended_opening_tracked s _ _ false H _ Hd Hl).
      apply (door_methods_ok _ _ (dialog_data_ok false _ input (pixels_per_m s))).
    + destruct (next_available_total s "Window " (window_counter s)) as (n & Hn & _).
      unfold add_window. se_unfold. rewrite Hroom, Hn. exact H.
  - unfold add_window. se_unfold. rewrite Hroom. exact H.
Qed.

Lemma copy_furniture_tracked (f : Furniture) : keeps openings_tracked (copy_furniture f).
Proof. unfold copy_furniture. tracked. Qed.
#[local] Hint Resolve copy_furniture_tracked : tracked.

Lemma paste_furniture_tracked (p : option QPointF) : keeps openings_tracked (paste_furniture p).
Proof. unfold paste_furniture. tracked. Qed.
#[local] Hint Resolve paste_furniture_tracked : tracked.

Lemma set_canvas_scale_tracked (scale : Z) : keeps openings_tracked (_set_canvas_scale scale).
Proof. unfold _set_canvas_scale. tracked. Qed.
#[local] Hint Resolve set_canvas_scale_tracked : tracked.

Lemma load_furniture_tracked (d : furn_data) : keeps openings_tracked (load_furniture d).
Proof. unfold load_furniture, Furniture_of_data, dict_item. tracked. Qed.
#[local] Hint Resolve load_furniture_tracked : tracked.

Lemma update_ui_from_room_tracked : keeps openings_tracked update_ui_from_room.
Proof. unfold update_ui_from_room, floor_combo_setCurrentText. tracked. Qed.
#[local] Hint Resolve update_ui_from_room_tracked : tracked.

Lemma load_layout_tracked (filename : option file) :
  keeps openings_tracked (load_layout filename).
Proof. unfold load_layout, open_and_json_load, json_loads, as_dict, _apply_theme. tracked. Qed.

Lemma load_cached_room_tracked : keeps openings_tracked _load_cached_room.
Proof. unfold _load_cached_room, json_loads, as_dict. tracked. Qed.
#[local] Hint Resolve load_cached_room_tracked : tracked.

Lemma unit_display_tracked :
  keeps openings_tracked _update_room_unit_display /\
  keeps openings_tracked _update_furniture_unit_display.
Proof.
  unfold _update_room_unit_display, _update_furniture_unit_display.
  split; cbv zeta; tracked.
Qed.

Lemma execute_tracked (c : command) : keeps openings_tracked (execute c).
Proof.
  destruct unit_display_tracked as (Ur & Uf).
  destruct c; simpl;
    unfold edit_room_name_input, on_room_name_changed, edit_room_w_spin, edit_room_d_spin,
      select_room_w_unit, select_room_d_unit, on_room_apply, click_snap_checkbox,
      toggle_snap_to_borders, on_floor_changed, edit_f_w_spin, edit_f_d_spin,
      select_f_w_unit, select_f_d_unit, on_add_furniture, drag_furniture_item,
      rotate_selected_furniture, copy_selected_furniture, paste_furniture_center,
      duplicate_selected_furniture, _save_settings, _cache_current_room;
    try (apply keeps_bind; [first [apply add_door_tracked | apply add_window_tracked
                                  | apply load_layout_tracked]
                           | intros; apply keeps_ret]);
    tracked.
Qed.

Lemma on_door_item_tracked (i : nat) (method : DoorItem -> DoorItem) :
  (forall item, opening_ok item ->
     opening_ok (method item) /\ door_window (method item) = door_window item) ->
  keeps openings_tracked (on_door_item i method).
Proof.
  intros Hm s (Hok & Hperm). unfold on_door_item, modify. simpl.
  unfold openings_tracked, tracked_opening_names in *. simpl. split.
  - apply Forall_update_nth; [|exact Hok]. intros item Hi. apply (Hm item Hi).
  - assert (E : map (fun item => dw_name (door_window item))
                  (update_nth i method (door_items s)) =
                map (fun item => dw_name (door_window item)) (door_items s)).
    { clear Hperm. revert i. induction Hok as [|item rest Hi _ IH]; intros [|i]; simpl;
        try reflexivity.
      - rewrite (proj2 (Hm item Hi)). reflexivity.
      - rewrite IH. reflexivity. }
    rewrite E. exact Hperm.
Qed.

Lemma delete_self_tracked (i : nat) : keeps openings_tracked (delete_self i).
Proof.
  intros s (Hok & Hperm). unfold delete_self, _remove_door_from_list. se_unfold.
  destruct (nth_error (door_items s) i) as [item|] eqn:E; simpl; [|split; assumption].
  unfold openings_tracked, tracked_opening_names in *. simpl.
  split; [apply Forall_remove_nth; exact Hok|].
  destruct (remove_nth_spec i (door_items s) item E) as (P & _).
  pose proof (Permutation_map (fun item => dw_name (door_window item)) P) as Pn.
  simpl in Pn.
  assert (Hin : In (dw_name (door_window item)) (opening_names (list_widget s))).
  { apply (Permutation_in _ Hperm). apply (Permutation_in _ (Permutation_sym Pn)).
    left. reflexivity. }
  destruct (take_first_opening_spec _ _ Hin) as (Pl & _).
  apply (Permutation_cons_inv (a := dw_name (door_window item))).
  rewrite <- Pn, <- Pl. exact Hperm.
Qed.

Lemma perform_tracked (a : action) : keeps openings_tracked (perform a).
Proof.
  destruct a as [c|i|i|i|i p|i]; simpl.
  - apply execute_tracked.
  - apply on_door_item_tracked. intros item H.
    apply (door_methods_ok item origin H).
  - apply on_door_item_tracked. intros item H.
    apply (door_methods_ok item origin H).
  - apply on_door_item_tracked. intros item H.
    apply (door_methods_ok item origin H).
  - apply on_door_item_tracked. intros item H.
    apply (door_methods_ok item p H).
  - apply delete_self_tracked.
Qed.

Lemma perform_consistent (a : action) : keeps panel_consistent (perform a).
Proof.
  destruct a as [c|i|i|i|i p|i]; simpl; try apply execute_consistent;
    unfold on_door_item, delete_self, _remove_door_from_list; consistent.
Qed.

Lemma in_session_invariant (self : RoomPlanner) :
  in_session self -> openings_tracked self /\ panel_consistent self.
Proof.
  induction 1 as [stored | self a _ (IHt & IHc)].
  - split.
    + assert (H0 : openings_tracked (fst (draw_room_border (initial_attributes stored)))).
      { split; constructor. }
      assert (K : keeps openings_tracked _load_settings).
      { unfold _load_settings, floor_combo_setCurrentText. tracked. }
      unfold RoomPlanner_init, bind.
      pose proof (K _ H0) as H1.
      destruct (draw_room_border (initial_attributes stored)) as [s0 [[]|e]];
        [exact H1 | exact H0].
    + apply reachable_consistent. constructor.
  - split; [apply perform_tracked; exact IHt | apply perform_consistent; exact IHc].
Qed.

(** X13.  Doors and windows over a whole session.  From the window built
    out of any stored settings, through any sequence of the window's
    commands and of double clicks, Open/Close, Rotate, drags and Delete on
    doors and windows: every tracked door or window has a width within
    [0.1, 10] and a thickness within [0.05, 1] metres, a record position
    that is still (0, 0) (dragging an opening never writes it back), a
    rectangle that is its size at the scale it was created with, and is
    open only if it is a door; and the doors and windows of the list widget
    are, name by name and as often, the tracked ones.  The form stays
    consistent too: spin boxes within [1, 1000], recorded units equal to
    the width selectors, and a room rectangle. *)
Theorem session_tracks_openings (self : RoomPlanner) :
  in_session self ->
  Forall opening_ok (door_items self) /\
  Permutation (tracked_opening_names self) (opening_names (list_widget self)) /\
  length (door_items self) = length (opening_names (list_widget self)) /\
  panel_consistent self.
Proof.
  intros H. destruct (in_session_invariant self H) as ((Hok & Hperm) & Hpanel).
  split; [exact Hok|]. split; [exact Hperm|]. split; [|exact Hpanel].
  rewrite <- (Permutation_length Hperm). unfold tracked_opening_names.
  rewrite length_map. reflexivity.
Qed.

Lemma session_tracks_openings_witness :
  Forall opening_ok
    (door_items
       (state_after
          (perform (Do (AddWindow (Some {| dlg_name := None; dlg_width := 50;
                                          dlg_thickness := 0 |}))))
          (fst (RoomPlanner_init no_settings)))).
Proof.
  apply session_tracks_openings. apply session_step. apply session_start.
Defined.

(** X14.  Deleting a door or window in a session: [delete_self] on a
    tracked item returns, takes that item out of the tracked ones and
    exactly one entry out of the list widget, an entry of a door or window
    with the item's name; the furniture entries, in their order, and the
    furniture itself are untouched. *)
Theorem deleting_an_opening (self : RoomPlanner) (i : nat) :
  in_session self ->
  (i < length (door_items self))%nat ->
  let after := state_after (delete_self i) self in
  exists item,
    nth_error (door_items self) i = Some item /\
    result_of (delete_self i) self = Ret tt /\
    door_items after = remove_nth i (door_items self) /\
    S (length (door_items after)) = length (door_items self) /\
    S (length (list_widget after)) = length (list_widget self) /\
    Permutation (opening_names (list_widget self))
                (dw_name (door_window item) :: opening_names (list_widget after)) /\
    furniture_names (list_widget after) = furniture_names (list_widget self) /\
    furniture_items after = furniture_items self.
Proof.
  intros Hs Hi after.
  destruct (in_session_invariant self Hs) as ((_ & Hperm) & _).
  destruct (nth_error (door_items self) i) as [item|] eqn:E;
    [|apply nth_error_None in E; lia].
  exists item. split; [reflexivity|].
  assert (Hrun : delete_self i self =
            (set_list_widget
               (take_first_opening (dw_name (door_window item)) (list_widget self))
               (set_door_items (remove_nth i (door_items self)) self), Ret tt)).
  { unfold delete_self, _remove_door_from_list. se_unfold. rewrite E. reflexivity. }
  subst after. unfold state_after, result_of. rewrite Hrun. simpl.
  destruct (remove_nth_spec i (door_items self) item E) as (P & L).
  assert (Hin : In (dw_name (door_window item)) (opening_names (list_widget self))).
  { apply (Permutation_in _ Hperm). unfold tracked_opening_names.
    apply in_map_iff. exists item. split; [reflexivity|].
    apply (nth_error_In _ _ E). }
  destruct (take_first_opening_spec _ _ Hin) as (Pl & Fl & Ll).
  split; [reflexivity|]. split; [reflexivity|]. split; [exact L|].
  split; [exact Ll|]. split; [exact Pl|]. split; [exact Fl | reflexivity].
Qed.

Lemma deleting_an_opening_witness :
  let self :=
    state_after
      (perform (Do (AddDoor (Some {| dlg_name := None; dlg_width := 1;
                                     dlg_thickness := 0.1 |}))))
      (fst (RoomPlanner_init no_settings)) in
  exists item,
    nth_error (door_items self) 0 = Some item /\
    result_of (delete_self 0) self = Ret tt.
Proof.
  intros self.
  destruct (deleting_an_opening self 0) as (item & Hnth & Hres & _).
  - apply session_step. apply session_start.
  - vm_compute. lia.
  - exists item. split; [exact Hnth | exact Hres].
Defined.

(** X15.  In a session the room rectangle always exists, so the test at
    the head of [add_door] and [add_window] never fires: neither command
    ever answers with the warning that there is no room, and neither
    raises, whether the dialog is accepted or not. *)
Theorem opening_commands_never_warn (self : RoomPlanner) (dialog : option DialogInput) :
  in_session self ->
  result_of (add_door dialog) self = Ret NoMessage /\
  result_of (add_window dialog) self = Ret NoMessage.
Proof.
  intros Hs.
  destruct (in_session_invariant self Hs) as (_ & (_ & _ & _ & _ & _ & _ & Hroom)).
  destruct (next_available_total self "Door " (door_counter self)) as (n & Hn & _).
  destruct (next_available_total self "Window " (window_counter self)) as (m & Hm & _).
  unfold add_door, add_window. se_unfold.
  destruct (_room_rect_item self); [|congruence].
  rewrite Hn, Hm. destruct dialog; split; reflexivity.
Qed.

Lemma opening_commands_never_warn_witness :
  result_of (add_door None)
    (state_after (perform (Do NewRoom)) (fst (RoomPlanner_init no_settings))) =
    Ret NoMessage.
Proof.
  apply (opening_commands_never_warn
           (state_after (perform (Do NewRoom)) (fst (RoomPlanner_init no_settings))) None).
  apply session_step. apply session_start.
Defined.

(* ------------------------------------------------------------------ *)
(** ** Closing the window and starting again *)

(** [RoomPlanner.__init__] up to the call of [_load_cached_room], result
    included. *)
Lemma init_runs_to_cache (stored : QSettings) :
  exists pre,
    RoomPlanner_init stored = _load_cached_room pre /\
    settings pre = stored /\
    pixels_per_m pre = dict_get (s_canvas_scale stored) 60%Z /\
    snap_to_borders pre = false /\
    clipboard_furniture pre = None /\
    furniture_items pre = [] /\
    door_items pre = [] /\
    list_widget pre = [] /\
    door_counter pre = 1%Z /\
    window_counter pre = 1%Z /\
    _room_rect_item pre =
      Some {| width := room_width_m pre * inject_Z (pixels_per_m pre);
              height := room_depth_m pre * inject_Z (pixels_per_m pre) |}.
Proof.
  unfold RoomPlanner_init, _load_settings, _set_canvas_scale, draw_room_border,
    floor_combo_setCurrentText.
  unfold bind, modify, get, ret, lift. simpl.
  destruct (FloorTexture.mem _); eexists; (split; [reflexivity|]); simpl; repeat split.
Qed.





(* ------------------------------------------------------------------ *)
(** ** The settings dialog and the canvas scale *)

(** [_set_canvas_scale] leaves the room, the floor and the snap flag
    alone, whether it returns or raises. *)
Lemma set_canvas_scale_frame (k : Z) (self : RoomPlanner) :
  current_floor_texture (state_after (_set_canvas_scale k) self) =
    current_floor_texture self /\
  snap_to_borders (state_after (_set_canvas_scale k) self) = snap_to_borders self /\
  room_name (state_after (_set_canvas_scale k) self) = room_name self.
Proof.
  unfold _set_canvas_scale, draw_room_border. se_unfold. simpl.
  destruct (for_each_item _ _) as [items o]. simpl. repeat split.
Qed.

(** One item rescaled from a state in which it stands where its record
    says: it is displayed at the record's position at the new scale, and
    its record now holds that display position divided by the old scale. *)
Lemma rescale_item_from_step (planner : RoomPlanner) (p v : Z) (item : FurnitureItem) :
  snap_to_borders planner = false ->
  p <> 0%Z ->
  scale item = p ->
  in_step item ->
  let item' := fst (rescale_item planner v item) in
  snd (rescale_item planner v item) = Ret tt /\
  scale item' = v /\
  rect item' = {| width := width_m (furn item) * inject_Z v;
                  height := depth_m (furn item) * inject_Z v |} /\
  px (pos item') == x_m (furn item) * inject_Z v /\
  py (pos item') == y_m (furn item) * inject_Z v /\
  x_m (furn item') * inject_Z p == px (pos item') /\
  y_m (furn item') * inject_Z p == py (pos item') /\
  name (furn item') = name (furn item) /\
  width_m (furn item') = width_m (furn item) /\
  depth_m (furn item') = depth_m (furn item) /\
  rotation (furn item') = rotation (furn item).
Proof.
  intros Hsnap Hp Hscale (Hx & Hy). rewrite Hscale in Hx, Hy.
  pose proof (inject_Z_nonzero p Hp) as Hq.
  set (target := {| px := x_m (furn item) * inject_Z v;
                    py := y_m (furn item) * inject_Z v |}).
  destruct (QPointF_eqb (pos item) target) eqn:E.
  - rewrite (rescale_item_stays planner v item E).
    apply QPointF_eqb_true in E. destruct E as (Ex & Ey). simpl in Ex, Ey.
    cbv zeta. simpl.
    repeat match goal with |- _ /\ _ => split end;
      first [reflexivity | assumption | symmetry; assumption].
  - assert (Hq' : ~ inject_Z (scale item) == 0) by (rewrite Hscale; exact Hq).
    pose proof (rescale_rewrites_model_position planner v item Hsnap Hq' E)
      as (R1 & P1 & X1 & Y1).
    pose proof (rescale_item_spec planner v item R1) as (Hr & Hs & _ & N1 & W1 & D1 & T1).
    cbv zeta. rewrite Hscale in X1, Y1. rewrite P1, X1, Y1. simpl.
    repeat match goal with |- _ /\ _ => split end;
      first [assumption | reflexivity | field; exact Hq].
Qed.

(** One item rescaled to the scale it already has. *)
Lemma rescale_item_again (planner : RoomPlanner) (v : Z) (item : FurnitureItem) :
  snap_to_borders planner = false ->
  v <> 0%Z ->
  scale item = v ->
  let item' := fst (rescale_item planner v item) in
  snd (rescale_item planner v item) = Ret tt /\
  scale item' = v /\
  rect item' = {| width := width_m (furn item) * inject_Z v;
                  height := depth_m (furn item) * inject_Z v |} /\
  in_step item' /\
  x_m (furn item') == x_m (furn item) /\
  y_m (furn item') == y_m (furn item) /\
  name (furn item') = name (furn item) /\
  width_m (furn item') = width_m (furn item) /\
  depth_m (furn item') = depth_m (furn item) /\
  rotation (furn item') = rotation (furn item).
Proof.
  intros Hsnap Hv Hscale.
  pose proof (inject_Z_nonzero v Hv) as Hq.
  set (target := {| px := x_m (furn item) * inject_Z v;
                    py := y_m (furn item) * inject_Z v |}).
  destruct (QPointF_eqb (pos item) target) eqn:E.
  - rewrite (rescale_item_stays planner v item E).
    apply QPointF_eqb_true in E. destruct E as (Ex & Ey). simpl in Ex, Ey.
    cbv zeta. unfold in_step. simpl.
    repeat match goal with |- _ /\ _ => split end;
      first [reflexivity | assumption].
  - assert (Hq' : ~ inject_Z (scale item) == 0) by (rewrite Hscale; exact Hq).
    pose proof (rescale_rewrites_model_position planner v item Hsnap Hq' E)
      as (R1 & P1 & X1 & Y1).
    pose proof (rescale_item_spec planner v item R1) as (Hr & Hs & _ & N1 & W1 & D1 & T1).
    cbv zeta. rewrite Hscale in X1, Y1. unfold in_step. rewrite P1, X1, Y1, Hs. simpl.
    repeat match goal with |- _ /\ _ => split end;
      first [assumption | reflexivity | field; exact Hq].
Qed.

(** One item rescaled to a scale at which it already stands where its
    record says: only rectangle, scale and drawn rotation are set. *)
Lemma rescale_item_back (planner : RoomPlanner) (p : Z) (item : FurnitureItem) :
  x_m (furn item) * inject_Z p == px (pos item) ->
  y_m (furn item) * inject_Z p == py (pos item) ->
  let item' := fst (rescale_item planner p item) in
  snd (rescale_item planner p item) = Ret tt /\
  scale item' = p /\
  rect item' = {| width := width_m (furn item) * inject_Z p;
                  height := depth_m (furn item) * inject_Z p |} /\
  in_step item' /\
  furn item' = furn item /\
  pos item' = pos item.
Proof.
  intros Hx Hy.
  assert (E : QPointF_eqb (pos item)
                {| px := x_m (furn item) * inject_Z p;
                   py := y_m (furn item) * inject_Z p |} = true).
  { apply QPointF_eqb_true. simpl. split; symmetry; assumption. }
  rewrite (rescale_item_stays planner p item E). cbv zeta. unfold in_step. simpl.
  repeat match goal with |- _ /\ _ => split end;
    first [reflexivity | symmetry; assumption].
Qed.

(** [_set_canvas_scale] over items related to a list of original items:
    when the body returns on every related item and carries the relation
    on, the command returns and the relation holds over the whole list. *)
Lemma set_canvas_scale_related
    (Q Q' : FurnitureItem -> FurnitureItem -> Prop)
    (k : Z) (self : RoomPlanner) (originals : list FurnitureItem) :
  let planner := fst (draw_room_border (set_pixels_per_m k self)) in
  Forall2 Q originals (furniture_items self) ->
  (forall a b, Q a b ->
     snd (rescale_item planner k b) = Ret tt /\ Q' a (fst (rescale_item planner k b))) ->
  exists items,
    _set_canvas_scale k self = (set_furniture_items items planner, Ret tt) /\
    Forall2 Q' originals items.
Proof.
  intros planner HQ Hstep.
  exists (map (fun item => fst (rescale_item planner k item)) (furniture_items self)).
  split.
  - apply set_canvas_scale_returns. fold planner.
    clear - HQ Hstep. induction HQ as [|a b la lb Hab _ IH]; constructor.
    + apply (Hstep a b Hab).
    + exact IH.
  - clear - HQ Hstep. induction HQ as [|a b la lb Hab _ IH]; simpl; constructor.
    + apply (Hstep a b Hab).
    + exact IH.
Qed.

(** The dialog's calls into the main window. *)
Lemma on_parent_returns {A : Type} (c : SE RoomPlanner A) (P P' : RoomPlanner)
    (T : theme_name) (D : SettingsDialog) (a : A) :
  c P = (P', Ret a) ->
  on_parent c {| parent_window := P; current_theme := T; settings_dialog := D |} =
    ({| parent_window := P'; current_theme := T; settings_dialog := D |}, Ret a).
Proof. intros H. unfold on_parent. simpl. rewrite H. reflexivity. Qed.

Lemma apply_theme_returns (t : theme_name) (P : RoomPlanner) (T : theme_name)
    (D : SettingsDialog) :
  FloorTexture.mem (current_floor_texture P) = true ->
  apply_theme t {| parent_window := P; current_theme := T; settings_dialog := D |} =
    ({| parent_window := P; current_theme := t; settings_dialog := D |}, Ret tt).
Proof.
  intros H. unfold apply_theme, on_parent, _apply_theme. se_unfold. simpl.
  rewrite H. reflexivity.
Qed.

Lemma theme_combo_shows_current (P : RoomPlanner) (T : theme_name) :
  FloorTexture.mem (current_floor_texture P) = true ->
  theme_combo_setCurrentText T
    {| parent_window := P; current_theme := T; settings_dialog := SettingsDialog_init |} =
    ({| parent_window := P; current_theme := T;
        settings_dialog := {| theme_combo := T; scale_slider := 60 |} |}, Ret tt).
Proof.
  intros H. unfold theme_combo_setCurrentText, on_theme_changed.
  unfold bind at 1, get at 1. simpl.
  destruct T; simpl; try reflexivity.
  - unfold bind at 1, modify at 1. simpl. apply apply_theme_returns. exact H.
  - unfold bind at 1, modify at 1. simpl. apply apply_theme_returns. exact H.
Qed.

Lemma scale_slider_unmoved (k : Z) (P : RoomPlanner) (T : theme_name) (D : SettingsDialog) :
  (30 <= k <= 120)%Z ->
  k = scale_slider D ->
  scale_slider_setValue k
    {| parent_window := P; current_theme := T; settings_dialog := D |} =
    ({| parent_window := P; current_theme := T; settings_dialog := D |}, Ret tt).
Proof.
  intros Hk E. unfold scale_slider_setValue. unfold bind at 1, get at 1. simpl.
  rewrite Z.min_l, Z.max_r by lia. rewrite <- E, Z.eqb_refl. reflexivity.
Qed.

Lemma scale_slider_moved (k : Z) (P P' : RoomPlanner) (T : theme_name) (D : SettingsDialog) :
  (30 <= k <= 120)%Z ->
  k <> scale_slider D ->
  _set_canvas_scale k P = (P', Ret tt) ->
  scale_slider_setValue k
    {| parent_window := P; current_theme := T; settings_dialog := D |} =
    ({| parent_window := P'; current_theme := T;
        settings_dialog := {| theme_combo := theme_combo D; scale_slider := k |} |}, Ret tt).
Proof.
  intros Hk N H. unfold scale_slider_setValue. unfold bind at 1, get at 1. simpl.
  rewrite Z.min_l, Z.max_r by lia.
  destruct (Z.eqb_spec k (scale_slider D)) as [E|_]; [contradiction|].
  unfold bind at 1, modify at 1. simpl. unfold on_scale_changed.
  apply on_parent_returns. exact H.
Qed.

(** [show_settings] with one move of the scale slider, in terms of the
    calls of [_set_canvas_scale] it makes. *)
Lemma show_settings_cancelled (self P1 P2 P3 : RoomPlanner) (theme : theme_name) (v : Z) :
  FloorTexture.mem (current_floor_texture self) = true ->
  FloorTexture.mem (current_floor_texture P2) = true ->
  (30 <= v <= 120)%Z ->
  v <> pixels_per_m self ->
  pixels_per_m P1 = pixels_per_m self ->
  scale_slider_setValue (pixels_per_m self)
    {| parent_window := self; current_theme := theme;
       settings_dialog := {| theme_combo := theme; scale_slider := 60 |} |} =
    ({| parent_window := P1; current_theme := theme;
        settings_dialog := {| theme_combo := theme; scale_slider := pixels_per_m self |} |},
     Ret tt) ->
  _set_canvas_scale v P1 = (P2, Ret tt) ->
  _set_canvas_scale (pixels_per_m self) P2 = (P3, Ret tt) ->
  show_settings [MoveScaleSlider v] false (opening_settings self theme) =
    ({| parent_window := P3; current_theme := theme;
        settings_dialog := {| theme_combo := theme; scale_slider := v |} |}, Ret tt).
Proof.
  intros Hf Hf2 Hv Hne Hp1 H1 H2 H3.
  unfold show_settings, opening_settings.
  erewrite bind_Ret; [|reflexivity].
  erewrite bind_Ret; [|reflexivity].
  cbn [set_settings_dialog parent_window current_theme settings_dialog].
  erewrite bind_Ret; [|apply theme_combo_shows_current; exact Hf].
  erewrite bind_Ret; [|reflexivity].
  cbn [parent_window current_theme settings_dialog].
  erewrite bind_Ret; [|exact H1].
  erewrite bind_Ret; [|reflexivity].
  cbn [parent_window current_theme settings_dialog for_each settings_step].
  rewrite Hp1.
  erewrite bind_Ret; cycle 1.
  { erewrite bind_Ret; [reflexivity|].
    apply scale_slider_moved; [exact Hv | simpl; exact Hne | exact H2]. }
  cbn [theme_combo].
  erewrite bind_Ret; [|apply apply_theme_returns; exact Hf2].
  apply on_parent_returns. exact H3.
Qed.

Lemma show_settings_accepted (self P1 P2 P3 : RoomPlanner) (theme : theme_name) (v : Z) :
  FloorTexture.mem (current_floor_texture self) = true ->
  FloorTexture.mem (current_floor_texture P2) = true ->
  (30 <= v <= 120)%Z ->
  v <> pixels_per_m self ->
  pixels_per_m P1 = pixels_per_m self ->
  scale_slider_setValue (pixels_per_m self)
    {| parent_window := self; current_theme := theme;
       settings_dialog := {| theme_combo := theme; scale_slider := 60 |} |} =
    ({| parent_window := P1; current_theme := theme;
        settings_dialog := {| theme_combo := theme; scale_slider := pixels_per_m self |} |},
     Ret tt) ->
  _set_canvas_scale v P1 = (P2, Ret tt) ->
  _set_canvas_scale v P2 = (P3, Ret tt) ->
  show_settings [MoveScaleSlider v] true (opening_settings self theme) =
    ({| parent_window := state_after _save_settings P3; current_theme := theme;
        settings_dialog := {| theme_combo := theme; scale_slider := v |} |}, Ret tt).
Proof.
  intros Hf Hf2 Hv Hne Hp1 H1 H2 H3.
  unfold show_settings, opening_settings.
  erewrite bind_Ret; [|reflexivity].
  erewrite bind_Ret; [|reflexivity].
  cbn [set_settings_dialog parent_window current_theme settings_dialog].
  erewrite bind_Ret; [|apply theme_combo_shows_current; exact Hf].
  erewrite bind_Ret; [|reflexivity].
  cbn [parent_window current_theme settings_dialog].
  erewrite bind_Ret; [|exact H1].
  erewrite bind_Ret; [|reflexivity].
  cbn [parent_window current_theme settings_dialog for_each settings_step].
  erewrite bind_Ret; cycle 1.
  { erewrite bind_Ret; [reflexivity|].
    apply scale_slider_moved; [exact Hv | simpl; exact Hne | exact H2]. }
  unfold accept_and_apply, apply_settings.
  erewrite bind_Ret; [|reflexivity].
  cbn [parent_window current_theme settings_dialog theme_combo scale_slider].
  erewrite bind_Ret; [|apply apply_theme_returns; exact Hf2].
  erewrite bind_Ret; [|apply on_parent_returns; exact H3].
  apply on_parent_returns. reflexivity.
Qed.

(** What the slider's first [setValue] leaves: the window itself when the
    scale is 60, else the window rescaled to the scale it has. *)
Lemma scale_slider_shows_current (self : RoomPlanner) (theme : theme_name) :
  (30 <= pixels_per_m self <= 120)%Z ->
  Forall (fun item => scale item = pixels_per_m self /\ in_step item)
         (furniture_items self) ->
  exists P1,
    scale_slider_setValue (pixels_per_m self)
      {| parent_window := self; current_theme := theme;
         settings_dialog := {| theme_combo := theme; scale_slider := 60 |} |} =
      ({| parent_window := P1; current_theme := theme;
          settings_dialog :=
            {| theme_combo := theme; scale_slider := pixels_per_m self |} |}, Ret tt) /\
    pixels_per_m P1 = pixels_per_m self /\
    current_floor_texture P1 = current_floor_texture self /\
    snap_to_borders P1 = snap_to_borders self /\
    Forall2 (fun a b => scale b = pixels_per_m self /\ in_step b /\ furn b = furn a)
            (furniture_items self) (furniture_items P1).
Proof.
  intros Hp Hitems.
  assert (H0 : Forall2 (fun a b => scale b = pixels_per_m self /\ in_step b /\
                                   furn b = furn a)
                 (furniture_items self) (furniture_items self)).
  { clear Hp. induction Hitems as [|item rest (Hs & Hi) _ IH]; constructor; auto. }
  destruct (Z.eq_dec (pixels_per_m self) 60) as [E|N].
  - exists self. split.
    + rewrite E. apply scale_slider_unmoved; [lia | reflexivity].
    + repeat split; try reflexivity. exact H0.
  - destruct (set_canvas_scale_related
                (fun a b => scale b = pixels_per_m self /\ in_step b /\ furn b = furn a)
                (fun a b => scale b = pixels_per_m self /\ in_step b /\ furn b = furn a)
                (pixels_per_m self) self (furniture_items self)) as (items & Hrun & Hrel).
    + exact H0.
    + intros a b (Hs & (Hx & Hy) & Hf). rewrite Hs in Hx, Hy.
      destruct (rescale_item_back
                  (fst (draw_room_border (set_pixels_per_m (pixels_per_m self) self)))
                  (pixels_per_m self) b) as (R & S & _ & I & F & _);
        [symmetry; exact Hx | symmetry; exact Hy |].
      split; [exact R|]. split; [exact S|]. split; [exact I|]. rewrite F. exact Hf.
    + eexists. split.
      * apply scale_slider_moved; [exact Hp | simpl; exact N | exact Hrun].
      * repeat split; try reflexivity. exact Hrel.
Qed.

(** X17.  Changing the canvas scale in the settings dialog moves the
    furniture, and Cancel does not move it back.  Take a window with a
    known floor texture, snap-to-border off, a canvas scale p within the
    slider range [30, 120], and every piece standing where its record says;
    open the dialog, move the scale slider once, to v within the range and
    other than p, and close the dialog.  Either way [show_settings]
    returns, and the stored position of every piece has been multiplied by
    v/p.  After Cancel the canvas scale is p again and every piece has its
    old rectangle, but stands (and is stored) at its old position times
    v/p; after OK the scale is v and every piece stands at its stored
    position, which is the old one times v/p. *)
Theorem settings_dialog_moves_pieces (self : RoomPlanner) (theme : theme_name) (v : Z) :
  FloorTexture.mem (current_floor_texture self) = true ->
  snap_to_borders self = false ->
  (30 <= pixels_per_m self <= 120)%Z ->
  (30 <= v <= 120)%Z ->
  v <> pixels_per_m self ->
  Forall (fun item => scale item = pixels_per_m self /\ in_step item)
         (furniture_items self) ->
  let p := pixels_per_m self in
  let ratio := inject_Z v / inject_Z p in
  let run accepted :=
    show_settings [MoveScaleSlider v] accepted (opening_settings self theme) in
  let cancelled := parent_window (fst (run false)) in
  let accepted := parent_window (fst (run true)) in
  snd (run false) = Ret tt /\
  snd (run true) = Ret tt /\
  pixels_per_m cancelled = p /\
  pixels_per_m accepted = v /\
  Forall2
    (fun item item' =>
       scale item' = p /\
       in_step item' /\
       rect item' = {| width := width_m (furn item) * inject_Z p;
                       height := depth_m (furn item) * inject_Z p |} /\
       x_m (furn item') == x_m (furn item) * ratio /\
       y_m (furn item') == y_m (furn item) * ratio /\
       name (furn item') = name (furn item))
    (furniture_items self) (furniture_items cancelled) /\
  Forall2
    (fun item item' =>
       scale item' = v /\
       in_step item' /\
       rect item' = {| width := width_m (furn item) * inject_Z v;
                       height := depth_m (furn item) * inject_Z v |} /\
       x_m (furn item') == x_m (furn item) * ratio /\
       y_m (furn item') == y_m (furn item) * ratio /\
       name (furn item') = name (furn item))
    (furniture_items self) (furniture_items accepted).
Proof.
  intros Hfloor Hsnap Hp Hv Hne Hitems p ratio run cancelled accepted.
  assert (Hp0 : p <> 0%Z) by (subst p; lia).
  assert (Hv0 : v <> 0%Z) by lia.
  pose proof (inject_Z_nonzero p Hp0) as Hqp.
  pose proof (inject_Z_nonzero v Hv0) as Hqv.
  (* the slider is set to the current scale *)
  destruct (scale_slider_shows_current self theme Hp Hitems)
    as (P1 & Hrun1 & Hp1 & Hf1 & Hs1 & Hrel1).
  fold p in Hrun1, Hp1, Hrel1.
  (* the user moves the slider to v *)
  set (moved := fun a b : FurnitureItem =>
         scale b = v /\
         px (pos b) == x_m (furn a) * inject_Z v /\
         py (pos b) == y_m (furn a) * inject_Z v /\
         x_m (furn b) * inject_Z p == px (pos b) /\
         y_m (furn b) * inject_Z p == py (pos b) /\
         name (furn b) = name (furn a) /\
         width_m (furn b) = width_m (furn a) /\
         depth_m (furn b) = depth_m (furn a)).
  destruct (set_canvas_scale_related _ moved v P1 (furniture_items self) Hrel1)
    as (items2 & Hrun2 & Hrel2).
  { intros a b (Hs & Hi & Hf).
    destruct (rescale_item_from_step
                (fst (draw_room_border (set_pixels_per_m v P1))) p v b)
      as (R & S & _ & X & Y & LX & LY & N & W & D & _);
      [simpl; rewrite Hs1; exact Hsnap | exact Hp0 | exact Hs | exact Hi |].
    split; [exact R|]. unfold moved. rewrite <- Hf.
    repeat match goal with |- _ /\ _ => split end; assumption. }
  set (P2 := set_furniture_items items2 (fst (draw_room_border (set_pixels_per_m v P1))))
    in *.
  assert (Hf2 : FloorTexture.mem (current_floor_texture P2) = true).
  { change (current_floor_texture P2) with (current_floor_texture P1).
    rewrite Hf1. exact Hfloor. }
  assert (Hs2 : snap_to_borders P2 = false).
  { change (snap_to_borders P2) with (snap_to_borders P1). rewrite Hs1. exact Hsnap. }
  change (furniture_items self) with (furniture_items self) in Hrel2.
  assert (Hrel2' : Forall2 moved (furniture_items self) (furniture_items P2))
    by exact Hrel2.
  (* Cancel: back to p *)
  destruct (set_canvas_scale_related moved
              (fun a b =>
                 scale b = p /\ in_step b /\
                 rect b = {| width := width_m (furn a) * inject_Z p;
                             height := depth_m (furn a) * inject_Z p |} /\
                 x_m (furn b) == x_m (furn a) * ratio /\
                 y_m (furn b) == y_m (furn a) * ratio /\
                 name (furn b) = name (furn a))
              p P2 (furniture_items self) Hrel2') as (items3 & Hrun3 & Hrel3).
  { intros a b (Hs & X & Y & LX & LY & N & W & D).
    destruct (rescale_item_back (fst (draw_room_border (set_pixels_per_m p P2))) p b LX LY)
      as (R & S & Rect & I & F & _).
    split; [exact R|]. rewrite F, Rect, W, D.
    split; [exact S|]. split; [exact I|]. split; [reflexivity|].
    subst ratio. split; [|split; [|exact N]].
    - rewrite X in LX. rewrite <- (Qmult_inj_r _ _ (inject_Z p) Hqp). rewrite LX.
      field. exact Hqp.
    - rewrite Y in LY. rewrite <- (Qmult_inj_r _ _ (inject_Z p) Hqp). rewrite LY.
      field. exact Hqp. }
  (* OK: to v once more *)
  destruct (set_canvas_scale_related moved
              (fun a b =>
                 scale b = v /\ in_step b /\
                 rect b = {| width := width_m (furn a) * inject_Z v;
                             height := depth_m (furn a) * inject_Z v |} /\
                 x_m (furn b) == x_m (furn a) * ratio /\
                 y_m (furn b) == y_m (furn a) * ratio /\
                 name (furn b) = name (furn a))
              v P2 (furniture_items self) Hrel2') as (items4 & Hrun4 & Hrel4).
  { intros a b (Hs & X & Y & LX & LY & N & W & D).
    destruct (rescale_item_again (fst (draw_room_border (set_pixels_per_m v P2))) v b)
      as (R & S & Rect & I & EX & EY & N' & _);
      [exact Hs2 | exact Hv0 | exact Hs |].
    split; [exact R|]. rewrite Rect, W, D, N'.
    split; [exact S|]. split; [exact I|]. split; [reflexivity|].
    subst ratio. split; [|split; [|exact N]].
    - rewrite EX. rewrite X in LX. rewrite <- (Qmult_inj_r _ _ (inject_Z p) Hqp).
      rewrite LX. field. exact Hqp.
    - rewrite EY. rewrite Y in LY. rewrite <- (Qmult_inj_r _ _ (inject_Z p) Hqp).
      rewrite LY. field. exact Hqp. }
  pose proof (show_settings_cancelled self P1 P2 _ theme v
                Hfloor Hf2 Hv Hne Hp1 Hrun1 Hrun2 Hrun3) as RunC.
  pose proof (show_settings_accepted self P1 P2 _ theme v
                Hfloor Hf2 Hv Hne Hp1 Hrun1 Hrun2 Hrun4) as RunA.
  subst cancelled accepted run. cbv beta. rewrite RunC, RunA. simpl fst. simpl snd.
  cbn [parent_window].
  split; [reflexivity|]. split; [reflexivity|]. split; [reflexivity|].
  split; [reflexivity|]. split; [exact Hrel3 | exact Hrel4].
Qed.

Lemma settings_dialog_moves_pieces_witness :
  Forall2
    (fun item item' => x_m (furn item') == x_m (furn item) * (inject_Z 120 / inject_Z 60))
    (furniture_items sample_with_door)
    (furniture_items
       (parent_window
          (fst (show_settings [MoveScaleSlider 120] false
                  (opening_settings sample_with_door Light))))).
Proof.
  assert (H1 : FloorTexture.mem (current_floor_texture sample_with_door) = true)
    by (vm_compute; reflexivity).
  assert (H2 : snap_to_borders sample_with_door = false) by (vm_compute; reflexivity).
  assert (H3 : (30 <= pixels_per_m sample_with_door <= 120)%Z)
    by (change (pixels_per_m sample_with_door) with 60%Z; lia).
  assert (H4 : (30 <= 120 <= 120)%Z) by lia.
  assert (H5 : 120%Z <> pixels_per_m sample_with_door) by (vm_compute; discriminate).
  assert (H6 : Forall (fun item => scale item = pixels_per_m sample_with_door /\
                                   in_step item)
                 (furniture_items sample_with_door)).
  { repeat constructor; vm_compute; reflexivity. }
  destruct (settings_dialog_moves_pieces sample_with_door Light 120 H1 H2 H3 H4 H5 H6)
    as (_ & _ & _ & _ & F & _).
  refine (Forall2_impl _ _ F). intros item item' (_ & _ & _ & Hx & _). exact Hx.
Defined.

(* ------------------------------------------------------------------ *)
(** ** The clamp, once more *)

Lemma py_clamp_idempotent (v hi : Q) :
  py_max 0 (py_min (py_max 0 (py_min v hi)) hi) = py_max 0 (py_min v hi).
Proof. unfold py_max, py_min. q_cases; try reflexivity; lra. Qed.

Lemma py_clamp_monotone (v w hi : Q) :
  v <= w -> py_max 0 (py_min v hi) <= py_max 0 (py_min w hi).
Proof. intros H. unfold py_max, py_min. q_cases; lra. Qed.

(** X18.  The answer of [itemChange] to a proposed position is stable and
    keeps the order of positions: asked again with its own answer it gives
    the same answer, exactly; and of two proposed positions the one further
    right (further down) is never answered with a position further left
    (further up).  This holds with snap-to-border on and off, and also for
    an item larger than the room. *)
Theorem clamp_is_stable_and_monotone
    (parent_planner : RoomPlanner) (self : FurnitureItem) (p q : QPointF) :
  let answer := itemChange_ItemPositionChange parent_planner self in
  answer (answer p) = answer p /\
  (px p <= px q -> px (answer p) <= px (answer q)) /\
  (py p <= py q -> py (answer p) <= py (answer q)).
Proof.
  unfold itemChange_ItemPositionChange.
  destruct (snap_to_borders parent_planner); cbv zeta.
  - simpl. rewrite !py_clamp_idempotent.
    split; [reflexivity|]. split; intros H; apply py_clamp_monotone; exact H.
  - split; [reflexivity|]. split; intros H; exact H.
Qed.

Lemma clamp_is_stable_and_monotone_witness :
  let planner := state_after click_snap_checkbox sample_with_door in
  px (itemChange_ItemPositionChange planner quarter_turned_piece {| px := -30; py := 7 |}) <=
  px (itemChange_ItemPositionChange planner quarter_turned_piece {| px := 2000; py := 7 |}).
Proof.
  intros planner.
  apply (clamp_is_stable_and_monotone planner quarter_turned_piece
           {| px := -30; py := 7 |} {| px := 2000; py := 7 |}).
  simpl. lra.
Defined.

(* ------------------------------------------------------------------ *)
(** ** Duplicating *)

(** X20.  Duplicating is copying and pasting, clipboard included.  With a
    selected piece and a canvas scale that is not zero,
    [duplicate_selected_furniture] returns; afterwards the clipboard holds
    the selected piece's name, size, colour and rotation, whatever it held
    before, and one piece has been appended: it carries the selected
    piece's name with the suffix (Copy), its size, colour and rotation, and
    its stored position is the middle of the room, not the position of the
    piece it was made from. *)
Theorem duplicate_replaces_clipboard (self : RoomPlanner) (i : nat) (source : FurnitureItem) :
  nth_error (furniture_items self) i = Some source ->
  pixels_per_m self <> 0%Z ->
  let after := state_after (duplicate_selected_furniture (Some i)) self in
  result_of (duplicate_selected_furniture (Some i)) self = Ret tt /\
  clipboard_furniture after =
    Some {| clip_name := name (furn source);
            clip_width_m := width_m (furn source);
            clip_depth_m := depth_m (furn source);
            clip_colour := colour (furn source);
            clip_rotation := rotation (furn source) |} /\
  exists piece,
    furniture_items after = furniture_items self ++ [piece] /\
    list_widget after = list_widget self ++ [FurnitureEntry (name (furn piece))] /\
    name (furn piece) = (name (furn source) ++ " (Copy)")%string /\
    width_m (furn piece) = width_m (furn source) /\
    depth_m (furn piece) = depth_m (furn source) /\
    colour (furn piece) = colour (furn source) /\
    rotation (furn piece) = rotation (furn source) /\
    x_m (furn piece) == room_width_m self / 2 /\
    y_m (furn piece) == room_depth_m self / 2.
Proof.
  intros Hi Hs after.
  set (c := {| clip_name := name (furn source);
               clip_width_m := width_m (furn source);
               clip_depth_m := depth_m (furn source);
               clip_colour := colour (furn source);
               clip_rotation := rotation (furn source) |}).
  set (copied := set_clipboard_furniture (Some c) self).
  assert (E : duplicate_selected_furniture (Some i) self = paste_furniture None copied).
  { unfold duplicate_selected_furniture, copy_furniture. unfold bind at 1. unfold get at 1.
    rewrite Hi. reflexivity. }
  pose proof (paste_furniture_center_run copied c eq_refl Hs) as (_ & Hrun).
  cbv zeta in Hrun.
  pose proof (inject_Z_nonzero _ Hs) as Hq.
  change (pixels_per_m copied) with (pixels_per_m self) in Hrun.
  change (room_width_m copied) with (room_width_m self) in Hrun.
  change (room_depth_m copied) with (room_depth_m self) in Hrun.
  set (ppm := inject_Z (pixels_per_m self)) in *.
  set (centre := {| px := room_width_m self * ppm / 2;
                    py := room_depth_m self * ppm / 2 |}) in *.
  set (item0 := FurnitureItem_init _ (pixels_per_m self)) in *.
  pose proof (setPos_frame copied centre item0) as F. cbv zeta in F.
  destruct F as (F1 & F2 & F3 & F4 & F5 & _).
  subst after. unfold state_after, result_of. rewrite E, Hrun.
  split; [reflexivity|]. split; [reflexivity|].
  eexists. split; [reflexivity|]. split; [reflexivity|]. simpl.
  split; [exact F1|]. split; [exact F2|]. split; [exact F3|]. split; [exact F4|].
  split; [exact F5|]. split; field; exact Hq.
Qed.

Lemma duplicate_replaces_clipboard_witness :
  exists c,
    clipboard_furniture
      (state_after (duplicate_selected_furniture (Some 0%nat)) sample_with_door) = Some c /\
    clip_name c = "Item 1"%string.
Proof.
  destruct (duplicate_replaces_clipboard sample_with_door 0
              (fst (setPos first_start {| px := 60; py := 30 |}
                      (FurnitureItem_init
                         {| name := "Item 1"; width_m := to_m 72 U_in;
                            depth_m := to_m 36 U_in; colour := "#4a90e2"%string;
                            x_m := 0.0; y_m := 0.0; rotation := 0.0 |} 60))))
    as (_ & Hclip & _).
  - vm_compute. reflexivity.
  - vm_compute. discriminate.
  - eexists. split; [exact Hclip|]. vm_compute. reflexivity.
Defined.

(* ------------------------------------------------------------------ *)
(** ** Sessions in which the canvas scale is never zero *)

Section Runs.
Variable P : RoomPlanner -> Prop.

Lemma runs_ret {A : Type} (a : A) : runs P (ret a).
Proof. intros s H. split; [exact H | exists a; reflexivity]. Qed.

Lemma runs_get : runs P get.
Proof. intros s H. split; [exact H | exists s; reflexivity]. Qed.

Lemma runs_modify (f : RoomPlanner -> RoomPlanner) :
  (forall s, P s -> P (f s)) -> runs P (modify f).
Proof. intros Hf s H. split; [apply Hf; exact H | exists tt; reflexivity]. Qed.

Lemma runs_bind {A B : Type} (c : SE RoomPlanner A) (k : A -> SE RoomPlanner B) :
  runs P c -> (forall a, runs P (k a)) -> runs P (bind c k).
Proof.
  intros Hc Hk s H. unfold bind. destruct (Hc s H) as (H1 & a & Ha).
  destruct (c s) as [s' o]. simpl in H1, Ha. subst o. apply Hk. exact H1.
Qed.

Lemma runs_for_each {A : Type} (l : list A) (body : A -> SE RoomPlanner unit) :
  (forall x, runs P (body x)) -> runs P (for_each l body).
Proof.
  intros Hb. induction l as [|x rest IH]; simpl.
  - apply runs_ret.
  - apply runs_bind; [apply Hb | intros _; exact IH].
Qed.

Lemma runs_try_except {A : Type} (body : SE RoomPlanner A)
    (handler : exn -> SE RoomPlanner A) :
  keeps P body -> (forall e, runs P (handler e)) -> runs P (try_except body handler).
Proof.
  intros Hb Hh s H. unfold try_except. specialize (Hb s H).
  destruct (body s) as [s' [a|e]]; simpl in *.
  - split; [exact Hb | exists a; reflexivity].
  - apply Hh. exact Hb.
Qed.

Lemma runs_keeps {A : Type} (c : SE RoomPlanner A) : runs P c -> keeps P c.
Proof. intros Hc s H. apply (Hc s H). Qed.
End Runs.

Create HintDb steady discriminated.

Ltac runs_steps :=
  repeat first
    [ solve [auto 1 with steady]
    | match goal with
      | |- runs _ (ret _) => apply runs_ret
      | |- runs _ get => apply runs_get
      | |- runs _ (bind _ _) => apply runs_bind; [|intros ?]
      | |- runs _ (for_each _ _) => apply runs_for_each; intros ?
      | |- runs _ (modify _) => apply runs_modify; intros ? ?
      | |- runs _ (match ?x with _ => _ end) => destruct x
      end ].

Ltac steady_done :=
  match goal with
  | H : steady _ |- steady _ => exact H
  end.

Ltac steady_runs := runs_steps; try steady_done.

Lemma steady_add_items (items : list FurnitureItem) (self : RoomPlanner) :
  steady self -> Forall (drawn_to_scale self) items -> steady (add_items items self).
Proof.
  intros (Hs & Hf & Hr) Hi. unfold steady, add_items. simpl.
  split; [exact Hs|]. split; [|exact Hr].
  apply Forall_app. split; assumption.
Qed.

Lemma setPos_drawn (planner self : RoomPlanner) (p : QPointF) (item : FurnitureItem) :
  drawn_to_scale self item -> drawn_to_scale self (fst (setPos planner p item)).
Proof.
  intros (Hs & Hr & Ht).
  pose proof (setPos_frame planner p item) as F. cbv zeta in F.
  destruct F as (_ & F2 & F3 & _ & F5 & F6 & F7 & F8).
  unfold drawn_to_scale. rewrite F2, F3, F5, F6, F7, F8. auto.
Qed.

Lemma setPos_returns (planner : RoomPlanner) (p : QPointF) (item : FurnitureItem) :
  ~ inject_Z (scale item) == 0 -> snd (setPos planner p item) = Ret tt.
Proof.
  intros Hs. pose proof (setPos_cases planner p item) as C. cbv zeta in C.
  rewrite (proj2 (Qeq_bool_false_neq _) Hs) in C.
  destruct (_ || _); [rewrite C; reflexivity | apply C].
Qed.

Lemma init_drawn (self : RoomPlanner) (f : Furniture) :
  drawn_to_scale self (FurnitureItem_init f (pixels_per_m self)).
Proof. unfold drawn_to_scale. simpl. auto. Qed.

Lemma loaded_item_drawn (self : RoomPlanner) (f : Furniture) :
  drawn_to_scale self (loaded_item self f).
Proof. unfold loaded_item. apply setPos_drawn. apply init_drawn. Qed.

Lemma rotate_90_drawn (self : RoomPlanner) (item : FurnitureItem) :
  drawn_to_scale self item -> drawn_to_scale self (rotate_90 item).
Proof. intros (Hs & Hr & Ht). unfold drawn_to_scale, rotate_90. simpl. auto. Qed.

Lemma rescale_item_returns (planner : RoomPlanner) (k : Z) (item : FurnitureItem) :
  ~ inject_Z (scale item) == 0 -> snd (rescale_item planner k item) = Ret tt.
Proof.
  intros Hs. rewrite rescale_item_run. cbv zeta.
  set (resized := setRect _ _ item). set (p := {| px := _; py := _ |}).
  pose proof (setPos_returns planner p resized Hs) as R.
  destruct (setPos planner p resized) as [moved o]. simpl in R. subst o. reflexivity.
Qed.

Lemma on_add_furniture_runs : runs steady on_add_furniture.
Proof.
  intros s H. rewrite on_add_furniture_spec. simpl. split; [|exists tt; reflexivity].
  apply (steady_add_items _ s H). constructor; [apply init_drawn | constructor].
Qed.

Lemma drag_furniture_item_runs (i : nat) (p : QPointF) :
  runs steady (drag_furniture_item i p).
Proof.
  intros s H.
  destruct (nth_error (furniture_items s) i) as [item|] eqn:E; cycle 1.
  { assert (Hrun : drag_furniture_item i p s = (s, Ret tt)).
    { unfold drag_furniture_item. unfold bind at 1, get at 1. rewrite E. reflexivity. }
    rewrite Hrun. split; [exact H | exists tt; reflexivity]. }
  destruct H as (Hs & Hf & Hr).
  assert (Hd : drawn_to_scale s item).
  { rewrite Forall_forall in Hf. apply Hf. apply (nth_error_In _ _ E). }
  assert (Hq : ~ inject_Z (scale item) == 0).
  { destruct Hd as (-> & _). apply inject_Z_nonzero. exact Hs. }
  pose proof (setPos_returns s p item Hq) as R.
  pose proof (setPos_drawn s s p item Hd) as D.
  assert (Hrun : drag_furniture_item i p s =
            (set_furniture_items
               (update_nth i (fun _ => fst (setPos s p item)) (furniture_items s)) s,
             Ret tt)).
  { unfold drag_furniture_item. unfold bind at 1, get at 1. rewrite E.
    destruct (setPos s p item) as [item' o]. simpl in R. subst o. reflexivity. }
  rewrite Hrun. simpl. split; [|exists tt; reflexivity].
  unfold steady. simpl. split; [exact Hs|]. split; [|exact Hr].
  apply Forall_update_nth; [intros _ _; exact D | exact Hf].
Qed.

Lemma rotate_selected_furniture_runs (selected : list nat) :
  runs steady (rotate_selected_furniture selected).
Proof.
  unfold rotate_selected_furniture. apply runs_for_each. intros i.
  apply runs_modify. intros s (Hs & Hf & Hr). unfold steady. simpl.
  split; [exact Hs|]. split; [|exact Hr].
  apply Forall_update_nth; [apply rotate_90_drawn | exact Hf].
Qed.

Lemma copy_furniture_runs (f : Furniture) : runs steady (copy_furniture f).
Proof. unfold copy_furniture. steady_runs. Qed.
#[local] Hint Resolve copy_furniture_runs : steady.

Lemma paste_furniture_center_runs : runs steady (paste_furniture None).
Proof.
  intros s H. destruct (clipboard_furniture s) as [c|] eqn:Hc.
  - destruct H as (Hs & Hf & Hr).
    pose proof (paste_furniture_center_run s c Hc Hs) as (_ & Hrun). cbv zeta in Hrun.
    rewrite Hrun. simpl. split; [|exists tt; reflexivity].
    apply steady_add_items; [split; [exact Hs | split; assumption]|].
    constructor; [|constructor].
    set (centre := {| px := _; py := _ |}).
    set (item0 := FurnitureItem_init _ (pixels_per_m s)).
    pose proof (setPos_drawn s s centre item0 (init_drawn s _)) as (D1 & D2 & D3).
    unfold drawn_to_scale. simpl. auto.
  - assert (Hrun : paste_furniture None s = (s, Ret tt)).
    { unfold paste_furniture. unfold bind at 1, get at 1. rewrite Hc. reflexivity. }
    rewrite Hrun. split; [exact H | exists tt; reflexivity].
Qed.
#[local] Hint Resolve paste_furniture_center_runs : steady.

Lemma add_door_runs (dialog : option DialogInput) : runs steady (add_door dialog).
Proof.
  intros s H.
  destruct (next_available_total s "Door " (door_counter s)) as (n & Hn & _).
  unfold add_door, _add_door_to_list. se_unfold.
  destruct (_room_rect_item s) eqn:Hroom; [|split; [exact H | eexists; reflexivity]].
  rewrite Hn. destruct dialog; simpl; (split; [|eexists; reflexivity]);
    destruct H as (Hs & Hf & Hr); (split; [exact Hs|]); (split; [exact Hf|]);
    simpl; congruence.
Qed.

Lemma add_window_runs (dialog : option DialogInput) : runs steady (add_window dialog).
Proof.
  intros s H.
  destruct (next_available_total s "Window " (window_counter s)) as (n & Hn & _).
  unfold add_window, _add_door_to_list. se_unfold.
  destruct (_room_rect_item s) eqn:Hroom; [|split; [exact H | eexists; reflexivity]].
  rewrite Hn. destruct dialog; simpl; (split; [|eexists; reflexivity]);
    destruct H as (Hs & Hf & Hr); (split; [exact Hs|]); (split; [exact Hf|]);
    simpl; congruence.
Qed.

Lemma new_room_runs : runs steady new_room.
Proof.
  intros s (Hs & _ & _). unfold new_room, draw_room_border. se_unfold. simpl.
  split; [|exists tt; reflexivity]. unfold steady. simpl.
  split; [exact Hs|]. split; [constructor | reflexivity].
Qed.

Lemma on_room_apply_runs : runs steady on_room_apply.
Proof.
  intros s (Hs & Hf & _). unfold on_room_apply, draw_room_border. se_unfold. simpl.
  split; [|exists tt; reflexivity]. unfold steady. simpl.
  split; [exact Hs|]. split; [exact Hf | reflexivity].
Qed.

Lemma set_canvas_scale_runs (k : Z) : k <> 0%Z -> runs steady (_set_canvas_scale k).
Proof.
  intros Hk s (Hs & Hf & _).
  set (planner := fst (draw_room_border (set_pixels_per_m k s))).
  assert (Each : forall item, In item (furniture_items s) ->
            snd (rescale_item planner k item) = Ret tt /\
            drawn_to_scale planner (fst (rescale_item planner k item))).
  { intros item Hin. rewrite Forall_forall in Hf. destruct (Hf item Hin) as (Hsc & _).
    assert (R : snd (rescale_item planner k item) = Ret tt).
    { apply rescale_item_returns. rewrite Hsc. apply inject_Z_nonzero. exact Hs. }
    split; [exact R|].
    destruct (rescale_item_spec planner k item R) as (Hr & Hs' & Ht & _ & Hw & Hd & Hro).
    unfold drawn_to_scale. rewrite Hr, Hs', Ht, Hw, Hd, Hro. auto. }
  rewrite (set_canvas_scale_returns k s).
  - simpl. split; [|exists tt; reflexivity]. unfold steady. simpl.
    split; [exact Hk|]. split; [|reflexivity].
    apply Forall_forall. intros item' Hin. apply in_map_iff in Hin.
    destruct Hin as (item & <- & Hin). apply (Each item Hin).
  - apply Forall_forall. intros item Hin. apply (Each item Hin).
Qed.

Lemma room_loaded_rect (d : layout_data) (self : RoomPlanner) :
  _room_rect_item (room_loaded d self) =
    Some {| width := dict_get (rd_width_m (room_object d)) 5.0 *
                     inject_Z (pixels_per_m self);
            height := dict_get (rd_depth_m (room_object d)) 4.0 *
                      inject_Z (pixels_per_m self) |}.
Proof.
  unfold room_loaded, room_object, new_room, update_ui_from_room, draw_room_border,
    floor_combo_setCurrentText. se_unfold.
  simpl. destruct (FloorTexture.mem _); reflexivity.
Qed.

Lemma room_restored_rect (d : layout_data) (self : RoomPlanner) :
  _room_rect_item (room_restored d self) =
    Some {| width := dict_get (rd_width_m (room_object d)) (room_width_m self) *
                     inject_Z (pixels_per_m self);
            height := dict_get (rd_depth_m (room_object d)) (room_depth_m self) *
                      inject_Z (pixels_per_m self) |}.
Proof.
  unfold room_restored, room_object, update_ui_from_room, draw_room_border,
    floor_combo_setCurrentText. se_unfold.
  simpl. destruct (FloorTexture.mem _); reflexivity.
Qed.

Lemma loaded_items_drawn (s : RoomPlanner) (fs : list Furniture) :
  Forall (drawn_to_scale s) (map (loaded_item s) fs).
Proof. induction fs; simpl; constructor; [apply loaded_item_drawn | assumption]. Qed.

Lemma state_after_fst {A} (c : SE RoomPlanner A) (s : RoomPlanner) : state_after c s = fst (c s).
Proof. reflexivity. Qed.
Lemma result_of_snd {A} (c : SE RoomPlanner A) (s : RoomPlanner) : result_of c s = snd (c s).
Proof. reflexivity. Qed.

Lemma load_layout_runs (filename : option file) : runs steady (load_layout filename).
Proof.
  intros self H. destruct filename as [[|[| |d]]|].
  - split; [exact H | eexists; reflexivity].
  - split; [exact H | eexists; reflexivity].
  - destruct (new_room_runs self H) as (Hk & _).
    split; [exact Hk | eexists; reflexivity].
  - pose proof (load_layout_document d self) as L. cbv zeta in L.
    rewrite !state_after_fst, !result_of_snd in L.
    pose proof (room_loaded_fields d self) as F. cbv zeta in F.
    destruct F as (_ & Fw & Fd & _ & _ & Fi & _ & _ & _ & _ & _ & Fp).
    assert (S0 : steady (room_loaded d self)).
    { destruct H as (Hs & _ & _). unfold steady. rewrite Fi, Fp, Fw, Fd.
      split; [exact Hs|]. split; [constructor|]. apply room_loaded_rect. }
    destruct (floor_known_or_not (room_loaded d self)) as [K|K]; rewrite K in L.
    + destruct L as (Hst & Hres). rewrite Hst. split.
      * apply steady_add_items; [exact S0 | apply loaded_items_drawn].
      * destruct Hres as [(_ & ->)|(_ & key & ->)]; eexists; reflexivity.
    + destruct L as (Hst & Hres).
      rewrite Hst, Hres. split; [exact S0 | eexists; reflexivity].
  - split; [exact H | eexists; reflexivity].
Qed.

Lemma load_cached_room_runs : runs steady _load_cached_room.
Proof.
  intros self H.
  pose proof (load_cached_room_shape self) as (Hres & Hshape).
  rewrite result_of_snd in Hres. split; [|exists tt; exact Hres].
  rewrite state_after_fst in Hshape.
  destruct (s_cached_room (settings self)) as [[| |d]|]; try (rewrite Hshape; exact H).
  cbv zeta in Hshape. rewrite Hshape.
  pose proof (room_restored_fields d self) as F. cbv zeta in F.
  destruct F as (_ & Fw & Fd & _ & _ & Fi & _ & _ & _ & Fp).
  apply steady_add_items; [|apply loaded_items_drawn].
  destruct H as (Hs & Hf & _). unfold steady. rewrite Fi, Fp, Fw, Fd.
  split; [exact Hs|]. split; [|apply room_restored_rect].
  clear - Hf Fp. induction Hf as [|item rest (H1 & H2 & H3) _ IH]; constructor;
    [|exact IH].
  unfold drawn_to_scale. rewrite Fp. auto.
Qed.

Lemma unit_display_runs :
  runs steady _update_room_unit_display /\ runs steady _update_furniture_unit_display.
Proof.
  unfold _update_room_unit_display, _update_furniture_unit_display.
  split; cbv zeta; steady_runs.
Qed.

Lemma execute_runs (c : command) : sets_nonzero_scale (Do c) -> runs steady (execute c).
Proof.
  intros Hc. destruct unit_display_runs as (Ur & Uf).
  destruct c; simpl in Hc |- *;
    first
      [ apply on_room_apply_runs
      | apply on_add_furniture_runs
      | apply drag_furniture_item_runs
      | apply rotate_selected_furniture_runs
      | apply new_room_runs
      | apply set_canvas_scale_runs; exact Hc
      | apply runs_bind;
        [ first [apply add_door_runs | apply add_window_runs | apply load_layout_runs]
        | intros; apply runs_ret ]
      | unfold edit_room_name_input, on_room_name_changed, edit_room_w_spin,
          edit_room_d_spin, select_room_w_unit, select_room_d_unit, click_snap_checkbox,
          toggle_snap_to_borders, on_floor_changed, edit_f_w_spin, edit_f_d_spin,
          select_f_w_unit, select_f_d_unit, copy_selected_furniture,
          paste_furniture_center, duplicate_selected_furniture, _save_settings,
          _cache_current_room; steady_runs ].
Qed.

Lemma perform_runs (a : action) : sets_nonzero_scale a -> runs steady (perform a).
Proof.
  intros Ha. destruct a as [c|i|i|i|i p|i]; simpl.
  - apply execute_runs. exact Ha.
  - unfold on_door_item. steady_runs.
  - unfold on_door_item. steady_runs.
  - unfold on_door_item. steady_runs.
  - unfold on_door_item. steady_runs.
  - unfold delete_self, _remove_door_from_list. steady_runs.
Qed.

Lemma init_runs (stored : QSettings) :
  stored_ok stored ->
  steady (fst (RoomPlanner_init stored)) /\ snd (RoomPlanner_init stored) = Ret tt.
Proof.
  intros (Hk & _ & _).
  destruct (init_runs_to_cache stored)
    as (pre & Hinit & _ & Hppm & _ & _ & Hf & _ & _ & _ & _ & Hrect).
  assert (H0 : steady pre).
  { unfold steady. rewrite Hf, Hppm. split; [exact Hk|]. split; [constructor|].
    rewrite <- Hppm. exact Hrect. }
  rewrite Hinit. destruct (load_cached_room_runs pre H0) as (H1 & [] & H2).
  split; assumption.
Qed.

Lemma steady_session_steady (self : RoomPlanner) : steady_session self -> steady self.
Proof.
  induction 1 as [stored Hok | self a _ IH Ha _].
  - apply init_runs. exact Hok.
  - apply (perform_runs a Ha self IH).
Qed.

(** X21.  No command fails while the canvas scale is not zero.  Start the
    window from stored settings whose canvas scale is not zero, and never
    set the scale to zero (the settings slider cannot; borders are taken
    to be shown in what is loaded, so that no load switches the border
    check box).  Then [__init__] returns, and every command of the window
    and every action on a door or window returns without an exception,
    at every point of the session: no [ZeroDivisionError] from
    [itemChange] or from pasting, no [KeyError] that is not caught.  And at
    every point every piece of furniture carries the canvas scale, has the
    rectangle of its record at that scale and is drawn at its record's
    rotation, and the room rectangle is the room at the canvas scale. *)
Theorem steady_session_never_raises :
  (forall stored : QSettings,
     stored_ok stored -> snd (RoomPlanner_init stored) = Ret tt) /\
  (forall (self : RoomPlanner) (a : action),
     steady_session self ->
     sets_nonzero_scale a ->
     keeps_border_checkbox self a ->
     result_of (perform a) self = Ret tt /\
     pixels_per_m self <> 0%Z /\
     Forall (drawn_to_scale self) (furniture_items self) /\
     _room_rect_item self =
       Some {| width := room_width_m self * inject_Z (pixels_per_m self);
               height := room_depth_m self * inject_Z (pixels_per_m self) |}).
Proof.
  split.
  - intros stored Hok. apply init_runs. exact Hok.
  - intros self a Hs Ha _.
    pose proof (steady_session_steady self Hs) as H.
    destruct (perform_runs a Ha self H) as (_ & [] & Hres).
    split; [exact Hres | exact H].
Qed.

Lemma steady_session_never_raises_witness :
  stored_ok no_settings /\
  snd (RoomPlanner_init no_settings) = Ret tt /\
  result_of (perform (Do (Drag 0 {| px := 10; py := 10 |})))
    (state_after (perform (Do AddFurniture)) (fst (RoomPlanner_init no_settings))) = Ret tt.
Proof.
  assert (Hok : stored_ok no_settings).
  { unfold stored_ok. simpl. split; [discriminate | split; [reflexivity | exact I]]. }
  destruct steady_session_never_raises as (Hinit & Hstep).
  split; [exact Hok|]. split; [apply Hinit; exact Hok|].
  apply Hstep; [|exact I | exact I].
  apply steady_step; [apply steady_start; exact Hok | exact I | exact I].
Defined.

(* ------------------------------------------------------------------ *)
(** ** The list widget and the canvas *)

Lemma furniture_names_entries (items : list FurnitureItem) :
  furniture_names (map (fun item => FurnitureEntry (name (furn item))) items) =
    map (fun item => name (furn item)) items.
Proof. induction items as [|item rest IH]; simpl; [|rewrite IH]; reflexivity. Qed.

Lemma listed_add_items (items : list FurnitureItem) (self : RoomPlanner) :
  furniture_listed self -> furniture_listed (add_items items self).
Proof.
  intros H. unfold furniture_listed, add_items in *. simpl.
  rewrite furniture_names_app, map_app, furniture_names_entries, H. reflexivity.
Qed.

Lemma take_first_opening_furniture (door_name : string) (l : list ListEntry) :
  furniture_names (take_first_opening door_name l) = furniture_names l.
Proof.
  induction l as [|[n|n d] l IH]; simpl; [reflexivity | rewrite IH; reflexivity |].
  destruct (String.eqb n door_name); [reflexivity | exact IH].
Qed.

Lemma entries_split (l : list ListEntry) :
  length l = (length (furniture_names l) + length (opening_names l))%nat.
Proof. induction l as [|[n|n d] l IH]; simpl; lia. Qed.

Lemma rescale_item_name (planner : RoomPlanner) (k : Z) (item : FurnitureItem) :
  name (furn (fst (rescale_item planner k item))) = name (furn item).
Proof.
  rewrite rescale_item_run. cbv zeta.
  set (resized := setRect _ _ item). set (p := {| px := _; py := _ |}).
  pose proof (setPos_frame planner p resized) as F. cbv zeta in F.
  destruct F as (F1 & _).
  destruct (setPos planner p resized) as [moved [[]|e]]; simpl in *; exact F1.
Qed.

Lemma for_each_item_names (body : SE FurnitureItem unit) (items : list FurnitureItem) :
  (forall item, name (furn (fst (body item))) = name (furn item)) ->
  map (fun item => name (furn item)) (fst (for_each_item body items)) =
    map (fun item => name (furn item)) items.
Proof.
  intros Hb. induction items as [|item rest IH]; [reflexivity|].
  simpl. pose proof (Hb item) as Hi.
  destruct (body item) as [item' [[]|e]]; simpl in Hi.
  - destruct (for_each_item body rest) as [rest' o]. simpl in *. rewrite Hi, IH. reflexivity.
  - simpl. rewrite Hi. reflexivity.
Qed.

Create HintDb listed discriminated.

Ltac listed_steps :=
  repeat first
    [ solve [auto 1 with listed]
    | match goal with
      | |- keeps _ (ret _) => apply keeps_ret
      | |- keeps _ (raise _) => apply keeps_raise
      | |- keeps _ (lift _) => apply keeps_lift
      | |- keeps _ get => apply keeps_get
      | |- keeps _ (on_local _ _) => apply keeps_on_local
      | |- keeps _ (bind _ _) => apply keeps_bind; [|intros ?]
      | |- keeps _ (try_except _ _) => apply keeps_try_except; [|intros ?]
      | |- keeps _ (for_each _ _) => apply keeps_for_each; intros ?
      | |- keeps _ (modify _) => apply keeps_modify; intros ? ?
      | |- keeps _ (match ?x with _ => _ end) => destruct x
      end ].

(** A window that differs from a listed one in fields the property does
    not read, or by a door or window entry in the list. *)
Ltac listed_done :=
  match goal with
  | H : furniture_listed _ |- furniture_listed _ =>
    first
      [ exact H
      | unfold furniture_listed in *; simpl;
        first [ rewrite furniture_names_app; simpl; rewrite app_nil_r; exact H
              | rewrite take_first_opening_furniture; exact H
              | rewrite map_update_nth; [exact H | intros; reflexivity] ] ]
  end.

Ltac listed := listed_steps; try listed_done.

Lemma new_room_listed : keeps furniture_listed new_room.
Proof.
  intros s _. unfold new_room, draw_room_border. se_unfold. reflexivity.
Qed.
#[local] Hint Resolve new_room_listed : listed.

Lemma on_add_furniture_listed : keeps furniture_listed on_add_furniture.
Proof.
  intros s H. rewrite on_add_furniture_spec. simpl.
  apply (listed_add_items _ s H).
Qed.

Lemma paste_furniture_listed : keeps furniture_listed (paste_furniture None).
Proof.
  intros s H. destruct (clipboard_furniture s) as [c|] eqn:Hc.
  - destruct (Z.eq_dec (pixels_per_m s) 0) as [E|N].
    + rewrite (paste_zero_scale_run s c E Hc). exact H.
    + pose proof (paste_furniture_center_run s c Hc N) as (_ & Hrun). cbv zeta in Hrun.
      rewrite Hrun. apply (listed_add_items _ s H).
  - rewrite (paste_no_clipboard_run s Hc). exact H.
Qed.
#[local] Hint Resolve paste_furniture_listed : listed.

Lemma copy_furniture_listed (f : Furniture) : keeps furniture_listed (copy_furniture f).
Proof. unfold copy_furniture. listed. Qed.
#[local] Hint Resolve copy_furniture_listed : listed.

Lemma load_furniture_listed (d : furn_data) : keeps furniture_listed (load_furniture d).
Proof.
  intros s H. pose proof (load_furniture_spec d s) as P.
  destruct (furniture_of_record d) as [f|].
  - rewrite P. apply (listed_add_items _ s H).
  - destruct P as (key & ->). exact H.
Qed.
#[local] Hint Resolve load_furniture_listed : listed.

Lemma drag_furniture_item_listed (i : nat) (p : QPointF) :
  keeps furniture_listed (drag_furniture_item i p).
Proof.
  intros s H. unfold drag_furniture_item. unfold bind at 1, get at 1.
  destruct (nth_error (furniture_items s) i) as [item|] eqn:E; [|exact H].
  pose proof (setPos_frame s p item) as F. cbv zeta in F. destruct F as (F1 & _).
  destruct (setPos s p item) as [item' o]. simpl in F1.
  assert (Hn : map (fun it => name (furn it))
                 (update_nth i (fun _ => item') (furniture_items s)) =
               map (fun it => name (furn it)) (furniture_items s)).
  { clear H. revert i E. induction (furniture_items s) as [|x l IH]; intros [|i] E;
      simpl in *; try discriminate.
    - injection E as ->. rewrite F1. reflexivity.
    - rewrite (IH i E). reflexivity. }
  unfold furniture_listed in *. destruct o; se_unfold; simpl; rewrite Hn; exact H.
Qed.

Lemma set_canvas_scale_listed (k : Z) : keeps furniture_listed (_set_canvas_scale k).
Proof.
  intros s H. unfold _set_canvas_scale, draw_room_border. se_unfold. simpl.
  pose proof (for_each_item_names
                (rescale_item
                   (set_room_rect_item
                      (Some {| width := room_width_m s * inject_Z k;
                               height := room_depth_m s * inject_Z k |})
                      (set_pixels_per_m k s)) k)
                (furniture_items s)
                (rescale_item_name _ k)) as Hn.
  destruct (for_each_item _ _) as [items o]. simpl in *.
  unfold furniture_listed in *. simpl. rewrite Hn. exact H.
Qed.
#[local] Hint Resolve set_canvas_scale_listed : listed.

Lemma update_ui_from_room_listed : keeps furniture_listed update_ui_from_room.
Proof. unfold update_ui_from_room, floor_combo_setCurrentText. listed. Qed.
#[local] Hint Resolve update_ui_from_room_listed : listed.

Lemma draw_room_border_listed : keeps furniture_listed draw_room_border.
Proof. unfold draw_room_border. listed. Qed.
#[local] Hint Resolve draw_room_border_listed : listed.

Lemma load_layout_listed (filename : option file) :
  keeps furniture_listed (load_layout filename).
Proof. unfold load_layout, open_and_json_load, json_loads, as_dict, _apply_theme. listed. Qed.

Lemma load_cached_room_listed : keeps furniture_listed _load_cached_room.
Proof. unfold _load_cached_room, json_loads, as_dict. listed. Qed.
#[local] Hint Resolve load_cached_room_listed : listed.

Lemma unit_display_listed :
  keeps furniture_listed _update_room_unit_display /\
  keeps furniture_listed _update_furniture_unit_display.
Proof.
  unfold _update_room_unit_display, _update_furniture_unit_display.
  split; cbv zeta; listed.
Qed.

Lemma execute_listed (c : command) : keeps furniture_listed (execute c).
Proof.
  destruct unit_display_listed as (Ur & Uf).
  destruct c; simpl;
    try (unfold edit_room_name_input, on_room_name_changed, edit_room_w_spin,
           edit_room_d_spin, select_room_w_unit, select_room_d_unit, on_room_apply,
           click_snap_checkbox, toggle_snap_to_borders, on_floor_changed, edit_f_w_spin,
           edit_f_d_spin, select_f_w_unit, select_f_d_unit, rotate_selected_furniture,
           copy_selected_furniture, paste_furniture_center, duplicate_selected_furniture,
           add_door, add_window, _add_door_to_list, _save_settings, _cache_current_room;
         listed; fail).
  - apply on_add_furniture_listed.
  - apply drag_furniture_item_listed.
  - apply keeps_bind; [apply load_layout_listed | intros; apply keeps_ret].
Qed.

Lemma perform_listed (a : action) : keeps furniture_listed (perform a).
Proof.
  destruct a as [c|i|i|i|i p|i]; simpl;
    [apply execute_listed | | | | |];
    unfold on_door_item, delete_self, _remove_door_from_list; listed.
Qed.

Lemma in_session_listed (self : RoomPlanner) : in_session self -> furniture_listed self.
Proof.
  induction 1 as [stored | self a _ IH].
  - assert (H0 : furniture_listed (fst (draw_room_border (initial_attributes stored))))
      by reflexivity.
    assert (K : keeps furniture_listed _load_settings).
    { unfold _load_settings, floor_combo_setCurrentText. listed. }
    unfold RoomPlanner_init, bind.
    pose proof (K _ H0) as H1.
    destruct (draw_room_border (initial_attributes stored)) as [s0 [[]|e]];
      [exact H1 | exact H0].
  - apply perform_listed. exact IH.
Qed.

(** X22.  The list widget shows what is on the canvas.  Throughout a
    session (any stored settings, any sequence of the window's commands and
    of actions on doors and windows, returned or raised) the furniture
    entries of the list are the names of the tracked pieces, in the order
    of the pieces, and the list has exactly one entry for every tracked
    piece, door and window. *)
Theorem session_list_shows_canvas (self : RoomPlanner) :
  in_session self ->
  furniture_names (list_widget self) =
    map (fun item => name (furn item)) (furniture_items self) /\
  length (list_widget self) =
    (length (furniture_items self) + length (door_items self))%nat.
Proof.
  intros Hs. pose proof (in_session_listed self Hs) as Hl.
  destruct (in_session_invariant self Hs) as ((_ & Hperm) & _).
  split; [exact Hl|].
  rewrite (entries_split (list_widget self)), Hl, length_map.
  rewrite <- (Permutation_length Hperm). unfold tracked_opening_names.
  rewrite length_map. reflexivity.
Qed.

Lemma session_list_shows_canvas_witness :
  length (list_widget
            (state_after (perform (Do (DuplicateSelected (Some 0%nat))))
               (state_after (perform (Do AddFurniture))
                  (fst (RoomPlanner_init no_settings))))) =
  (length (furniture_items
             (state_after (perform (Do (DuplicateSelected (Some 0%nat))))
                (state_after (perform (Do AddFurniture))
                   (fst (RoomPlanner_init no_settings))))) +
   length (door_items
             (state_after (perform (Do (DuplicateSelected (Some 0%nat))))
                (state_after (perform (Do AddFurniture))
                   (fst (RoomPlanner_init no_settings))))))%nat.
Proof.
  apply session_list_shows_canvas.
  apply session_step. apply session_step. apply session_start.
Defined.
